(** * Call-session dialogue of the telemedicine receptionist

    A shallow embedding of the booking dialogue
    ([services/booking_handler.py]), the keypad menu
    ([services/intent_handler.py]), the availability oracle and the
    appointment creation ([services/calendly.py]), the confirmation
    message ([services/messaging.py]) and the guest validation
    ([agents/receptionist_agent.py]).

    Conventions of the embedding:
    - a Python [str] is a [string]; a character is a code point below 256;
    - a Python [dict] is a [gmap]; the session store
      [secure_session_data] is a [gmap string (gmap string string)];
    - exceptions are the [Raise] case of [result]; a handler is a
      computation over the session store and a log of the calls it makes
      to its collaborators; an exception leaves the store as it was
      mutated so far;
    - external services (text to speech, HTTP, SMS) answer through a
      [World]; library functions whose code is not part of the repository
      (datetime, pydantic's EmailStr, urllib) are fields of [PyLib];
    - [logging] calls are not modelled;
    - [services/intent_handler.py] uses [re] and [os] without importing
      them; it is modelled as it is written: reading either name raises
      [NameError]. *)

From Stdlib Require Import ZArith Ascii String List Bool Lia.
From stdpp Require Import base option gmap strings list.

Local Open Scope string_scope.

(** ** Python string operations *)

Module PyStr.

(** Truth value of a [str]: only the empty string is false. *)
Definition truthy (s : string) : bool :=
  match s with
  | EmptyString => false
  | String _ _ => true
  end.

Definition code (c : ascii) : nat := nat_of_ascii c.

(** [str.isspace] on code points below 256. *)
Definition is_space (c : ascii) : bool :=
  let n := code c in
  (((9 <=? n) && (n <=? 13)) || ((28 <=? n) && (n <=? 32))
   || (n =? 133) || (n =? 160))%nat.

(** The class [[0-9]]; on code points below 256 also [\d]. *)
Definition is_digit (c : ascii) : bool :=
  let n := code c in ((48 <=? n) && (n <=? 57))%nat.

Fixpoint lstrip (s : string) : string :=
  match s with
  | EmptyString => EmptyString
  | String c r => if is_space c then lstrip r else s
  end.

Fixpoint rstrip (s : string) : string :=
  match s with
  | EmptyString => EmptyString
  | String c r =>
      match rstrip r with
      | EmptyString => if is_space c then EmptyString else String c EmptyString
      | r' => String c r'
      end
  end.

(** [s.strip()] *)
Definition strip (s : string) : string := rstrip (lstrip s).

(** Keep the characters that satisfy [p]: [re.sub] of a negated
    one-character class by the empty string. *)
Fixpoint keep (p : ascii -> bool) (s : string) : string :=
  match s with
  | EmptyString => EmptyString
  | String c r => if p c then String c (keep p r) else keep p r
  end.

(** [s.replace(a, b)] for a one-character [a]. *)
Fixpoint replace_char (a : ascii) (b : string) (s : string) : string :=
  match s with
  | EmptyString => EmptyString
  | String c r =>
      if Ascii.eqb c a then b ++ replace_char a b r
      else String c (replace_char a b r)
  end.

(** [str.lower] on code points below 256: A-Z and the Latin-1 capitals
    (0xC0-0xDE without the multiplication sign 0xD7) move up by 32. *)
Definition lower_char (c : ascii) : ascii :=
  let n := code c in
  if (((65 <=? n) && (n <=? 90))
      || ((192 <=? n) && (n <=? 222) && negb (n =? 215)))%nat
  then ascii_of_nat (n + 32) else c.

Fixpoint lower (s : string) : string :=
  match s with
  | EmptyString => EmptyString
  | String c r => String (lower_char c) (lower r)
  end.

Fixpoint starts_with (p s : string) : bool :=
  match p, s with
  | EmptyString, _ => true
  | String a p', String b s' => Ascii.eqb a b && starts_with p' s'
  | String _ _, EmptyString => false
  end.

Fixpoint drop (n : nat) (s : string) : string :=
  match n, s with
  | O, _ => s
  | S n', String _ r => drop n' r
  | S _, EmptyString => EmptyString
  end.

(** [sub in s] *)
Fixpoint contains (sub s : string) : bool :=
  starts_with sub s
  || match s with
     | EmptyString => false
     | String _ r => contains sub r
     end.

(** [s.split(sep)] for a non-empty [sep]; [acc] holds the current piece,
    reversed. [fuel] bounds the recursion by the length of [s]. *)
Fixpoint split_go (fuel : nat) (sep : string) (acc : string) (s : string)
  : list string :=
  match fuel with
  | O => [String.rev acc]
  | S fuel' =>
      match s with
      | EmptyString => [String.rev acc]
      | String c r =>
          if starts_with sep s
          then String.rev acc
               :: split_go fuel' sep EmptyString (drop (String.length sep) s)
          else split_go fuel' sep (String c acc) r
      end
  end.

Definition split (sep s : string) : list string :=
  split_go (S (String.length s)) sep EmptyString s.

(** The first maximal run of digits: [re.search(r'\d+', s).group()],
    [None] when [re.search] finds nothing. *)
Fixpoint take_digits (s : string) : string :=
  match s with
  | EmptyString => EmptyString
  | String c r => if is_digit c then String c (take_digits r) else EmptyString
  end.

Fixpoint search_digits (s : string) : option string :=
  match s with
  | EmptyString => None
  | String c r => if is_digit c then Some (take_digits s) else search_digits r
  end.

(** [int(s)] for a string of decimal digits. *)
Definition int_of_digits (s : string) : Z :=
  fold_left (fun acc c => (10 * acc + Z.of_nat (code c - 48))%Z)
            (list_ascii_of_string s) 0%Z.

End PyStr.

(** ** Exceptions, collaborators and the handler monad *)

Inductive exn : Type :=
| ValueError (msg : string)
| KeyError (key : string)
| IndexError
| AttributeError
| NameError (name : string)
| ServiceError (service : string).

Inductive result (A : Type) : Type :=
| Ok (a : A)
| Raise (e : exn).
Arguments Ok {A} a.
Arguments Raise {A} e.

Definition rbind {A B : Type} (r : result A) (k : A -> result B) : result B :=
  match r with
  | Ok a => k a
  | Raise e => Raise e
  end.

(** What a service answers, [None] when the call raises. *)
Definition of_service {A : Type} (service : string) (o : option A) : result A :=
  match o with
  | Some a => Ok a
  | None => Raise (ServiceError service)
  end.

(** Library functions the repository calls but does not define. *)
Record PyLib : Type := {
  datetime : Type;
  (** [datetime.fromisoformat], [None] for its [ValueError] *)
  fromisoformat : string -> option datetime;
  weekday : datetime -> Z;
  (** [d + timedelta(days=n)] and [d + timedelta(minutes=n)] *)
  plus_days : datetime -> Z -> datetime;
  plus_minutes : datetime -> Z -> datetime;
  (** [datetime(d.year, d.month, d.day, hour)] for an hour in 0..23 *)
  at_hour : datetime -> Z -> datetime;
  isoformat : datetime -> string;
  (** pydantic's [EmailStr]: the validated address, [None] when rejected *)
  EmailStr : string -> option string;
  (** [urlparse]: scheme, netloc and path, [None] when it raises *)
  urlparse : string -> option (string * string * string);
  urljoin : string -> string -> string
}.

(** Module constants read from the environment or hidden in the source. *)
Record Config : Type := {
  (** [DOCTOR_EVENT_MAP], in insertion order: (doctor, department) to the
      event type identifier *)
  DOCTOR_EVENT_MAP : list ((string * string) * string);
  CALENDLY_API_KEY : string;
  HUMAN_SUPPORT_NUMBER : string;
  TWILIO_SID : string;
  TWILIO_AUTH_TOKEN : string;
  TWILIO_FROM_NUMBER : string
}.

(** The answer of [requests.get] to the scheduled-events query:
    [collection] is [data.get("collection", [])] of the decoded body,
    [None] when decoding raises. *)
Record GetResponse : Type := {
  get_status_code : Z;
  collection : option (list string)
}.

(** The answer of [requests.post] to the scheduling-link request:
    [booking_url] is [data["resource"]["booking_url"]], [None] when that
    lookup raises. *)
Record PostResponse : Type := {
  post_status_code : Z;
  booking_url : option string
}.

(** The external services as one webhook turn finds them. *)
Record World (L : PyLib) : Type := {
  (** [elevenlabs.generate_audio]: the audio URL, [None] when it raises *)
  generate_audio : string -> option string;
  (** [datetime.now()] *)
  now : datetime L;
  (** [requests.get] on the scheduled events of an event type between
      two instants, [None] when it raises *)
  requests_get : string -> string -> string -> option GetResponse;
  (** [requests.post] of a scheduling link: owner, start, end, invitee
      email and name *)
  requests_post : string -> string -> string -> string -> string
                  -> option PostResponse;
  (** [Client(...).messages.create(body, from_, to)]: the message SID *)
  messages_create : string -> string -> string -> option string
}.
Arguments generate_audio {L} _ _.
Arguments now {L} _.
Arguments requests_get {L} _ _ _ _.
Arguments requests_post {L} _ _ _ _ _ _.
Arguments messages_create {L} _ _ _ _.

(** Calls of a handler to the collaborators of the dialogue, each with
    the answer it got. *)
Inductive Effect : Type :=
| CallIsAvailable (doctor time_text : string) (answer : bool)
| CallCreateAppointment (doctor department name email time_text : string)
                        (link : option string)
| CallSendSms (to_number doctor time_text link : string) (sent : bool).

Record State : Type := mkState {
  store : gmap string (gmap string string);
  log : list Effect
}.

Definition M (A : Type) : Type := State -> result A * State.

Definition ret {A : Type} (a : A) : M A := fun st => (Ok a, st).

Definition bind {A B : Type} (m : M A) (k : A -> M B) : M B :=
  fun st =>
    match m st with
    | (Ok a, st') => k a st'
    | (Raise e, st') => (Raise e, st')
    end.

Definition raise {A : Type} (e : exn) : M A := fun st => (Raise e, st).

(** [try: body except Exception as e: handler] *)
Definition try_except {A : Type} (body : M A) (handler : exn -> M A) : M A :=
  fun st =>
    match body st with
    | (Ok a, st') => (Ok a, st')
    | (Raise e, st') => handler e st'
    end.

Definition lift {A : Type} (r : result A) : M A := fun st => (r, st).

Definition get_store : M (gmap string (gmap string string)) :=
  fun st => (Ok (store st), st).

Definition put_store (s : gmap string (gmap string string)) : M unit :=
  fun st => (Ok tt, mkState s (log st)).

Definition emit (e : Effect) : M unit :=
  fun st => (Ok tt, mkState (store st) (log st ++ [e])).

Declare Scope handler_scope.
Delimit Scope handler_scope with handler.
Notation "x <- m ;; k" := (bind m (fun x => k))
  (at level 100, m at next level, right associativity) : handler_scope.
Notation "m ;;; k" := (bind m (fun _ => k))
  (at level 100, right associativity) : handler_scope.

(** [d[key]] *)
Definition dict_item (d : gmap string string) (key : string) : result string :=
  match d !! key with
  | Some v => Ok v
  | None => Raise (KeyError key)
  end.

(** [request_obj.form.get(key, "")] *)
Definition form_get (form : gmap string string) (key : string) : string :=
  default "" (form !! key).

(** The verbs of a TwiML voice response, in document order. Every
    [Gather] of the dialogue listens for speech and posts to [action]. *)
Inductive Verb : Type :=
| Play (url : string)
| Gather (action : string)
| Redirect (url : string)
| Dial (number : string)
| Hangup.

Definition Response : Type := list Verb.

Definition is_markup (c : ascii) : bool :=
  Ascii.eqb c "<" || Ascii.eqb c ">" || Ascii.eqb c ";"
  || Ascii.eqb c "{" || Ascii.eqb c "}".

Definition not_markup (c : ascii) : bool := negb (is_markup c).

(** [re.sub(r'[<>;{}]', '', s)] *)
Definition strip_markup (s : string) : string := PyStr.keep not_markup s.

(** ** The E.164-like phone pattern [^\+?[1-9]\d{1,14}$]

    [match_phone anchor] runs the pattern from the start of the string;
    [anchor] decides whether [$] holds in front of what is left after the
    digits. The digits are taken greedily: giving one back leaves a digit
    in front of [$], where no anchor holds. *)

Definition skip_plus (s : string) : string :=
  match s with
  | String "+" r => r
  | _ => s
  end.

Definition is_digit_1_9 (c : ascii) : bool :=
  let n := PyStr.code c in ((49 <=? n) && (n <=? 57))%nat.

Fixpoint take_digits_upto (n : nat) (s : string) : string :=
  match n, s with
  | S n', String c r =>
      if PyStr.is_digit c then String c (take_digits_upto n' r) else EmptyString
  | _, _ => EmptyString
  end.

Definition match_phone (anchor : string -> bool) (s : string) : bool :=
  match skip_plus s with
  | String c r =>
      let ds := take_digits_upto 14 r in
      is_digit_1_9 c && (1 <=? String.length ds)%nat
      && anchor (PyStr.drop (String.length ds) r)
  | EmptyString => false
  end.

(** [$] of Python's [re]: the end of the string, or just before a newline
    that ends the string. *)
Definition dollar_python (rest : string) : bool :=
  String.eqb rest "" || String.eqb rest (String "010" "").

(** [$] of the regex engine behind pydantic's [pattern]: the end of the
    string only. *)
Definition dollar_end (rest : string) : bool := String.eqb rest "".

(** [re.match(r'^\+?[1-9]\d{1,14}$', s)] is not [None] *)
Definition re_match_phone (s : string) : bool := match_phone dollar_python s.

(** The pattern as the specification words it: an optional leading [+],
    a first digit 1-9, then 1 to 14 further digits, and nothing else. *)
Fixpoint all_digits (s : string) : bool :=
  match s with
  | EmptyString => true
  | String c r => PyStr.is_digit c && all_digits r
  end.

Definition e164_like (s : string) : bool :=
  match skip_plus s with
  | String c r =>
      is_digit_1_9 c && all_digits r
      && (1 <=? String.length r)%nat && (String.length r <=? 14)%nat
  | EmptyString => false
  end.

(** ** [agents/receptionist_agent.py] *)

Module Receptionist.

(** The four entries of a [guest_data] dictionary, and the fields of a
    validated [GuestInfo]. *)
Record GuestInfo : Type := {
  name : string;
  email : string;
  phone : string;
  purpose : string
}.

Definition _sanitize_string (input_string : string) : string :=
  strip_markup (PyStr.strip input_string).

Definition length_between (lo hi : nat) (s : string) : bool :=
  ((lo <=? String.length s) && (String.length s <=? hi))%nat.

(** The constructor call on the sanitized data: [None] for a
    [ValidationError]. *)
Definition GuestInfo_validate (L : PyLib) (d : GuestInfo) : option GuestInfo :=
  match EmailStr L (email d) with
  | Some e =>
      if length_between 2 100 (name d)
         && match_phone dollar_end (phone d)
         && length_between 5 200 (purpose d)
      then Some {| name := name d; email := e;
                   phone := phone d; purpose := purpose d |}
      else None
  | None => None
  end.

Definition validate_input (L : PyLib) (guest_data : GuestInfo)
  : option GuestInfo :=
  let sanitized_data :=
    {| name := _sanitize_string (name guest_data);
       email := _sanitize_string (email guest_data);
       phone := _sanitize_string (phone guest_data);
       purpose := _sanitize_string (purpose guest_data) |} in
  GuestInfo_validate L sanitized_data.

End Receptionist.

(** ** [services/calendly.py] *)

Module Calendly.

Definition _sanitize_input (input_str : string) : string :=
  if PyStr.truthy input_str
  then strip_markup
         (PyStr.replace_char " " "_" (PyStr.lower (PyStr.strip input_str)))
  else "".

Definition day_map (day : string) : option Z :=
  if String.eqb day "monday" then Some 0%Z
  else if String.eqb day "tuesday" then Some 1%Z
  else if String.eqb day "wednesday" then Some 2%Z
  else if String.eqb day "thursday" then Some 3%Z
  else if String.eqb day "friday" then Some 4%Z
  else if String.eqb day "saturday" then Some 5%Z
  else if String.eqb day "sunday" then Some 6%Z
  else None.

(** The [except ValueError] branch of [_parse_datetime]: the fallback
    for a text such as "Monday at 2 PM". *)
Definition parse_natural {L : PyLib} (w : World L) (time_text : string)
  : result (option (datetime L)) :=
  let time_text := PyStr.lower time_text in
  if PyStr.contains " at " time_text then
    match PyStr.split " at " time_text with
    | [day; time] =>
        match PyStr.search_digits time with
        | None => Raise AttributeError
        | Some ds =>
            let hour := PyStr.int_of_digits ds in
            let hour :=
              if PyStr.contains "pm" time && (hour <? 12)%Z
              then (hour + 12)%Z else hour in
            match day_map (PyStr.strip day) with
            | None => Raise (ValueError "Invalid day")
            | Some target_day =>
                let today := now w in
                let d := ((target_day - weekday L today + 7) mod 7)%Z in
                let days_ahead := if (d =? 0)%Z then 7%Z else d in
                let target_date := plus_days L today days_ahead in
                if ((0 <=? hour) && (hour <=? 23))%Z
                then Ok (Some (at_hour L target_date hour))
                else Raise (ValueError "hour must be in 0..23")
            end
        end
    | _ => Raise (ValueError "wrong number of values to unpack")
    end
  else Ok None.

Definition _parse_datetime {L : PyLib} (w : World L) (time_text : string)
  : option (datetime L) :=
  match fromisoformat L time_text with
  | Some d => Some d
  | None =>
      match parse_natural w time_text with
      | Ok o => o
      | Raise _ => None
      end
  end.

(** [DOCTOR_EVENT_MAP.get(key)]; the keys of a dictionary are distinct. *)
Fixpoint event_map_get (m : list ((string * string) * string))
         (key : string * string) : option string :=
  match m with
  | [] => None
  | (k, v) :: m' =>
      if String.eqb (fst k) (fst key) && String.eqb (snd k) (snd key)
      then Some v else event_map_get m' key
  end.

(** [list(DOCTOR_EVENT_MAP.values())[0]] *)
Definition first_event_type (m : list ((string * string) * string))
  : result string :=
  match m with
  | [] => Raise IndexError
  | (_, v) :: _ => Ok v
  end.

Definition event_type_url (event_type_uuid : string) : string :=
  "https://api.calendly.com/event_types/" ++ event_type_uuid.

(** The [try] block of [is_time_available]. The default of
    [DOCTOR_EVENT_MAP.get] is evaluated before the lookup. *)
Definition is_time_available_body {L : PyLib} (C : Config) (w : World L)
           (doctor_name time_text : string) : result bool :=
  let doctor_name := _sanitize_input doctor_name in
  if negb (PyStr.truthy doctor_name) then Ok false
  else
    match _parse_datetime w time_text with
    | None => Ok false
    | Some start_time =>
        let end_time := plus_minutes L start_time 30 in
        rbind (first_event_type (DOCTOR_EVENT_MAP C)) (fun fallback =>
        let event_type_uuid :=
          default fallback
            (event_map_get (DOCTOR_EVENT_MAP C) (doctor_name, "general")) in
        rbind (of_service "requests.get"
                 (requests_get w (event_type_url event_type_uuid)
                    (isoformat L start_time) (isoformat L end_time)))
              (fun response =>
        if (get_status_code response =? 200)%Z then
          rbind (of_service "response.json" (collection response))
                (fun events =>
          let is_available :=
            match events with
            | [] => true
            | _ :: _ => false
            end in
          Ok is_available)
        else Ok false))
    end.

Definition is_time_available {L : PyLib} (C : Config) (w : World L)
           (doctor_name time_text : string) : bool :=
  match is_time_available_body C w doctor_name time_text with
  | Ok b => b
  | Raise _ => false
  end.

(** The [try] block of [create_calendly_appointment]; [user_info] is the
    dictionary with the keys [name] and [email] that the booking handler
    passes, so the fallback phone is always taken. *)
Definition create_calendly_appointment_body {L : PyLib} (C : Config)
           (w : World L) (doctor_name department : string)
           (user_name user_email : string) (appointment_time : string)
  : result string :=
  let doctor_name := _sanitize_input doctor_name in
  let department := _sanitize_input department in
  match event_map_get (DOCTOR_EVENT_MAP C) (doctor_name, department) with
  | None => Raise (ValueError "No event type found")
  | Some event_type_uuid =>
      if negb (PyStr.truthy event_type_uuid)
      then Raise (ValueError "No event type found")
      else
        let guest_data :=
          {| Receptionist.name := _sanitize_input user_name;
             Receptionist.email := user_email;
             Receptionist.phone := "+1234567890";
             Receptionist.purpose :=
               "Appointment with " ++ doctor_name ++ " in " ++ department
               ++ " at " ++ appointment_time |} in
        match Receptionist.validate_input L guest_data with
        | None => Raise (ValueError "User data validation failed")
        | Some validated_guest =>
            match _parse_datetime w appointment_time with
            | None => Raise (ValueError "Invalid appointment time format")
            | Some start_time =>
                let end_time := plus_minutes L start_time 30 in
                rbind (of_service "requests.post"
                         (requests_post w (event_type_url event_type_uuid)
                            (isoformat L start_time) (isoformat L end_time)
                            (Receptionist.email validated_guest)
                            (Receptionist.name validated_guest)))
                      (fun response =>
                if (post_status_code response =? 201)%Z
                then of_service "booking_url" (booking_url response)
                else Raise (ServiceError "Calendly API error"))
            end
        end
  end.

(** The booking URL, [None] on any failure. *)
Definition create_calendly_appointment {L : PyLib} (C : Config)
           (w : World L) (doctor_name department : string)
           (user_name user_email : string) (appointment_time : string)
  : option string :=
  match create_calendly_appointment_body C w doctor_name department
          user_name user_email appointment_time with
  | Ok url => Some url
  | Raise _ => None
  end.

End Calendly.

(** ** [services/messaging.py] *)

Module Messaging.

Definition _sanitize_input (input_str : string) : string :=
  if PyStr.truthy input_str then strip_markup (PyStr.strip input_str)
  else "".

Definition _sanitize_url (L : PyLib) (url : string) : option string :=
  match urlparse L url with
  | Some (scheme, netloc, path) =>
      if negb (String.eqb scheme "http" || String.eqb scheme "https")
         || negb (PyStr.truthy netloc)
      then None
      else Some (urljoin L (scheme ++ "://" ++ netloc) path)
  | None => None
  end.

(** [body[:1597] + "..."] when the body is longer than 1600 *)
Definition truncate_body (body : string) : string :=
  if (1600 <? String.length body)%nat
  then String.substring 0 1597 body ++ "..."
  else body.

Definition send_confirmation_sms {L : PyLib} (C : Config) (w : World L)
           (to_number doctor time calendly_link : string) : bool :=
  let to_number := _sanitize_input to_number in
  let doctor := _sanitize_input doctor in
  let time := _sanitize_input time in
  match _sanitize_url L calendly_link with
  | None => false
  | Some calendly_link =>
      if negb (PyStr.truthy to_number && PyStr.truthy doctor
               && PyStr.truthy time && PyStr.truthy calendly_link)
      then false
      else
        let guest_data :=
          {| Receptionist.name := "Guest";
             Receptionist.email := "guest@example.com";
             Receptionist.phone := to_number;
             Receptionist.purpose :=
               "Appointment confirmation with " ++ doctor ++ " at " ++ time |} in
        match Receptionist.validate_input L guest_data with
        | None => false
        | Some validated_guest =>
            let body :=
              truncate_body
                ("Your appointment with Dr. " ++ doctor ++ " is confirmed for "
                 ++ time ++ ". Details: " ++ calendly_link) in
            match messages_create w body (TWILIO_FROM_NUMBER C)
                    (Receptionist.phone validated_guest) with
            | Some _ => true
            | None => false
            end
        end
  end.

End Messaging.

(** ** [services/intent_handler.py] *)

Module Intent.

Local Open Scope handler_scope.

(** The names that the import statements of the module bind (l.1-5):
    [logging], [Optional], [Response], [request], [VoiceResponse], [Play]
    and [generate_audio]. Neither [os] nor [re] is among them. *)
Definition imported : list string :=
  ["logging"; "Optional"; "Response"; "request"; "VoiceResponse"; "Play";
   "generate_audio"].

(** Reading a module name at run time: a name that the module never binds
    raises [NameError]. *)
Definition global_name (name : string) : result unit :=
  if existsb (String.eqb name) imported then Ok tt else Raise (NameError name).

(** The statements at the top of the module that can fail (l.19-22):
    [HUMAN_SUPPORT_NUMBER = os.getenv(...)], whose value is the field of
    the configuration, and the check that it starts with [+]. Importing
    the module runs them. *)
Definition module_top (C : Config) : result unit :=
  rbind (global_name "os") (fun _ =>
    match HUMAN_SUPPORT_NUMBER C with
    | String "+" _ => Ok tt
    | _ => Raise (ValueError "HUMAN_SUPPORT_NUMBER must start with '+'")
    end).

(** Empty input returns at once; otherwise only digits are kept, by
    [re.sub(r'[^0-9]', '', input_str.strip())], which reads the name [re]. *)
Definition _sanitize_input (input_str : string) : result string :=
  if PyStr.truthy input_str
  then rbind (global_name "re") (fun _ =>
         Ok (PyStr.keep PyStr.is_digit (PyStr.strip input_str)))
  else Ok "".

Definition _generate_audio_url {L : PyLib} (w : World L) (text : string)
  : M string :=
  lift (of_service "generate_audio" (generate_audio w text)).

Definition process_numeric_selection {L : PyLib} (C : Config) (w : World L)
           (form : gmap string string) : M Response :=
  try_except
    (digit <- lift (_sanitize_input (form_get form "Digits")) ;;
     call_sid <- lift (_sanitize_input (form_get form "CallSid")) ;;
     if negb (PyStr.truthy call_sid) then raise (ValueError "Missing CallSid")
     else if negb (PyStr.truthy digit) then
       u <- _generate_audio_url w "Invalid input. Let's try again." ;;
       ret [Play u; Redirect "/voice"]
     else if String.eqb digit "1" then
       u <- _generate_audio_url w "Great! Let's book your appointment." ;;
       ret [Play u; Redirect "/book-appointment"]
     else if String.eqb digit "2" then
       u <- _generate_audio_url w "Okay, let's cancel your appointment." ;;
       ret [Play u; Redirect "/cancel-appointment"]
     else if String.eqb digit "3" then
       u <- _generate_audio_url w "Sure, we will reschedule your appointment." ;;
       ret [Play u; Redirect "/reschedule-appointment"]
     else if String.eqb digit "4" then
       u <- _generate_audio_url w "Checking doctor availability now." ;;
       ret [Play u; Redirect "/check-availability"]
     else if String.eqb digit "5" then
       u <- _generate_audio_url w "Connecting you to a human agent now." ;;
       ret [Play u; Dial (HUMAN_SUPPORT_NUMBER C)]
     else
       u <- _generate_audio_url w "Invalid input. Let's try again." ;;
       ret [Play u; Redirect "/voice"])
    (fun _ =>
       u <- _generate_audio_url w "An error occurred. Please try again later." ;;
       ret [Play u; Redirect "/voice"]).

End Intent.

(** ** [services/booking_handler.py] *)

Module Booking.

Local Open Scope handler_scope.

Definition _sanitize_input (input_str : string) : string :=
  if PyStr.truthy input_str then strip_markup (PyStr.strip input_str)
  else "".

Definition _generate_audio_url {L : PyLib} (w : World L) (text : string)
  : M string :=
  lift (of_service "generate_audio" (generate_audio w text)).

(** The [except Exception] block shared by the four handlers after the
    doctor step. *)
Definition on_error {L : PyLib} (w : World L) (text : string) (_ : exn)
  : M Response :=
  u <- _generate_audio_url w text ;;
  ret [Play u; Redirect "/book-appointment"].

Definition capture_doctor_name {L : PyLib} (w : World L)
           (form : gmap string string) : M Response :=
  try_except
    (let call_sid := _sanitize_input (form_get form "CallSid") in
     if negb (PyStr.truthy call_sid) then raise (ValueError "Missing CallSid")
     else
       let doctor_name := _sanitize_input (form_get form "SpeechResult") in
       if negb (PyStr.truthy doctor_name) then
         u <- _generate_audio_url w "No doctor name provided. Please try again." ;;
         ret [Play u; Redirect "/book-appointment"]
       else
         sessions <- get_store ;;
         put_store (<[call_sid := {[ "doctor" := doctor_name ]}]> sessions) ;;;
         u1 <- _generate_audio_url w
                 ("Great. You said Doctor " ++ doctor_name ++ ".") ;;
         u2 <- _generate_audio_url w
                 "Please say the date and time you'd like to book. For example, say Monday at 2 PM." ;;
         u3 <- _generate_audio_url w "Sorry, I didn't catch that." ;;
         ret [Play u1; Play u2; Gather "/capture-appointment-time";
              Play u3; Redirect "/book-appointment"])
    (on_error w "An error occurred. Please try again.").

Definition capture_appointment_time {L : PyLib} (C : Config) (w : World L)
           (form : gmap string string) : M Response :=
  try_except
    (let call_sid := _sanitize_input (form_get form "CallSid") in
     let time_text := _sanitize_input (form_get form "SpeechResult") in
     sessions <- get_store ;;
     if negb (PyStr.truthy call_sid)
     then raise (ValueError "Invalid or missing CallSid")
     else
       match sessions !! call_sid with
       | None => raise (ValueError "Invalid or missing CallSid")
       | Some session =>
           if negb (PyStr.truthy time_text)
           then raise (ValueError "No appointment time provided")
           else
             let session := <["time_text" := time_text]> session in
             put_store (<[call_sid := session]> sessions) ;;;
             doctor <- lift (dict_item session "doctor") ;;
             let available :=
               Calendly.is_time_available C w doctor time_text in
             emit (CallIsAvailable doctor time_text available) ;;;
             if negb available then
               u1 <- _generate_audio_url w
                       ("I'm sorry, Dr. " ++ doctor ++ " is not available at "
                        ++ time_text ++ ".") ;;
               u2 <- _generate_audio_url w
                       "Please say a different date and time." ;;
               ret [Play u1; Play u2; Gather "/capture-appointment-time"]
             else
               u1 <- _generate_audio_url w
                       ("Dr. " ++ doctor ++ " is available at "
                        ++ time_text ++ ".") ;;
               u2 <- _generate_audio_url w "Please say your full name." ;;
               ret [Play u1; Play u2; Gather "/capture-user-name"]
       end)
    (on_error w "An error occurred. Please try again.").

Definition capture_user_name {L : PyLib} (w : World L)
           (form : gmap string string) : M Response :=
  try_except
    (let call_sid := _sanitize_input (form_get form "CallSid") in
     let name := _sanitize_input (form_get form "SpeechResult") in
     sessions <- get_store ;;
     if negb (PyStr.truthy call_sid)
     then raise (ValueError "Invalid or missing CallSid")
     else
       match sessions !! call_sid with
       | None => raise (ValueError "Invalid or missing CallSid")
       | Some session =>
           if negb (PyStr.truthy name)
           then raise (ValueError "No name provided")
           else
             put_store (<[call_sid := <["name" := name]> session]> sessions) ;;;
             u <- _generate_audio_url w
                    "Thanks. Now say your mobile number digit by digit." ;;
             ret [Play u; Gather "/capture-user-phone"]
       end)
    (on_error w "An error occurred. Please try again.").

(** The spoken number with spaces and hyphens removed. *)
Definition clean_phone (speech : string) : string :=
  PyStr.replace_char "-" "" (PyStr.replace_char " " "" (_sanitize_input speech)).

Definition capture_user_phone {L : PyLib} (w : World L)
           (form : gmap string string) : M Response :=
  try_except
    (let call_sid := _sanitize_input (form_get form "CallSid") in
     let phone := clean_phone (form_get form "SpeechResult") in
     sessions <- get_store ;;
     if negb (PyStr.truthy call_sid)
     then raise (ValueError "Invalid or missing CallSid")
     else
       match sessions !! call_sid with
       | None => raise (ValueError "Invalid or missing CallSid")
       | Some session =>
           if negb (PyStr.truthy phone) || negb (re_match_phone phone)
           then raise (ValueError "Invalid phone number format")
           else
             put_store (<[call_sid := <["phone" := phone]> session]> sessions) ;;;
             u <- _generate_audio_url w "Please say your address." ;;
             ret [Play u; Gather "/capture-user-address"]
       end)
    (on_error w "An error occurred. Please try again.").

(** The Booking Request derived from a session. *)
Definition guest_data_of (name phone doctor time_text : string)
  : Receptionist.GuestInfo :=
  {| Receptionist.name := name;
     Receptionist.email :=
       PyStr.replace_char " " "." (PyStr.lower name) ++ "@example.com";
     Receptionist.phone := phone;
     Receptionist.purpose :=
       "Appointment with Dr. " ++ doctor ++ " at " ++ time_text |}.

Definition capture_user_address {L : PyLib} (C : Config) (w : World L)
           (form : gmap string string) : M Response :=
  try_except
    (let call_sid := _sanitize_input (form_get form "CallSid") in
     let address := _sanitize_input (form_get form "SpeechResult") in
     sessions <- get_store ;;
     if negb (PyStr.truthy call_sid)
     then raise (ValueError "Invalid or missing CallSid")
     else
       match sessions !! call_sid with
       | None => raise (ValueError "Invalid or missing CallSid")
       | Some session =>
           if negb (PyStr.truthy address)
           then raise (ValueError "No address provided")
           else
             let session := <["address" := address]> session in
             put_store (<[call_sid := session]> sessions) ;;;
             name <- lift (dict_item session "name") ;;
             phone <- lift (dict_item session "phone") ;;
             doctor <- lift (dict_item session "doctor") ;;
             time_text <- lift (dict_item session "time_text") ;;
             match Receptionist.validate_input L
                     (guest_data_of name phone doctor time_text) with
             | None => raise (ValueError "Guest data validation failed")
             | Some validated_guest =>
                 u1 <- _generate_audio_url w "Confirming your booking details." ;;
                 u2 <- _generate_audio_url w
                         ("You want to book with Doctor " ++ doctor ++ " at "
                          ++ time_text ++ ".") ;;
                 u3 <- _generate_audio_url w
                         ("Your name is " ++ name ++ ", phone " ++ phone
                          ++ ", address " ++ address ++ ".") ;;
                 u4 <- _generate_audio_url w "Booking your appointment now." ;;
                 let email := Receptionist.email validated_guest in
                 let calendly_link :=
                   Calendly.create_calendly_appointment C w doctor "general"
                     name email time_text in
                 emit (CallCreateAppointment doctor "general" name email
                         time_text calendly_link) ;;;
                 match calendly_link with
                 | None => raise (ValueError "Failed to create Calendly appointment")
                 | Some link =>
                     if negb (PyStr.truthy link)
                     then raise (ValueError "Failed to create Calendly appointment")
                     else
                       let sent :=
                         Messaging.send_confirmation_sms C w phone doctor
                           time_text link in
                       emit (CallSendSms phone doctor time_text link sent) ;;;
                       u5 <- _generate_audio_url w
                               "Your appointment has been successfully booked. A confirmation message has been sent to your phone." ;;
                       sessions' <- get_store ;;
                       put_store (delete call_sid sessions') ;;;
                       ret [Play u1; Play u2; Play u3; Play u4; Play u5; Hangup]
                 end
             end
       end)
    (on_error w "An error occurred while booking your appointment. Please try again.").

End Booking.

(** ** The dialogue as a sequence of webhook turns *)

Inductive Step : Type :=
| AwaitingDoctor
| AwaitingTime
| AwaitingName
| AwaitingPhone
| AwaitingAddress.

(** One callback: the endpoint it is posted to, the services as they are
    at that moment, and the posted form. *)
Record Turn (L : PyLib) : Type := mkTurn {
  turn_step : Step;
  turn_world : World L;
  turn_form : gmap string string
}.
Arguments mkTurn {L} _ _ _.
Arguments turn_step {L} _.
Arguments turn_world {L} _.
Arguments turn_form {L} _.

Definition handle {L : PyLib} (C : Config) (t : Turn L) : M Response :=
  match turn_step t with
  | AwaitingDoctor => Booking.capture_doctor_name (turn_world t) (turn_form t)
  | AwaitingTime => Booking.capture_appointment_time C (turn_world t) (turn_form t)
  | AwaitingName => Booking.capture_user_name (turn_world t) (turn_form t)
  | AwaitingPhone => Booking.capture_user_phone (turn_world t) (turn_form t)
  | AwaitingAddress => Booking.capture_user_address C (turn_world t) (turn_form t)
  end.

(** The state after a sequence of callbacks; whatever a handler returns
    or raises, the store stays as the handler left it. *)
Fixpoint run_turns {L : PyLib} (C : Config) (ts : list (Turn L)) (st : State)
  : State :=
  match ts with
  | [] => st
  | t :: ts' => run_turns C ts' (snd (handle C t st))
  end.

(** The field a step writes, and the field written by the step before. *)
Definition field_of (s : Step) : string :=
  match s with
  | AwaitingDoctor => "doctor"
  | AwaitingTime => "time_text"
  | AwaitingName => "name"
  | AwaitingPhone => "phone"
  | AwaitingAddress => "address"
  end.

Definition session_fields : list string :=
  ["doctor"; "time_text"; "name"; "phone"; "address"].

(** No field of [fields] is present after an absent one. *)
Fixpoint prefix_closed (fields : list string) (session : gmap string string)
  : bool :=
  match fields with
  | [] => true
  | f :: rest =>
      match session !! f with
      | Some _ => prefix_closed rest session
      | None =>
          forallb (fun g => match session !! g with
                            | None => true
                            | Some _ => false
                            end) rest
      end
  end.

Definition fields_in_order (session : gmap string string) : bool :=
  prefix_closed session_fields session.

Definition empty_state : State := mkState ∅ [].

Definition is_creation (e : Effect) : bool :=
  match e with
  | CallCreateAppointment _ _ _ _ _ _ => true
  | _ => false
  end.

Definition is_sms (e : Effect) : bool :=
  match e with
  | CallSendSms _ _ _ _ _ => true
  | _ => false
  end.

Definition count_creations (l : list Effect) : nat :=
  length (List.filter is_creation l).

Definition count_sms (l : list Effect) : nat :=
  length (List.filter is_sms l).

(** The text-to-speech service answers every request of the turn. *)
Definition audio_up {L : PyLib} (w : World L) : Prop :=
  forall text, is_Some (generate_audio w text).

(** The call identifier and the spoken value as the booking handlers read
    them from the form. *)
Definition sid_of (form : gmap string string) : string :=
  Booking._sanitize_input (form_get form "CallSid").

Definition speech_of (form : gmap string string) : string :=
  Booking._sanitize_input (form_get form "SpeechResult").

(** The check a step makes on its own input before it writes its field:
    a non-empty value, and for the phone step a match of the pattern. The
    availability of a time is asked after the time is written. *)
Definition step_input_valid (s : Step) (form : gmap string string) : bool :=
  match s with
  | AwaitingPhone =>
      let phone := Booking.clean_phone (form_get form "SpeechResult") in
      PyStr.truthy phone && re_match_phone phone
  | _ => PyStr.truthy (speech_of form)
  end.

(** A callback arrives in order when the session of its call, if there is
    one, already holds the field of the step before. *)
Definition turn_in_order {L : PyLib} (t : Turn L) (st : State) : bool :=
  match store st !! sid_of (turn_form t) with
  | None => true
  | Some session =>
      match turn_step t with
      | AwaitingDoctor => true
      | AwaitingTime => bool_decide (is_Some (session !! "doctor"))
      | AwaitingName => bool_decide (is_Some (session !! "time_text"))
      | AwaitingPhone => bool_decide (is_Some (session !! "name"))
      | AwaitingAddress => bool_decide (is_Some (session !! "phone"))
      end
  end.

Fixpoint turns_in_order {L : PyLib} (C : Config) (ts : list (Turn L))
         (st : State) : bool :=
  match ts with
  | [] => true
  | t :: ts' => turn_in_order t st && turns_in_order C ts' (snd (handle C t st))
  end.

(** The shape "day at N AM/PM" that the fallback of [_parse_datetime]
    accepts: lowercased, exactly one " at ", a weekday name in front, a
    number behind, and an hour that is at most 23 after the PM shift. *)
Definition day_at_hour_shape (time_text : string) : bool :=
  let t := PyStr.lower time_text in
  PyStr.contains " at " t
  && match PyStr.split " at " t with
     | [day; time] =>
         match PyStr.search_digits time, Calendly.day_map (PyStr.strip day) with
         | Some ds, Some _ =>
             let hour := PyStr.int_of_digits ds in
             let hour :=
               if PyStr.contains "pm" time && (hour <? 12)%Z
               then (hour + 12)%Z else hour in
             (hour <=? 23)%Z
         | _, _ => false
         end
     | _ => false
     end.

(** Every character of [s] satisfies [p]. *)
Fixpoint all_chars (p : ascii -> bool) (s : string) : bool :=
  match s with
  | EmptyString => true
  | String c r => p c && all_chars p r
  end.

(** The invariant of an orderly dialogue: the fields are filled in step
    order and the doctor is there. *)
Definition orderly (s : gmap string string) : Prop :=
  fields_in_order s = true /\ is_Some (s !! "doctor").

Definition previous_field (step : Step) : string :=
  match step with
  | AwaitingDoctor | AwaitingTime => "doctor"
  | AwaitingName => "time_text"
  | AwaitingPhone => "name"
  | AwaitingAddress => "phone"
  end.

(** The value a step writes into its field. *)
Definition step_value (s : Step) (form : gmap string string) : string :=
  match s with
  | AwaitingPhone => Booking.clean_phone (form_get form "SpeechResult")
  | _ => speech_of form
  end.

(** What one callback of [step] for the call [cid] can do to the session
    store: nothing, start a session that holds only the doctor, write the
    field of the step into the session that is there, or remove the
    session at the end of the address step. *)
Inductive store_change (step : Step) (cid : string)
          (m m' : gmap string (gmap string string)) : Prop :=
| change_none : m' = m -> store_change step cid m m'
| change_start (d : string) :
    step = AwaitingDoctor ->
    m' = <[cid := {[ "doctor" := d ]}]> m ->
    store_change step cid m m'
| change_field (session : gmap string string) (v : string) :
    step <> AwaitingDoctor ->
    m !! cid = Some session ->
    m' = <[cid := <[field_of step := v]> session]> m ->
    store_change step cid m m'
| change_done (session : gmap string string) :
    step = AwaitingAddress ->
    m !! cid = Some session ->
    m' = delete cid m ->
    store_change step cid m m'.

(** ** A concrete environment

    A small instance of the library and of the services, used to run the
    handlers on concrete callbacks. Instants are minutes counted from a
    Monday midnight. *)

Module Demo.

Definition lib : PyLib :=
  {| datetime := Z;
     fromisoformat :=
       fun s => if String.eqb s "2025-06-10T14:00:00" then Some 2280%Z else None;
     weekday := fun d => ((d / 1440) mod 7)%Z;
     plus_days := fun d n => (d + 1440 * n)%Z;
     plus_minutes := fun d n => (d + n)%Z;
     at_hour := fun d h => (1440 * (d / 1440) + 60 * h)%Z;
     isoformat := fun d => if (d =? 2280)%Z then "2025-06-10T14:00:00" else "later";
     EmailStr := fun s => if PyStr.contains "@" s then Some s else None;
     urlparse :=
       fun s => if PyStr.starts_with "https://calendly.com" s
                then Some ("https", "calendly.com", PyStr.drop 20 s)
                else None;
     urljoin := fun base path => base ++ path |}.

Definition cfg : Config :=
  {| DOCTOR_EVENT_MAP :=
       [(("smith", "general"), "EVT-SMITH"); (("patel", "general"), "EVT-PATEL")];
     CALENDLY_API_KEY := "token";
     HUMAN_SUPPORT_NUMBER := "+15550000000";
     TWILIO_SID := "sid";
     TWILIO_AUTH_TOKEN := "auth";
     TWILIO_FROM_NUMBER := "+15550000001" |}.

(** Every slot is free, the scheduling link is created, the SMS goes out. *)
Definition world_free : World lib :=
  {| generate_audio := fun text => Some ("https://audio.example/" ++ text);
     now := (600%Z : datetime lib);
     requests_get := fun _ _ _ =>
       Some {| get_status_code := 200; collection := Some [] |};
     requests_post := fun _ _ _ _ _ =>
       Some {| post_status_code := 201;
               booking_url := Some "https://calendly.com/d/abc" |};
     messages_create := fun _ _ _ => Some "SM1" |}.

(** Every slot is taken. *)
Definition world_busy : World lib :=
  {| generate_audio := generate_audio world_free;
     now := (600%Z : datetime lib);
     requests_get := fun _ _ _ =>
       Some {| get_status_code := 200; collection := Some ["event"] |};
     requests_post := requests_post world_free;
     messages_create := messages_create world_free |}.

(** The scheduling service refuses to create the link. *)
Definition world_no_creation : World lib :=
  {| generate_audio := generate_audio world_free;
     now := (600%Z : datetime lib);
     requests_get := requests_get world_free;
     requests_post := fun _ _ _ _ _ =>
       Some {| post_status_code := 500; booking_url := None |};
     messages_create := messages_create world_free |}.

(** The SMS gateway is down. *)
Definition world_no_sms : World lib :=
  {| generate_audio := generate_audio world_free;
     now := (600%Z : datetime lib);
     requests_get := requests_get world_free;
     requests_post := requests_post world_free;
     messages_create := fun _ _ _ => None |}.

(** The text-to-speech service fails on the closing prompt of a booking
    and renders every other prompt. *)
Definition world_prompt_fails : World lib :=
  {| generate_audio := fun text =>
       if String.eqb text
            "Your appointment has been successfully booked. A confirmation message has been sent to your phone."
       then None else generate_audio world_free text;
     now := (600%Z : datetime lib);
     requests_get := requests_get world_free;
     requests_post := requests_post world_free;
     messages_create := messages_create world_free |}.

Definition form_of (call_sid speech : string) : gmap string string :=
  {[ "CallSid" := call_sid; "SpeechResult" := speech ]}.

Definition digits_of (call_sid digits : string) : gmap string string :=
  {[ "CallSid" := call_sid; "Digits" := digits ]}.

Definition session_smith : gmap string string := {[ "doctor" := "Smith" ]}.

(** The complete session of the specification's example. *)
Definition session_patel : gmap string string :=
  {[ "doctor" := "Patel"; "time_text" := "2025-06-10T14:00:00";
     "name" := "Jane Doe"; "phone" := "+15551234567" ]}.

Definition state_of (call_sid : string) (session : gmap string string) : State :=
  mkState {[ call_sid := session ]} [].

End Demo.

(** ** Definitions for the further properties *)

(** The endpoint that the prompt of an accepted step gathers to. *)
Definition next_endpoint (s : Step) : string :=
  match s with
  | AwaitingDoctor => "/capture-appointment-time"
  | AwaitingTime => "/capture-user-name"
  | AwaitingName => "/capture-user-phone"
  | AwaitingPhone => "/capture-user-address"
  | AwaitingAddress => ""
  end.

(** The collaborator calls one callback may add to the log. *)
Inductive turn_calls {L : PyLib} (C : Config) (w : World L)
  : Step -> list Effect -> Prop :=
| calls_none (s : Step) : turn_calls C w s []
| calls_availability (doctor time_text : string) :
    turn_calls C w AwaitingTime
      [CallIsAvailable doctor time_text
         (Calendly.is_time_available C w doctor time_text)]
| calls_creation_failed (doctor name email time_text : string)
                        (link : option string) :
    link = Calendly.create_calendly_appointment C w doctor "general" name
             email time_text ->
    match link with
    | None => True
    | Some l => PyStr.truthy l = false
    end ->
    turn_calls C w AwaitingAddress
      [CallCreateAppointment doctor "general" name email time_text link]
| calls_booking (doctor name email time_text phone link : string) :
    Calendly.create_calendly_appointment C w doctor "general" name email
      time_text = Some link ->
    PyStr.truthy link = true ->
    turn_calls C w AwaitingAddress
      [CallCreateAppointment doctor "general" name email time_text (Some link);
       CallSendSms phone doctor time_text link
         (Messaging.send_confirmation_sms C w phone doctor time_text link)].

(** The address callbacks of a sequence. *)
Definition count_address_turns {L : PyLib} (ts : list (Turn L)) : nat :=
  length (List.filter (fun t => match turn_step t with
                                | AwaitingAddress => true
                                | _ => false
                                end) ts).


(** ** The entry of the booking dialogue *)

Module BookingEntry.

Local Open Scope handler_scope.

(** [booking_handler.handle_booking]: the prompt for the doctor. Its
    [except] block ends the call instead of redirecting. *)
Definition handle_booking {L : PyLib} (w : World L) : M Response :=
  try_except
    (u1 <- Booking._generate_audio_url w
             "Please say the name of the doctor you want to book an appointment with after the beep." ;;
     u2 <- Booking._generate_audio_url w
             "Sorry, I didn't get that. Let's try again." ;;
     ret [Play u1; Gather "/capture-doctor-name"; Play u2;
          Redirect "/book-appointment"])
    (fun _ =>
       u <- Booking._generate_audio_url w
              "An error occurred. Please try again later." ;;
       ret [Play u; Hangup]).

End BookingEntry.

(** The paths that [app.py] registers with [app.route]. *)
Definition app_routes : list string :=
  ["/voice"; "/process-intent"; "/process-selection"; "/book-appointment";
   "/capture-doctor-name"; "/capture-appointment-time"; "/capture-user-name";
   "/capture-user-phone"; "/capture-user-address"].

Definition is_route (path : string) : bool :=
  existsb (String.eqb path) app_routes.

(** Every endpoint a response sends the caller to, by a gather or by a
    redirect, is a registered route. *)
Definition targets_are_routes (resp : Response) : bool :=
  forallb (fun v => match v with
                    | Gather a => is_route a
                    | Redirect a => is_route a
                    | _ => true
                    end) resp.


(** ** More string operations *)

Module PyText.

(** [s.replace(old, new)] for a non-empty [old]: the occurrences are
    replaced from left to right and do not overlap. [fuel] bounds the
    recursion by the length of [s]. *)
Fixpoint replace_go (fuel : nat) (old new s : string) : string :=
  match fuel with
  | O => s
  | S fuel' =>
      match s with
      | EmptyString => EmptyString
      | String c r =>
          if PyStr.starts_with old s
          then new ++ replace_go fuel' old new (PyStr.drop (String.length old) s)
          else String c (replace_go fuel' old new r)
      end
  end.

Definition replace (old new s : string) : string :=
  replace_go (S (String.length s)) old new s.

(** [s.endswith(suffix)] *)
Definition ends_with (suffix s : string) : bool :=
  (String.length suffix <=? String.length s)%nat
  && String.eqb (PyStr.drop (String.length s - String.length suffix) s) suffix.

(** [os.path.join(a, b)] of [posixpath] *)
Definition path_join (a b : string) : string :=
  if PyStr.starts_with "/" b then b
  else if negb (PyStr.truthy a) || ends_with "/" a then a ++ b
       else a ++ "/" ++ b.

(** [s[:n]] *)
Definition prefix (n : nat) (s : string) : string := String.substring 0 n s.

End PyText.

(** ** [services/knowledge_base.py] *)

Module KnowledgeBase.

(** [_sanitize_path], on a POSIX system; [normpath] is [os.path.normpath].
    The [except] block logs and raises again. *)
Definition _sanitize_path (normpath : string -> string) (file_path : string)
  : result string :=
  let sanitized :=
    PyStr.replace_char "\" ""
      (PyStr.replace_char "/" "" (PyText.replace ".." "" (normpath file_path))) in
  let safe_path := PyText.path_join "pdfs" sanitized in
  if negb (PyText.ends_with ".pdf" safe_path)
  then Raise (ValueError "File must be a PDF")
  else Ok safe_path.

(** Neither a slash nor a backslash. *)
Definition no_separator (c : ascii) : bool :=
  negb (Ascii.eqb c "/") && negb (Ascii.eqb c "\").

Definition _sanitize_doctor_name (name : string) : string :=
  if PyStr.truthy name
  then strip_markup (PyStr.replace_char " " "_" (PyStr.lower (PyStr.strip name)))
  else "".

End KnowledgeBase.

(** ** [utils/tts.py] *)

Module Tts.

(** The answer of [s3_client.put_object]. *)
Inductive PutResult : Type :=
| PutDone
| PutClientError
| PutOtherError.

(** The speech service, the object store and the random file name as
    one call of [generate_audio] finds them. *)
Record Services : Type := {
  (** [elevenlabs_client.generate], joined to bytes; [None] when it raises *)
  elevenlabs_generate : string -> string -> string -> string -> option string;
  (** [uuid.uuid4()] as text *)
  uuid4 : string;
  (** [put_object] with bucket, key and body *)
  put_object : string -> string -> string -> PutResult;
  S3_BUCKET : string;
  S3_REGION : string
}.

(** Calls to the external services. *)
Inductive Call : Type :=
| CallGenerate (text : string)
| CallPutObject (key : string).

Definition _sanitize_text (text : string) : string :=
  if PyStr.truthy text then
    let sanitized := strip_markup (PyStr.strip text) in
    if (1000 <? String.length sanitized)%nat
    then PyText.prefix 1000 sanitized
    else sanitized
  else "".

(** [_validate_text]: the text is checked as the purpose of a guest
    record with placeholder name, email and phone. *)
Definition _validate_text (L : PyLib) (text : string) : bool :=
  match Receptionist.validate_input L
          {| Receptionist.name := "***";
             Receptionist.email := "***";
             Receptionist.phone := "****";
             Receptionist.purpose := text |} with
  | Some _ => true
  | None => false
  end.

(** [_upload_to_s3]: the URL, [None] for a [ClientError]; any other
    exception goes on to the caller. *)
Definition _upload_to_s3 (S : Services) (audio_data filename : string)
  : result (option string) :=
  match put_object S (S3_BUCKET S) filename audio_data with
  | PutDone =>
      Ok (Some ("https://" ++ S3_BUCKET S ++ ".s3." ++ S3_REGION S
                ++ ".amazonaws.com/" ++ filename))
  | PutClientError => Ok None
  | PutOtherError => Raise (ServiceError "put_object")
  end.

(** [generate_audio]: the public URL of the audio, [None] on any failure,
    together with the calls made to the services. *)
Definition generate_audio (L : PyLib) (S : Services)
           (text voice_id model language : string)
  : option string * list Call :=
  let sanitized_text := _sanitize_text text in
  if negb (PyStr.truthy sanitized_text) then (None, [])
  else if negb (_validate_text L sanitized_text) then (None, [])
  else
    match elevenlabs_generate S sanitized_text voice_id model language with
    | None => (None, [CallGenerate sanitized_text])
    | Some audio_data =>
        let filename := "tts_" ++ uuid4 S ++ ".mp3" in
        let calls := [CallGenerate sanitized_text; CallPutObject filename] in
        match _upload_to_s3 S audio_data filename with
        | Ok (Some audio_url) =>
            if PyStr.truthy audio_url then (Some audio_url, calls)
            else (None, calls)
        | Ok None => (None, calls)
        | Raise _ => (None, calls)
        end
    end.

End Tts.


(** ** [app.py]: the routes and their decorators *)

Module App.

(** The exceptions that travel through the decorators; [HandlerError] is
    any exception that is none of the others. *)
Inductive http_exn : Type :=
| BadRequest (description : string)
| RateLimitException
| Unauthorized (description : string)
| InternalServerError (description : string)
| HandlerError (e : exn).

(** What a view returns: the TwiML of a handler, or a JSON error with its
    status code. *)
Inductive reply : Type :=
| Twiml (resp : Response)
| JsonError (error : string) (status : Z).

Inductive outcome (A : Type) : Type :=
| Done (a : A)
| Failed (e : http_exn).
Arguments Done {A} a.
Arguments Failed {A} e.

(** What the views read of a request: the header [X-API-Key], whether the
    content type is JSON, and the form fields. *)
Record Request : Type := {
  api_key : option string;
  is_json : bool;
  form : gmap string string
}.

(** The key check and the rate limiter as one request finds them. *)
Record Guard : Type := {
  (** [check_password_hash] of werkzeug: hash, then candidate *)
  check_password_hash : string -> string -> bool;
  API_KEY_HASH : string;
  (** the call exceeds 100 calls per minute *)
  limit_exceeded : bool
}.

(** The body of a view: JSON is required, then the handler runs on the
    request. *)
Definition view (handler : gmap string string -> M Response) (req : Request)
  : State -> outcome Response * State :=
  fun st =>
    if negb (is_json req)
    then (Failed (BadRequest "Request must be JSON"), st)
    else
      match handler (form req) st with
      | (Ok resp, st') => (Done resp, st')
      | (Raise e, st') => (Failed (HandlerError e), st')
      end.

(** [str(e)] of a werkzeug [BadRequest] *)
Definition bad_request_text (description : string) : string :=
  "400 Bad Request: " ++ description.

(** [handle_exceptions] *)
Definition handle_exceptions (f : State -> outcome Response * State)
  : State -> outcome reply * State :=
  fun st =>
    match f st with
    | (Done resp, st') => (Done (Twiml resp), st')
    | (Failed (BadRequest description), st') =>
        (Done (JsonError (bad_request_text description) 400), st')
    | (Failed RateLimitException, st') =>
        (Done (JsonError "Rate limit exceeded" 429), st')
    | (Failed _, st') =>
        (Failed (InternalServerError "Internal server error"), st')
    end.

(** [limits(calls=CALLS, period=PERIOD)] of the ratelimit package *)
Definition limits (G : Guard) (f : State -> outcome reply * State)
  : State -> outcome reply * State :=
  fun st => if limit_exceeded G then (Failed RateLimitException, st) else f st.

(** [require_api_key] *)
Definition require_api_key (G : Guard) (req : Request)
           (f : State -> outcome reply * State)
  : State -> outcome reply * State :=
  fun st =>
    match api_key req with
    | Some key =>
        if negb (PyStr.truthy key)
           || negb (check_password_hash G (API_KEY_HASH G) key)
        then (Failed (Unauthorized "Invalid or missing API key"), st)
        else f st
    | None => (Failed (Unauthorized "Invalid or missing API key"), st)
    end.

(** A route: [require_api_key] around [limits] around [handle_exceptions]
    around the view, in the order of the decorators. *)
Definition route (G : Guard) (handler : gmap string string -> M Response)
           (req : Request) : State -> outcome reply * State :=
  require_api_key G req (limits G (handle_exceptions (view handler req))).

(** The routes of the five booking steps. *)
Definition step_route {L : PyLib} (C : Config) (G : Guard) (step : Step)
           (w : World L) (req : Request) : State -> outcome reply * State :=
  route G (fun form => handle C (mkTurn step w form)) req.

(** [/process-selection]: the view imports [services.intent_handler],
    which runs the top of that module, and then calls the handler. *)
Definition process_selection {L : PyLib} (C : Config) (G : Guard)
           (w : World L) (req : Request) : State -> outcome reply * State :=
  route G
    (fun form => bind (lift (Intent.module_top C))
                   (fun _ => Intent.process_numeric_selection C w form))
    req.

(** The key is present and passes [check_password_hash]. *)
Definition authorized (G : Guard) (req : Request) : bool :=
  match api_key req with
  | Some key => PyStr.truthy key && check_password_hash G (API_KEY_HASH G) key
  | None => false
  end.

(** Flask parses form fields only from form content types, so a request
    whose content type is JSON has none. *)
Definition json_without_form (req : Request) : Prop :=
  is_json req = true -> form req = ∅.

End App.


(** Neither a space, nor a hyphen, nor a markup character. *)
Definition phone_char (c : ascii) : bool :=
  negb (Ascii.eqb c " ") && negb (Ascii.eqb c "-") && not_markup c.

(** * Properties *)

(** ** Strings and the sanitizers *)

Section StringFacts.

Variable p : ascii -> bool.
Hypothesis p_rejects_space : forall c, PyStr.is_space c = true -> p c = false.

Lemma keep_lstrip (s : string) : PyStr.keep p (PyStr.lstrip s) = PyStr.keep p s.
Proof.
  induction s as [|c r IH]; [reflexivity|].
  cbn [PyStr.lstrip]. destruct (PyStr.is_space c) eqn:Hc; [|reflexivity].
  cbn [PyStr.keep]. rewrite (p_rejects_space c Hc). exact IH.
Qed.

Lemma keep_rstrip (s : string) : PyStr.keep p (PyStr.rstrip s) = PyStr.keep p s.
Proof.
  induction s as [|c r IH]; [reflexivity|].
  cbn [PyStr.rstrip]. destruct (PyStr.rstrip r) as [|a r'] eqn:Hr.
  - cbn [PyStr.keep] in IH |- *. rewrite <- IH.
    destruct (PyStr.is_space c) eqn:Hc.
    + rewrite (p_rejects_space c Hc). reflexivity.
    + cbn [PyStr.keep]. reflexivity.
  - cbn [PyStr.keep] in IH |- *. rewrite <- IH. reflexivity.
Qed.

Lemma keep_strip (s : string) : PyStr.keep p (PyStr.strip s) = PyStr.keep p s.
Proof. unfold PyStr.strip. rewrite keep_rstrip. apply keep_lstrip. Qed.

End StringFacts.

Lemma all_chars_keep (p : ascii -> bool) (s : string) :
  all_chars p (PyStr.keep p s) = true.
Proof.
  induction s as [|c r IH]; [reflexivity|].
  cbn [PyStr.keep]. destruct (p c) eqn:Hc; [|exact IH].
  cbn [all_chars]. rewrite Hc. exact IH.
Qed.

Lemma keep_all_chars (p : ascii -> bool) (s : string) :
  all_chars p s = true -> PyStr.keep p s = s.
Proof.
  induction s as [|c r IH]; [reflexivity|].
  cbn [all_chars PyStr.keep]. intros [Hc Hr]%andb_prop.
  rewrite Hc, (IH Hr). reflexivity.
Qed.

Lemma space_is_no_digit (c : ascii) :
  PyStr.is_space c = true -> PyStr.is_digit c = false.
Proof.
  unfold PyStr.is_space, PyStr.is_digit. generalize (PyStr.code c). intros n.
  rewrite !orb_true_iff, !andb_true_iff, !Nat.leb_le, !Nat.eqb_eq.
  intros H. apply andb_false_iff. rewrite !Nat.leb_gt. lia.
Qed.

Lemma rstrip_idempotent (s : string) :
  PyStr.rstrip (PyStr.rstrip s) = PyStr.rstrip s.
Proof.
  induction s as [|c r IH]; [reflexivity|].
  cbn [PyStr.rstrip]. destruct (PyStr.rstrip r) as [|a r'] eqn:Hr.
  - destruct (PyStr.is_space c) eqn:Hc; [reflexivity|].
    cbn [PyStr.rstrip]. rewrite Hc. reflexivity.
  - change (PyStr.rstrip (String c (String a r')))
      with (match PyStr.rstrip (String a r') with
            | EmptyString =>
                if PyStr.is_space c then EmptyString else String c EmptyString
            | String x y => String c (String x y)
            end).
    rewrite IH. reflexivity.
Qed.

Lemma lstrip_fixed (s : string) :
  match s with
  | EmptyString => True
  | String c _ => PyStr.is_space c = false
  end ->
  PyStr.lstrip (PyStr.rstrip s) = PyStr.rstrip s.
Proof.
  destruct s as [|c r]; [reflexivity|]. intros Hc.
  cbn [PyStr.rstrip]. destruct (PyStr.rstrip r) as [|a r'].
  - rewrite Hc. cbn [PyStr.lstrip]. rewrite Hc. reflexivity.
  - cbn [PyStr.lstrip]. rewrite Hc. reflexivity.
Qed.

Lemma lstrip_head (s : string) :
  match PyStr.lstrip s with
  | EmptyString => True
  | String c _ => PyStr.is_space c = false
  end.
Proof.
  induction s as [|c r IH]; [exact I|].
  cbn [PyStr.lstrip]. destruct (PyStr.is_space c) eqn:Hc; [exact IH|exact Hc].
Qed.

Lemma strip_idempotent (s : string) :
  PyStr.strip (PyStr.strip s) = PyStr.strip s.
Proof.
  unfold PyStr.strip.
  rewrite (lstrip_fixed (PyStr.lstrip s) (lstrip_head s)).
  apply rstrip_idempotent.
Qed.

Lemma booking_sanitize_unfold (s : string) :
  Booking._sanitize_input s = strip_markup (PyStr.strip s).
Proof. destruct s; reflexivity. Qed.

(** [re] is not imported by [intent_handler.py]: the keypad sanitizer
    returns only for the empty string. *)
Lemma intent_sanitize_cases (s : string) :
  Intent._sanitize_input s
  = if PyStr.truthy s then Raise (NameError "re") else Ok "".
Proof. destruct s; reflexivity. Qed.

Lemma all_chars_lstrip (p : ascii -> bool) (s : string) :
  all_chars p s = true -> all_chars p (PyStr.lstrip s) = true.
Proof.
  induction s as [|c r IH]; [reflexivity|].
  cbn [PyStr.lstrip]. destruct (PyStr.is_space c); [|tauto].
  cbn [all_chars]. intros [_ Hr]%andb_prop. exact (IH Hr).
Qed.

Lemma all_chars_rstrip (p : ascii -> bool) (s : string) :
  all_chars p s = true -> all_chars p (PyStr.rstrip s) = true.
Proof.
  induction s as [|c r IH]; [reflexivity|].
  cbn [PyStr.rstrip all_chars]. intros [Hc Hr]%andb_prop.
  specialize (IH Hr). destruct (PyStr.rstrip r) as [|a r'].
  - destruct (PyStr.is_space c); [reflexivity|].
    cbn [all_chars]. rewrite Hc. reflexivity.
  - change (all_chars p (String c (String a r')))
      with (p c && all_chars p (String a r')).
    rewrite Hc, IH. reflexivity.
Qed.

Lemma all_chars_strip (p : ascii -> bool) (s : string) :
  all_chars p s = true -> all_chars p (PyStr.strip s) = true.
Proof.
  intros H. unfold PyStr.strip. apply all_chars_rstrip, all_chars_lstrip, H.
Qed.

(** C9, as amended. The sanitizer of the booking handlers trims the
    surrounding whitespace of its input and then removes the characters
    [<], [>], [;], [{] and [}]: its result holds none of them, and it is
    the trimmed input when the input holds none of them. It is a total
    function. Both it and the sanitizer of the keypad menu map the empty
    string to the empty string. *)
Theorem sanitizer_contract (s : string) :
  Booking._sanitize_input s = strip_markup (PyStr.strip s)
  /\ all_chars not_markup (Booking._sanitize_input s) = true
  /\ (all_chars not_markup s = true ->
      Booking._sanitize_input s = PyStr.strip s
      /\ PyStr.strip (Booking._sanitize_input s) = Booking._sanitize_input s)
  /\ Booking._sanitize_input "" = ""
  /\ Intent._sanitize_input "" = Ok "".
Proof.
  assert (Hclean : all_chars not_markup s = true ->
                   Booking._sanitize_input s = PyStr.strip s).
  { intros H. rewrite booking_sanitize_unfold. unfold strip_markup.
    apply keep_all_chars, all_chars_strip, H. }
  repeat split.
  - apply booking_sanitize_unfold.
  - rewrite booking_sanitize_unfold. apply all_chars_keep.
  - exact (Hclean H).
  - rewrite (Hclean H). apply strip_idempotent.
Qed.

Lemma sanitizer_contract_witness :
  Booking._sanitize_input "  Dr. Smith " = "Dr. Smith"
  /\ PyStr.strip (Booking._sanitize_input "  Dr. Smith ")
     = Booking._sanitize_input "  Dr. Smith ".
Proof.
  destruct (sanitizer_contract "  Dr. Smith ") as (_ & _ & H & _).
  destruct (H eq_refl) as [H1 H2]. split; [exact H1|exact H2].
Defined.

(** C9, as stated, fails: behind a removed leading character the
    whitespace stays, so the result is not trimmed. *)
Lemma sanitizer_result_not_trimmed :
  Booking._sanitize_input "< a" = " a"
  /\ PyStr.strip (Booking._sanitize_input "< a") <> Booking._sanitize_input "< a".
Proof. split; [reflexivity|discriminate]. Qed.

(** ** The keypad menu *)

Ltac unfold_monad :=
  unfold try_except, bind, raise, ret, lift, of_service, get_store,
    put_store, emit, dict_item in *.

Lemma audio_up_some {L : PyLib} (w : World L) (text : string) :
  audio_up w -> exists u, generate_audio w text = Some u.
Proof. intros H. destruct (H text) as [u Hu]. exists u. exact Hu. Qed.

Lemma menu_keeps_state {L : PyLib} (C : Config) (w : World L)
      (form : gmap string string) (st : State) :
  snd (Intent.process_numeric_selection C w form st) = st.
Proof.
  unfold Intent.process_numeric_selection, Intent._generate_audio_url.
  rewrite !intent_sanitize_cases.
  unfold_monad. repeat case_match; simplify_eq; reflexivity.
Qed.

(** Whatever the request, the body of the handler raises: a non-empty
    field makes the sanitizer read [re], and two empty fields leave no
    call identifier. The response is the one of the [except] block. *)
Lemma menu_ends_in_except {L : PyLib} (C : Config) (w : World L)
      (form : gmap string string) (st : State) :
  Intent.process_numeric_selection C w form st
  = (match generate_audio w "An error occurred. Please try again later." with
     | Some u => Ok [Play u; Redirect "/voice"]
     | None => Raise (ServiceError "generate_audio")
     end, st).
Proof.
  unfold Intent.process_numeric_selection, Intent._generate_audio_url.
  rewrite !intent_sanitize_cases. unfold_monad.
  destruct (PyStr.truthy (form_get form "Digits"));
    [|destruct (PyStr.truthy (form_get form "CallSid"))];
    cbn; destruct (generate_audio w _); reflexivity.
Qed.

(** C8, on the module as it is written. [intent_handler.py] uses [os]
    and [re] without importing them, so importing the module raises
    [NameError], and the handler itself never reaches its dispatch:
    whatever the digits, the digit 5 included, it answers from its
    [except] block, with the error prompt and the redirect to the
    top-level menu [/voice], and never dials the human support number. The
    session store is left unchanged. *)
Theorem menu_never_escalates {L : PyLib} (C : Config) (w : World L)
        (form : gmap string string) (st : State) :
  let out := Intent.process_numeric_selection C w form st in
  Intent.module_top C = Raise (NameError "os")
  /\ snd out = st
  /\ (forall resp, fst out = Ok resp ->
      exists u, resp = [Play u; Redirect "/voice"])
  /\ (audio_up w -> exists u, fst out = Ok [Play u; Redirect "/voice"]).
Proof.
  intros out. subst out. rewrite menu_ends_in_except. cbn [fst snd].
  split; [reflexivity|]. split; [reflexivity|]. split.
  - intros resp.
    destruct (generate_audio w _) as [u|]; [|discriminate].
    intros [= <-]. exists u. reflexivity.
  - intros Hup.
    destruct (audio_up_some w "An error occurred. Please try again later." Hup)
      as [u ->].
    exists u. reflexivity.
Qed.

(** The callback of the specification's example: call identifier present,
    digit 5. *)
Lemma menu_never_escalates_witness :
  exists u,
    fst (Intent.process_numeric_selection Demo.cfg Demo.world_free
           (Demo.digits_of "CA1f0" "5") empty_state)
    = Ok [Play u; Redirect "/voice"].
Proof.
  refine (proj2 (proj2 (proj2 (menu_never_escalates Demo.cfg Demo.world_free
            (Demo.digits_of "CA1f0" "5") empty_state))) _).
  intros text. eexists. reflexivity.
Defined.

(** ** The availability oracle *)

Lemma int_of_digits_nonneg (s : string) : (0 <= PyStr.int_of_digits s)%Z.
Proof.
  unfold PyStr.int_of_digits.
  assert (H : forall l acc, (0 <= acc)%Z ->
            (0 <= fold_left (fun a c => (10 * a + Z.of_nat (PyStr.code c - 48))%Z)
                            l acc)%Z).
  { induction l as [|c l IH]; intros acc Hacc; [exact Hacc|].
    cbn [fold_left]. apply IH. lia. }
  apply H. lia.
Qed.

Lemma parse_datetime_none {L : PyLib} (w : World L) (time_text : string) :
  Calendly._parse_datetime w time_text = None
  <-> fromisoformat L time_text = None /\ day_at_hour_shape time_text = false.
Proof.
  unfold Calendly._parse_datetime, Calendly.parse_natural, day_at_hour_shape.
  destruct (fromisoformat L time_text) as [d|].
  { split; [discriminate|intros [H _]; discriminate H]. }
  destruct (PyStr.contains " at " (PyStr.lower time_text)); cbn [andb];
    [|tauto].
  destruct (PyStr.split " at " (PyStr.lower time_text))
    as [|day [|time [|more rest]]]; try tauto.
  destruct (PyStr.search_digits time) as [ds|]; [|tauto].
  destruct (Calendly.day_map (PyStr.strip day)) as [target|]; [|tauto].
  set (hour := if PyStr.contains "pm" time && (PyStr.int_of_digits ds <? 12)%Z
               then (PyStr.int_of_digits ds + 12)%Z
               else PyStr.int_of_digits ds).
  assert (H0 : (0 <=? hour)%Z = true).
  { apply Z.leb_le. subst hour. pose proof (int_of_digits_nonneg ds).
    destruct (_ && _); lia. }
  rewrite H0. cbn [andb]. destruct (hour <=? 23)%Z.
  - split; [discriminate|intros [_ H]; discriminate H].
  - tauto.
Qed.

Lemma time_step_unavailable {L : PyLib} (C : Config) (w : World L)
      (form : gmap string string) (st : State)
      (session : gmap string string) (doctor : string) :
  PyStr.truthy (sid_of form) = true ->
  store st !! sid_of form = Some session ->
  session !! "doctor" = Some doctor ->
  PyStr.truthy (speech_of form) = true ->
  Calendly.is_time_available C w doctor (speech_of form) = false ->
  let out := Booking.capture_appointment_time C w form st in
  store (snd out)
  = <[sid_of form := <["time_text" := speech_of form]> session]> (store st)
  /\ log (snd out)
     = (log st ++ [CallIsAvailable doctor (speech_of form) false])%list
  /\ (audio_up w ->
      exists u1 u2,
        fst out = Ok [Play u1; Play u2; Gather "/capture-appointment-time"]).
Proof.
  intros Hsid Hsess Hdoc Htime Hbusy out. subst out.
  unfold Booking.capture_appointment_time, Booking.on_error,
    Booking._generate_audio_url.
  unfold sid_of, speech_of in *. unfold_monad.
  rewrite Hsid. cbn [negb store]. rewrite Hsess, Htime. cbn [negb].
  rewrite lookup_insert_ne by discriminate. rewrite Hdoc, Hbusy.
  cbn [negb store log].
  repeat split.
  - repeat case_match; simplify_eq; reflexivity.
  - repeat case_match; simplify_eq; reflexivity.
  - intros Hup.
    destruct (audio_up_some w
                ("I'm sorry, Dr. " ++ doctor ++ " is not available at "
                 ++ Booking._sanitize_input (form_get form "SpeechResult")
                 ++ ".") Hup) as [u1 ->].
    destruct (audio_up_some w "Please say a different date and time." Hup)
      as [u2 ->].
    exists u1, u2. reflexivity.
Qed.

(** C10. [is_time_available] always returns a boolean: whatever its
    [try] block raises becomes [False]. It returns [False] for a doctor
    name that is empty after sanitization, for a time text that is neither
    in ISO format nor of the shape "day at N AM/PM", for an empty event
    map, and when the scheduling service raises, answers with a status
    other than 200 or with a body that cannot be decoded. In each such case
    the time step of the dialogue tells the caller that the slot is not
    available and asks for another time. *)
Theorem availability_oracle_total {L : PyLib} (C : Config) (w : World L)
        (doctor time_text : string) :
  (forall e, Calendly.is_time_available_body C w doctor time_text = Raise e ->
             Calendly.is_time_available C w doctor time_text = false)
  /\ (Calendly._sanitize_input doctor = "" ->
      Calendly.is_time_available C w doctor time_text = false)
  /\ (fromisoformat L time_text = None -> day_at_hour_shape time_text = false ->
      Calendly.is_time_available C w doctor time_text = false)
  /\ (DOCTOR_EVENT_MAP C = [] ->
      Calendly.is_time_available C w doctor time_text = false)
  /\ ((forall url t1 t2,
          match requests_get w url t1 t2 with
          | None => True
          | Some r => get_status_code r <> 200%Z \/ collection r = None
          end) ->
      Calendly.is_time_available C w doctor time_text = false)
  /\ (forall form st session,
         Calendly.is_time_available C w doctor time_text = false ->
         PyStr.truthy (sid_of form) = true ->
         store st !! sid_of form = Some session ->
         session !! "doctor" = Some doctor ->
         speech_of form = time_text ->
         PyStr.truthy time_text = true ->
         audio_up w ->
         exists u1 u2,
           fst (Booking.capture_appointment_time C w form st)
           = Ok [Play u1; Play u2; Gather "/capture-appointment-time"]).
Proof.
  unfold Calendly.is_time_available.
  split; [intros e ->; reflexivity|].
  split.
  { intros Hd. unfold Calendly.is_time_available_body. rewrite Hd. reflexivity. }
  split.
  { intros Hiso Hshape. unfold Calendly.is_time_available_body.
    destruct (negb _); [reflexivity|].
    rewrite (proj2 (parse_datetime_none w time_text) (conj Hiso Hshape)).
    reflexivity. }
  split.
  { intros Hmap. unfold Calendly.is_time_available_body.
    destruct (negb _); [reflexivity|].
    destruct (Calendly._parse_datetime w time_text); [|reflexivity].
    rewrite Hmap. reflexivity. }
  split.
  { intros Hget. unfold Calendly.is_time_available_body.
    destruct (negb _); [reflexivity|].
    destruct (Calendly._parse_datetime w time_text) as [start|]; [|reflexivity].
    destruct (Calendly.first_event_type (DOCTOR_EVENT_MAP C)) as [fb|];
      [|reflexivity].
    cbn [rbind].
    match goal with
    | |- context [requests_get w ?u ?a ?b] =>
        specialize (Hget u a b); destruct (requests_get w u a b) as [r|]
    end; [|reflexivity].
    cbn [of_service rbind].
    destruct (Z.eqb_spec (get_status_code r) 200) as [E|E]; [|reflexivity].
    destruct Hget as [Hs|Hc]; [contradiction|]. rewrite Hc. reflexivity. }
  intros form st session Hbusy Hsid Hsess Hdoc Hspeech Htruthy Hup.
  subst time_text.
  apply (time_step_unavailable C w form st session doctor Hsid Hsess Hdoc
           Htruthy Hbusy). exact Hup.
Qed.

Lemma availability_oracle_total_witness :
  Calendly.is_time_available Demo.cfg Demo.world_free "<>" "Monday at 2 PM"
  = false
  /\ Calendly.is_time_available Demo.cfg Demo.world_free "Smith"
       "tomorrow afternoon" = false.
Proof.
  split.
  - destruct (availability_oracle_total Demo.cfg Demo.world_free "<>"
                "Monday at 2 PM") as (_ & H & _).
    apply H. reflexivity.
  - destruct (availability_oracle_total Demo.cfg Demo.world_free "Smith"
                "tomorrow afternoon") as (_ & _ & H & _).
    apply H; reflexivity.
Defined.

(** ** Rejected input *)

Ltac unfold_booking :=
  unfold Booking.capture_doctor_name, Booking.capture_appointment_time,
    Booking.capture_user_name, Booking.capture_user_phone,
    Booking.capture_user_address, Booking.on_error,
    Booking._generate_audio_url;
  unfold sid_of, speech_of in *; unfold_monad.

(** A step whose own check fails changes neither the store nor the log
    and, when the prompt can be rendered, sends the caller back to the
    entry of the booking dialogue. *)
Lemma invalid_input_rejected {L : PyLib} (C : Config) (t : Turn L) (st : State) :
  step_input_valid (turn_step t) (turn_form t) = false ->
  snd (handle C t st) = st
  /\ (audio_up (turn_world t) ->
      exists u, fst (handle C t st) = Ok [Play u; Redirect "/book-appointment"]).
Proof.
  destruct t as [step w form]. cbn [turn_step turn_world turn_form].
  intros Hbad. unfold handle. cbn [turn_step turn_world turn_form].
  assert (Herr := fun text => audio_up_some w text).
  destruct step; cbn [step_input_valid] in Hbad; unfold_booking.
  - (* doctor *)
    rewrite Hbad. cbn [negb].
    split.
    + repeat case_match; simplify_eq; reflexivity.
    + intros Hup.
      destruct (Herr "No doctor name provided. Please try again." Hup) as [u ->].
      destruct (Herr "An error occurred. Please try again." Hup) as [u' ->].
      destruct (negb _); eexists; reflexivity.
  - (* time *)
    rewrite Hbad. cbn [negb store].
    split.
    + repeat case_match; simplify_eq; reflexivity.
    + intros Hup.
      destruct (Herr "An error occurred. Please try again." Hup) as [u' ->].
      destruct (negb _); [eexists; reflexivity|].
      destruct (store st !! _); eexists; reflexivity.
  - (* name *)
    rewrite Hbad. cbn [negb store].
    split.
    + repeat case_match; simplify_eq; reflexivity.
    + intros Hup.
      destruct (Herr "An error occurred. Please try again." Hup) as [u' ->].
      destruct (negb _); [eexists; reflexivity|].
      destruct (store st !! _); eexists; reflexivity.
  - (* phone *)
    rewrite <- negb_andb, Hbad. cbn [negb store].
    split.
    + repeat case_match; simplify_eq; reflexivity.
    + intros Hup.
      destruct (Herr "An error occurred. Please try again." Hup) as [u' ->].
      destruct (negb _); [eexists; reflexivity|].
      destruct (store st !! _); eexists; reflexivity.
  - (* address *)
    rewrite Hbad. cbn [negb store].
    split.
    + repeat case_match; simplify_eq; reflexivity.
    + intros Hup.
      destruct (Herr "An error occurred while booking your appointment. Please try again." Hup)
        as [u' ->].
      destruct (negb _); [eexists; reflexivity|].
      destruct (store st !! _); eexists; reflexivity.
Qed.

(** C1, as amended. A turn whose own check fails (an empty value, or a
    phone number that does not match the pattern) leaves the session store
    and the log as they are and, when the prompt can be rendered, sends the
    caller back to the entry of the booking dialogue. When a non-empty time
    is reported unavailable, the rejected time is written to [time_text] of
    the session, the doctor and every other field are kept, and the caller
    is asked for another time by a gather that posts to the time step
    again, not to the name step. *)
Theorem rejected_turn_contract {L : PyLib} (C : Config) (t : Turn L) (st : State) :
  (step_input_valid (turn_step t) (turn_form t) = false ->
   snd (handle C t st) = st
   /\ (audio_up (turn_world t) ->
       exists u, fst (handle C t st) = Ok [Play u; Redirect "/book-appointment"]))
  /\ (forall session doctor,
         turn_step t = AwaitingTime ->
         PyStr.truthy (sid_of (turn_form t)) = true ->
         store st !! sid_of (turn_form t) = Some session ->
         session !! "doctor" = Some doctor ->
         PyStr.truthy (speech_of (turn_form t)) = true ->
         Calendly.is_time_available C (turn_world t) doctor
           (speech_of (turn_form t)) = false ->
         store (snd (handle C t st))
         = <[sid_of (turn_form t) :=
               <["time_text" := speech_of (turn_form t)]> session]> (store st)
         /\ (forall key, key <> "time_text" ->
               store (snd (handle C t st)) !! sid_of (turn_form t)
                 ≫= (fun s => s !! key)
               = session !! key)
         /\ (audio_up (turn_world t) ->
             exists u1 u2,
               fst (handle C t st)
               = Ok [Play u1; Play u2; Gather "/capture-appointment-time"])).
Proof.
  split; [apply invalid_input_rejected|].
  intros session doctor Hstep Hsid Hsess Hdoc Htime Hbusy.
  destruct t as [step w form]. cbn [turn_step turn_world turn_form] in *.
  subst step. unfold handle. cbn [turn_step turn_world turn_form].
  destruct (time_step_unavailable C w form st session doctor
              Hsid Hsess Hdoc Htime Hbusy) as (Hstore & _ & Hresp).
  split; [exact Hstore|]. split; [|exact Hresp].
  intros key Hkey. rewrite Hstore, lookup_insert_eq. cbn.
  apply lookup_insert_ne. congruence.
Qed.

Lemma rejected_turn_contract_witness :
  snd (handle Demo.cfg
         (mkTurn AwaitingPhone Demo.world_free (Demo.form_of "CA1" "012"))
         (Demo.state_of "CA1" Demo.session_smith))
  = Demo.state_of "CA1" Demo.session_smith
  /\ store (snd (handle Demo.cfg
                   (mkTurn AwaitingTime Demo.world_busy
                      (Demo.form_of "CA1" "Monday at 2 PM"))
                   (Demo.state_of "CA1" Demo.session_smith)))
     = <["CA1" := <["time_text" := "Monday at 2 PM"]> Demo.session_smith]>
         (store (Demo.state_of "CA1" Demo.session_smith)).
Proof.
  split.
  - apply (rejected_turn_contract Demo.cfg
             (mkTurn AwaitingPhone Demo.world_free (Demo.form_of "CA1" "012"))
             (Demo.state_of "CA1" Demo.session_smith)).
    reflexivity.
  - apply (rejected_turn_contract Demo.cfg
             (mkTurn AwaitingTime Demo.world_busy
                (Demo.form_of "CA1" "Monday at 2 PM"))
             (Demo.state_of "CA1" Demo.session_smith)
           ) with (doctor := "Smith"); reflexivity.
Defined.

(** C1, as stated, fails: a time that the oracle reports unavailable is
    written to the session before the oracle is asked. *)
Lemma unavailable_time_is_written :
  let st := Demo.state_of "CA1" Demo.session_smith in
  let out := Booking.capture_appointment_time Demo.cfg Demo.world_busy
               (Demo.form_of "CA1" "Monday at 2 PM") st in
  Calendly.is_time_available Demo.cfg Demo.world_busy "Smith" "Monday at 2 PM"
  = false
  /\ store st !! "CA1" ≫= (fun s => s !! "time_text") = None
  /\ store (snd out) !! "CA1" ≫= (fun s => s !! "time_text")
     = Some "Monday at 2 PM"
  /\ store (snd out) <> store st.
Proof.
  cbv zeta. repeat split; try (vm_compute; reflexivity).
  intros H.
  apply (f_equal (fun m => m !! "CA1" ≫= (fun s => s !! "time_text"))) in H.
  vm_compute in H. discriminate H.
Qed.

(** ** How a callback changes the store *)

(** A failing handler of the booking dialogue renders one prompt and
    leaves the state as the [try] block left it. *)
Lemma snd_try_on_error {L : PyLib} (w : World L) (text : string)
      (body : M Response) (st : State) :
  snd (try_except body (Booking.on_error w text) st) = snd (body st).
Proof.
  unfold try_except, Booking.on_error, Booking._generate_audio_url.
  unfold_monad. destruct (body st) as [[resp|e] st']; [reflexivity|].
  cbn [snd]. destruct (generate_audio w text); reflexivity.
Qed.

Ltac audio_step :=
  match goal with
  | |- context [generate_audio ?w ?text] =>
      destruct (generate_audio w text)
  end.

Lemma address_store_change {L : PyLib} (C : Config) (w : World L)
      (form : gmap string string) (st : State) :
  store_change AwaitingAddress (sid_of form) (store st)
    (store (snd (Booking.capture_user_address C w form st))).
Proof.
  unfold Booking.capture_user_address. rewrite snd_try_on_error.
  unfold Booking._generate_audio_url, sid_of. unfold_monad.
  destruct (negb (PyStr.truthy _)); [apply change_none; reflexivity|].
  cbn [store].
  destruct (store st !! Booking._sanitize_input (form_get form "CallSid"))
    as [session|] eqn:Hs; [|apply change_none; reflexivity].
  destruct (negb (PyStr.truthy _)); [apply change_none; reflexivity|].
  cbn [store log].
  assert (Hfield : forall r : result Response,
             store_change AwaitingAddress
               (Booking._sanitize_input (form_get form "CallSid")) (store st)
               (store (snd (r, mkState
                  (<[Booking._sanitize_input (form_get form "CallSid") :=
                       <["address" :=
                           Booking._sanitize_input (form_get form "SpeechResult")]>
                         session]> (store st)) (log st))))).
  { intros r. eapply (change_field AwaitingAddress);
      [discriminate|exact Hs|reflexivity]. }
  destruct (_ !! "name") as [name|]; [|apply Hfield].
  destruct (_ !! "phone") as [phone|]; [|apply Hfield].
  destruct (_ !! "doctor") as [doctor|]; [|apply Hfield].
  destruct (_ !! "time_text") as [time_text|]; [|apply Hfield].
  destruct (Receptionist.validate_input L _) as [g|]; [|apply Hfield].
  do 4 (audio_step; [|apply Hfield]).
  cbn [store log].
  destruct (Calendly.create_calendly_appointment _ _ _ _ _ _ _) as [link|].
  2:{ eapply (change_field AwaitingAddress);
      [discriminate|exact Hs|reflexivity]. }
  destruct (negb (PyStr.truthy link)).
  { eapply (change_field AwaitingAddress);
      [discriminate|exact Hs|reflexivity]. }
  cbn [store log]. audio_step.
  - cbn [snd store]. eapply change_done; [reflexivity|exact Hs|].
    apply delete_insert_eq.
  - eapply (change_field AwaitingAddress);
      [discriminate|exact Hs|reflexivity].
Qed.

Lemma handle_store_change {L : PyLib} (C : Config) (t : Turn L) (st : State) :
  store_change (turn_step t) (sid_of (turn_form t))
    (store st) (store (snd (handle C t st))).
Proof.
  destruct t as [step w form]. unfold handle.
  cbn [turn_step turn_world turn_form].
  destruct step; [| | | |apply address_store_change]; unfold_booking.
  - repeat case_match; simplify_eq; cbn [snd store];
      try (apply change_none; reflexivity);
      eapply change_start; reflexivity.
  - repeat case_match; simplify_eq; cbn [snd store] in *;
      try (apply change_none; reflexivity);
      (eapply (change_field AwaitingTime); [discriminate|eassumption|reflexivity]).
  - repeat case_match; simplify_eq; cbn [snd store] in *;
      try (apply change_none; reflexivity);
      (eapply (change_field AwaitingName); [discriminate|eassumption|reflexivity]).
  - repeat case_match; simplify_eq; cbn [snd store] in *;
      try (apply change_none; reflexivity);
      (eapply (change_field AwaitingPhone); [discriminate|eassumption|reflexivity]).
Qed.

(** ** The order of the session fields *)

Lemma fields_in_order_spec (s : gmap string string) :
  fields_in_order s = true
  <-> (is_Some (s !! "time_text") -> is_Some (s !! "doctor"))
      /\ (is_Some (s !! "name") -> is_Some (s !! "time_text"))
      /\ (is_Some (s !! "phone") -> is_Some (s !! "name"))
      /\ (is_Some (s !! "address") -> is_Some (s !! "phone")).
Proof.
  unfold fields_in_order, session_fields. cbn [prefix_closed forallb].
  destruct (s !! "doctor"), (s !! "time_text"), (s !! "name"),
    (s !! "phone"), (s !! "address"); cbn;
    (split; [intros H; try discriminate H; repeat split; intros [x Hx];
             try discriminate Hx; eauto
            |intros (H1 & H2 & H3 & H4); try reflexivity; exfalso;
             repeat match goal with
                    | H : is_Some (Some ?v) -> is_Some None |- _ =>
                        destruct (H (ex_intro _ v eq_refl)) as [? Hn];
                        discriminate Hn
                    end]).
Qed.

Lemma orderly_insert (step : Step) (v : string) (s : gmap string string) :
  step <> AwaitingDoctor ->
  orderly s -> is_Some (s !! previous_field step) ->
  orderly (<[field_of step := v]> s).
Proof.
  intros Hstep [Hord Hdoc] Hprev. unfold orderly.
  rewrite fields_in_order_spec in Hord |- *.
  destruct Hord as (H1 & H2 & H3 & H4).
  destruct step; [congruence| | | |]; cbn [field_of previous_field] in *;
    rewrite ?lookup_insert_eq, ?lookup_insert_ne by discriminate;
    repeat split; eauto.
Qed.

Lemma doctor_kept (step : Step) (v : string) (s : gmap string string) :
  step <> AwaitingDoctor ->
  is_Some (s !! "doctor") -> is_Some (<[field_of step := v]> s !! "doctor").
Proof.
  intros Hstep Hdoc.
  destruct step; [congruence| | | |]; cbn [field_of];
    rewrite lookup_insert_ne by discriminate; exact Hdoc.
Qed.

Lemma orderly_start (d : string) :
  orderly ({[ "doctor" := d ]} : gmap string string).
Proof.
  split.
  - apply fields_in_order_spec.
    rewrite !lookup_singleton_ne by discriminate.
    repeat split; intros [x Hx]; discriminate Hx.
  - rewrite lookup_singleton_eq. eauto.
Qed.

Lemma turn_keeps_doctor {L : PyLib} (C : Config) (t : Turn L) (st : State) :
  (forall cid s, store st !! cid = Some s -> is_Some (s !! "doctor")) ->
  forall cid s, store (snd (handle C t st)) !! cid = Some s ->
                is_Some (s !! "doctor").
Proof.
  intros Hinv cid s.
  destruct (handle_store_change C t st) as [-> | d _ -> | s0 v Hne H0 -> | s0 _ H0 ->].
  - apply Hinv.
  - destruct (decide (sid_of (turn_form t) = cid)) as [->|Hc].
    + rewrite lookup_insert_eq. intros [= <-]. apply orderly_start.
    + rewrite lookup_insert_ne by exact Hc. apply Hinv.
  - destruct (decide (sid_of (turn_form t) = cid)) as [->|Hc].
    + rewrite lookup_insert_eq. intros [= <-].
      apply doctor_kept; [exact Hne|]. exact (Hinv _ _ H0).
    + rewrite lookup_insert_ne by exact Hc. apply Hinv.
  - intros [_ H]%lookup_delete_Some. exact (Hinv _ _ H).
Qed.

Lemma turn_keeps_order {L : PyLib} (C : Config) (t : Turn L) (st : State) :
  turn_in_order t st = true ->
  (forall cid s, store st !! cid = Some s -> orderly s) ->
  forall cid s, store (snd (handle C t st)) !! cid = Some s -> orderly s.
Proof.
  intros Hin Hinv cid s.
  destruct (handle_store_change C t st) as [-> | d _ -> | s0 v Hne H0 -> | s0 _ H0 ->].
  - apply Hinv.
  - destruct (decide (sid_of (turn_form t) = cid)) as [->|Hc].
    + rewrite lookup_insert_eq. intros [= <-]. apply orderly_start.
    + rewrite lookup_insert_ne by exact Hc. apply Hinv.
  - destruct (decide (sid_of (turn_form t) = cid)) as [->|Hc].
    + rewrite lookup_insert_eq. intros [= <-].
      apply orderly_insert; [exact Hne|exact (Hinv _ _ H0)|].
      unfold turn_in_order in Hin. rewrite H0 in Hin.
      destruct (turn_step t); cbn [previous_field];
        try (apply bool_decide_eq_true in Hin; exact Hin).
      apply (Hinv _ _ H0).
    + rewrite lookup_insert_ne by exact Hc. apply Hinv.
  - intros [_ H]%lookup_delete_Some. exact (Hinv _ _ H).
Qed.

Lemma run_keeps_doctor {L : PyLib} (C : Config) (ts : list (Turn L)) (st : State) :
  (forall cid s, store st !! cid = Some s -> is_Some (s !! "doctor")) ->
  forall cid s, store (run_turns C ts st) !! cid = Some s ->
                is_Some (s !! "doctor").
Proof.
  revert st. induction ts as [|t ts IH]; intros st Hinv; [exact Hinv|].
  cbn [run_turns]. apply IH. apply turn_keeps_doctor. exact Hinv.
Qed.

Lemma run_keeps_order {L : PyLib} (C : Config) (ts : list (Turn L)) (st : State) :
  turns_in_order C ts st = true ->
  (forall cid s, store st !! cid = Some s -> orderly s) ->
  forall cid s, store (run_turns C ts st) !! cid = Some s -> orderly s.
Proof.
  revert st. induction ts as [|t ts IH]; intros st Hin Hinv; [exact Hinv|].
  cbn [run_turns turns_in_order] in *.
  apply andb_prop in Hin as [Ht Hts].
  apply IH; [exact Hts|]. apply turn_keeps_order; assumption.
Qed.

(** C2, as amended. After any sequence of callbacks, in order or not,
    every session holds the doctor. When every callback arrives in order,
    that is, when the session of its call (if there is one) already holds
    the field of the step before, no session holds a later field while an
    earlier one is absent. The handlers do not check that order by
    themselves. *)
Theorem sessions_fill_in_order {L : PyLib} (C : Config) (ts : list (Turn L)) :
  (forall cid s, store (run_turns C ts empty_state) !! cid = Some s ->
                 is_Some (s !! "doctor"))
  /\ (turns_in_order C ts empty_state = true ->
      forall cid s, store (run_turns C ts empty_state) !! cid = Some s ->
                    fields_in_order s = true).
Proof.
  split.
  - apply run_keeps_doctor. intros cid s H. cbn in H.
    rewrite lookup_empty in H. discriminate H.
  - intros Hin cid s Hs.
    apply (run_keeps_order C ts empty_state Hin) with (cid := cid); [|exact Hs].
    intros cid' s' H. cbn in H. rewrite lookup_empty in H. discriminate H.
Qed.

Lemma sessions_fill_in_order_witness :
  fields_in_order
    {[ "doctor" := "Smith"; "time_text" := "Monday at 2 PM";
       "name" := "Jane Doe"; "phone" := "+15551234567" ]} = true.
Proof.
  refine (proj2 (sessions_fill_in_order Demo.cfg
            [mkTurn AwaitingDoctor Demo.world_free (Demo.form_of "CA1" "Smith");
             mkTurn AwaitingTime Demo.world_free
               (Demo.form_of "CA1" "Monday at 2 PM");
             mkTurn AwaitingName Demo.world_free (Demo.form_of "CA1" "Jane Doe");
             mkTurn AwaitingPhone Demo.world_free
               (Demo.form_of "CA1" "+1 555-123-4567")]) _ "CA1" _ _);
    vm_compute; reflexivity.
Defined.

(** C2, as stated, fails: a name callback that comes right after the
    doctor step is accepted, and the session then holds [name] while
    [time_text] is absent. *)
Lemma name_before_time :
  let ts :=
    [mkTurn AwaitingDoctor Demo.world_free (Demo.form_of "CA1" "Smith");
     mkTurn AwaitingName Demo.world_free (Demo.form_of "CA1" "Jane Doe")] in
  store (run_turns Demo.cfg ts empty_state) !! "CA1"
  = Some {[ "doctor" := "Smith"; "name" := "Jane Doe" ]}
  /\ ({[ "doctor" := "Smith"; "name" := "Jane Doe" ]} : gmap string string)
       !! "name" = Some "Jane Doe"
  /\ ({[ "doctor" := "Smith"; "name" := "Jane Doe" ]} : gmap string string)
       !! "time_text" = None
  /\ fields_in_order {[ "doctor" := "Smith"; "name" := "Jane Doe" ]} = false.
Proof. cbv zeta. repeat split; vm_compute; reflexivity. Qed.

(** ** Creating and updating a session *)

Lemma doctor_step_replaces {L : PyLib} (w : World L)
      (form : gmap string string) (st : State) :
  PyStr.truthy (sid_of form) = true ->
  PyStr.truthy (speech_of form) = true ->
  store (snd (Booking.capture_doctor_name w form st))
  = <[sid_of form := {[ "doctor" := speech_of form ]}]> (store st).
Proof.
  intros Hsid Hval. unfold Booking.capture_doctor_name.
  rewrite snd_try_on_error. unfold Booking._generate_audio_url.
  unfold sid_of, speech_of in *. unfold_monad.
  rewrite Hsid, Hval. cbn [negb store log].
  repeat audio_step; reflexivity.
Qed.

Lemma middle_step_merges {L : PyLib} (C : Config) (t : Turn L) (st : State)
      (session : gmap string string) :
  turn_step t = AwaitingTime \/ turn_step t = AwaitingName
  \/ turn_step t = AwaitingPhone ->
  PyStr.truthy (sid_of (turn_form t)) = true ->
  store st !! sid_of (turn_form t) = Some session ->
  step_input_valid (turn_step t) (turn_form t) = true ->
  store (snd (handle C t st))
  = <[sid_of (turn_form t) :=
        <[field_of (turn_step t) := step_value (turn_step t) (turn_form t)]>
          session]> (store st).
Proof.
  destruct t as [step w form]. cbn [turn_step turn_world turn_form].
  intros Hstep Hsid Hsess Hval. unfold handle.
  cbn [turn_step turn_world turn_form].
  destruct Hstep as [-> | [-> | ->]];
    cbn [step_input_valid step_value field_of] in *.
  - unfold Booking.capture_appointment_time. rewrite snd_try_on_error.
    unfold Booking._generate_audio_url. unfold sid_of, speech_of in *.
    unfold_monad. rewrite Hsid. cbn [negb store]. rewrite Hsess, Hval.
    cbn [negb store log].
    destruct (_ !! "doctor"); [|reflexivity]. cbn [store log].
    destruct (negb _); repeat audio_step; reflexivity.
  - unfold Booking.capture_user_name. rewrite snd_try_on_error.
    unfold Booking._generate_audio_url. unfold sid_of, speech_of in *.
    unfold_monad. rewrite Hsid. cbn [negb store]. rewrite Hsess, Hval.
    cbn [negb store log]. repeat audio_step; reflexivity.
  - unfold Booking.capture_user_phone. rewrite snd_try_on_error.
    unfold Booking._generate_audio_url. unfold sid_of, speech_of in *.
    unfold_monad. rewrite Hsid. cbn [negb store]. rewrite Hsess.
    rewrite <- negb_andb, Hval.
    cbn [negb store log]. repeat audio_step; reflexivity.
Qed.

(** C5, as amended. The steps after the doctor step never create a
    session: for a call identifier without a session they leave none, and
    in a session that is there they leave every field but their own as it
    is (the address step may also remove the session, on completion). The
    time, name and phone steps write their value into the session that is
    there when their input is valid. The doctor step does not merge: on a
    valid input it replaces whatever session the call identifier has by one
    that holds only the doctor, so a repeated doctor step discards the
    other fields. *)
Theorem store_update_by_step {L : PyLib} (C : Config) (t : Turn L) (st : State) :
  (turn_step t <> AwaitingDoctor ->
   forall cid,
     match store st !! cid with
     | None => store (snd (handle C t st)) !! cid = None
     | Some s =>
         (turn_step t = AwaitingAddress
          /\ store (snd (handle C t st)) !! cid = None)
         \/ exists s', store (snd (handle C t st)) !! cid = Some s'
                       /\ forall key, key <> field_of (turn_step t) ->
                                      s' !! key = s !! key
     end)
  /\ (forall session,
         turn_step t = AwaitingTime \/ turn_step t = AwaitingName
         \/ turn_step t = AwaitingPhone ->
         PyStr.truthy (sid_of (turn_form t)) = true ->
         store st !! sid_of (turn_form t) = Some session ->
         step_input_valid (turn_step t) (turn_form t) = true ->
         store (snd (handle C t st))
         = <[sid_of (turn_form t) :=
               <[field_of (turn_step t) := step_value (turn_step t) (turn_form t)]>
                 session]> (store st))
  /\ (turn_step t = AwaitingDoctor ->
      PyStr.truthy (sid_of (turn_form t)) = true ->
      PyStr.truthy (speech_of (turn_form t)) = true ->
      store (snd (handle C t st))
      = <[sid_of (turn_form t) := {[ "doctor" := speech_of (turn_form t) ]}]>
          (store st)).
Proof.
  split; [|split].
  - intros Hstep cid.
    destruct (handle_store_change C t st)
      as [-> | d Hd _ | s0 v _ H0 -> | s0 Ha H0 ->]; [| congruence | |].
    + destruct (store st !! cid) as [s|]; [|reflexivity].
      right. exists s. split; reflexivity.
    + destruct (decide (sid_of (turn_form t) = cid)) as [<-|Hc].
      * rewrite H0, lookup_insert_eq. right. eexists. split; [reflexivity|].
        intros key Hkey. apply lookup_insert_ne. congruence.
      * rewrite lookup_insert_ne by exact Hc.
        destruct (store st !! cid) as [s|]; [|reflexivity].
        right. exists s. split; reflexivity.
    + destruct (decide (sid_of (turn_form t) = cid)) as [<-|Hc].
      * rewrite H0, lookup_delete_eq. left. split; [exact Ha|reflexivity].
      * rewrite lookup_delete_ne by exact Hc.
        destruct (store st !! cid) as [s|]; [|reflexivity].
        right. exists s. split; reflexivity.
  - intros session. apply middle_step_merges.
  - destruct t as [step w form]. cbn [turn_step turn_world turn_form].
    intros -> Hsid Hval. unfold handle. cbn [turn_step turn_world turn_form].
    apply doctor_step_replaces; assumption.
Qed.

Lemma store_update_by_step_witness :
  store (snd (handle Demo.cfg
                (mkTurn AwaitingName Demo.world_free
                   (Demo.form_of "CA1" "Jane Doe"))
                (Demo.state_of "CA1" Demo.session_smith)))
  = <["CA1" := <["name" := "Jane Doe"]> Demo.session_smith]>
      (store (Demo.state_of "CA1" Demo.session_smith))
  /\ store (snd (handle Demo.cfg
                   (mkTurn AwaitingDoctor Demo.world_free
                      (Demo.form_of "CA1" "Jones"))
                   (Demo.state_of "CA1" Demo.session_patel)))
     = <["CA1" := {[ "doctor" := "Jones" ]}]>
         (store (Demo.state_of "CA1" Demo.session_patel)).
Proof.
  split.
  - apply (store_update_by_step Demo.cfg
             (mkTurn AwaitingName Demo.world_free (Demo.form_of "CA1" "Jane Doe"))
             (Demo.state_of "CA1" Demo.session_smith));
      [right; left; reflexivity|reflexivity..].
  - apply (store_update_by_step Demo.cfg
             (mkTurn AwaitingDoctor Demo.world_free (Demo.form_of "CA1" "Jones"))
             (Demo.state_of "CA1" Demo.session_patel)); reflexivity.
Defined.

(** C5, as stated, fails: a repeated doctor step for a call that already
    has a session discards the other fields of that session. *)
Lemma repeated_doctor_discards_fields :
  let st := Demo.state_of "CA1" Demo.session_patel in
  let out := Booking.capture_doctor_name Demo.world_free
               (Demo.form_of "CA1" "Jones") st in
  store st !! "CA1" ≫= (fun s => s !! "time_text") = Some "2025-06-10T14:00:00"
  /\ store (snd out) !! "CA1" = Some {[ "doctor" := "Jones" ]}
  /\ store (snd out) !! "CA1" ≫= (fun s => s !! "time_text") = None.
Proof. cbv zeta. repeat split; vm_compute; reflexivity. Qed.

(** ** The address step and the booking finalizer *)

Lemma address_without_session {L : PyLib} (C : Config) (w : World L)
      (form : gmap string string) (st : State) :
  store st !! sid_of form = None ->
  snd (Booking.capture_user_address C w form st) = st.
Proof.
  intros Hnone. unfold Booking.capture_user_address.
  rewrite snd_try_on_error. unfold sid_of in Hnone. unfold_monad.
  destruct (negb _); [reflexivity|]. cbn [store]. rewrite Hnone. reflexivity.
Qed.

(** A response with a [Hangup] comes from the [try] block, not from the
    [except] block. *)
Lemma hangup_from_body {L : PyLib} (w : World L) (text : string)
      (body : M Response) (st : State) (resp : Response) :
  fst (try_except body (Booking.on_error w text) st) = Ok resp ->
  In Hangup resp ->
  body st = (Ok resp, snd (try_except body (Booking.on_error w text) st)).
Proof.
  unfold try_except, Booking.on_error, Booking._generate_audio_url.
  unfold_monad. destruct (body st) as [[r|e] st']; cbn [fst snd].
  - intros [= ->] _. reflexivity.
  - destruct (generate_audio w text); cbn [fst]; [|discriminate].
    intros [= <-] [H|[H|[]]]; discriminate H.
Qed.

Lemma completion_effects {L : PyLib} (C : Config) (w : World L)
      (form : gmap string string) (st : State) (resp : Response) :
  fst (Booking.capture_user_address C w form st) = Ok resp ->
  In Hangup resp ->
  store (snd (Booking.capture_user_address C w form st)) !! sid_of form = None
  /\ count_creations (log (snd (Booking.capture_user_address C w form st)))
     = S (count_creations (log st))
  /\ count_sms (log (snd (Booking.capture_user_address C w form st)))
     = S (count_sms (log st)).
Proof.
  intros Hok Hhang. unfold Booking.capture_user_address in *.
  pose proof (hangup_from_body _ _ _ _ _ Hok Hhang) as Hbody.
  match type of Hbody with
  | _ = (_, ?s) => revert Hbody; generalize s
  end.
  clear Hok. intros st'.
  unfold Booking._generate_audio_url, sid_of. unfold_monad.
  destruct (negb (PyStr.truthy _)); [discriminate|]. cbn [store].
  destruct (store st !! _) as [session|]; [|discriminate].
  destruct (negb (PyStr.truthy _)); [discriminate|]. cbn [store log].
  destruct (_ !! "name") as [name|]; [|discriminate].
  destruct (_ !! "phone") as [phone|]; [|discriminate].
  destruct (_ !! "doctor") as [doctor|]; [|discriminate].
  destruct (_ !! "time_text") as [time_text|]; [|discriminate].
  destruct (Receptionist.validate_input L _) as [g|]; [|discriminate].
  do 4 (audio_step; [|discriminate]).
  cbn [store log].
  destruct (Calendly.create_calendly_appointment _ _ _ _ _ _ _) as [link|];
    [|discriminate].
  destruct (negb (PyStr.truthy link)); [discriminate|].
  cbn [store log]. audio_step; [|discriminate].
  intros [= _ <-]. cbn [snd store log].
  split; [apply lookup_delete_eq|].
  unfold count_creations, count_sms.
  rewrite !List.filter_app, !length_app. cbn. split; lia.
Qed.

(** C3. When the address step completes a booking (its response ends the
    call with [Hangup]), it has made exactly one appointment-creation call
    and has removed the session; a second address callback for the same
    call identifier, whatever the services answer then, changes nothing
    and makes no further appointment-creation call. *)
Theorem completion_creates_once {L : PyLib} (C : Config) (w1 w2 : World L)
        (form1 form2 : gmap string string) (st : State) (resp1 : Response) :
  fst (Booking.capture_user_address C w1 form1 st) = Ok resp1 ->
  In Hangup resp1 ->
  sid_of form2 = sid_of form1 ->
  let st1 := snd (Booking.capture_user_address C w1 form1 st) in
  let st2 := snd (Booking.capture_user_address C w2 form2 st1) in
  store st1 !! sid_of form1 = None
  /\ count_creations (log st1) = S (count_creations (log st))
  /\ st2 = st1
  /\ count_creations (log st2) = count_creations (log st1).
Proof.
  intros Hok Hhang Hsid st1 st2.
  destruct (completion_effects C w1 form1 st resp1 Hok Hhang)
    as (Hgone & Hone & _).
  assert (Hsame : st2 = st1).
  { subst st2. apply address_without_session. rewrite Hsid. exact Hgone. }
  split; [exact Hgone|]. split; [exact Hone|]. split; [exact Hsame|].
  rewrite Hsame. reflexivity.
Qed.

Lemma completion_creates_once_witness :
  let st := Demo.state_of "CA1" Demo.session_patel in
  let st1 := snd (Booking.capture_user_address Demo.cfg Demo.world_free
                    (Demo.form_of "CA1" "1 Main St") st) in
  let st2 := snd (Booking.capture_user_address Demo.cfg Demo.world_free
                    (Demo.form_of "CA1" "1 Main St") st1) in
  store st1 !! "CA1" = None
  /\ count_creations (log st1) = 1
  /\ st2 = st1
  /\ count_creations (log st2) = count_creations (log st1).
Proof.
  refine (completion_creates_once Demo.cfg Demo.world_free Demo.world_free
            (Demo.form_of "CA1" "1 Main St") (Demo.form_of "CA1" "1 Main St")
            (Demo.state_of "CA1" Demo.session_patel)
            [Play "https://audio.example/Confirming your booking details.";
             Play "https://audio.example/You want to book with Doctor Patel at 2025-06-10T14:00:00.";
             Play "https://audio.example/Your name is Jane Doe, phone +15551234567, address 1 Main St.";
             Play "https://audio.example/Booking your appointment now.";
             Play "https://audio.example/Your appointment has been successfully booked. A confirmation message has been sent to your phone.";
             Hangup] _ _ _).
  - vm_compute. reflexivity.
  - cbn. tauto.
  - reflexivity.
Defined.

Section AddressStep.

Context {L : PyLib} (C : Config) (w : World L).
Context (form : gmap string string) (st : State).
Context (session : gmap string string) (name phone doctor time_text : string).

Hypothesis call_known : PyStr.truthy (sid_of form) = true.
Hypothesis session_found : store st !! sid_of form = Some session.
Hypothesis address_given : PyStr.truthy (speech_of form) = true.
Hypothesis has_name : session !! "name" = Some name.
Hypothesis has_phone : session !! "phone" = Some phone.
Hypothesis has_doctor : session !! "doctor" = Some doctor.
Hypothesis has_time : session !! "time_text" = Some time_text.

Let guest := Booking.guest_data_of name phone doctor time_text.
Let stored :=
  <[sid_of form := <["address" := speech_of form]> session]> (store st).

Ltac address_prefix :=
  unfold Booking.capture_user_address, Booking.on_error,
    Booking._generate_audio_url;
  unfold stored, guest, sid_of, speech_of in *; unfold_monad;
  rewrite call_known; cbn [negb store];
  rewrite session_found, address_given; cbn [negb store log];
  rewrite !lookup_insert_ne by discriminate;
  rewrite has_name, has_phone, has_doctor, has_time; cbn [store log].

(** The guest record is rejected: nothing is called. *)
Lemma address_step_invalid_guest :
  Receptionist.validate_input L guest = None ->
  snd (Booking.capture_user_address C w form st) = mkState stored (log st)
  /\ forall u,
      generate_audio w
        "An error occurred while booking your appointment. Please try again."
      = Some u ->
      fst (Booking.capture_user_address C w form st)
      = Ok [Play u; Redirect "/book-appointment"].
Proof.
  intros Hbad. address_prefix. rewrite Hbad. cbn [snd fst].
  split.
  - destruct (generate_audio w _); reflexivity.
  - intros u ->. reflexivity.
Qed.

(** The creation fails: the session stays. *)
Lemma address_step_creation_fails (g : Receptionist.GuestInfo) :
  Receptionist.validate_input L guest = Some g ->
  match Calendly.create_calendly_appointment C w doctor "general" name
          (Receptionist.email g) time_text with
  | None => True
  | Some link => PyStr.truthy link = false
  end ->
  store (snd (Booking.capture_user_address C w form st)) = stored
  /\ count_sms (log (snd (Booking.capture_user_address C w form st)))
     = count_sms (log st).
Proof.
  intros Hg Hfail. address_prefix. rewrite Hg.
  do 4 (audio_step;
        [|cbn [snd store log]; audio_step; split; reflexivity]).
  cbn [store log].
  destruct (Calendly.create_calendly_appointment _ _ _ _ _ _ _) as [link|].
  - rewrite Hfail. cbn [negb snd store log].
    audio_step; cbn [snd store log]; (split; [reflexivity|]);
      unfold count_sms; rewrite List.filter_app, length_app; cbn; lia.
  - cbn [snd store log].
    audio_step; cbn [snd store log]; (split; [reflexivity|]);
      unfold count_sms; rewrite List.filter_app, length_app; cbn; lia.
Qed.

(** The creation succeeds: the session is removed, whatever the SMS
    does. *)
Lemma address_step_completes (g : Receptionist.GuestInfo) (link : string) :
  Receptionist.validate_input L guest = Some g ->
  Calendly.create_calendly_appointment C w doctor "general" name
    (Receptionist.email g) time_text = Some link ->
  PyStr.truthy link = true ->
  audio_up w ->
  store (snd (Booking.capture_user_address C w form st))
  = delete (sid_of form) (store st)
  /\ log (snd (Booking.capture_user_address C w form st))
     = (log st
        ++ [CallCreateAppointment doctor "general" name (Receptionist.email g)
              time_text (Some link);
            CallSendSms phone doctor time_text link
              (Messaging.send_confirmation_sms C w phone doctor time_text
                 link)])%list
  /\ exists u1 u2 u3 u4 u5,
      fst (Booking.capture_user_address C w form st)
      = Ok [Play u1; Play u2; Play u3; Play u4; Play u5; Hangup].
Proof.
  intros Hg Hlink Htruthy Hup. address_prefix. rewrite Hg.
  do 4 (match goal with
        | |- context [generate_audio w ?text] =>
            let u := fresh "u" in
            destruct (audio_up_some w text Hup) as [u ->]
        end).
  cbn [store log]. rewrite Hlink, Htruthy. cbn [negb store log].
  match goal with
  | |- context [generate_audio w ?text] =>
      let u := fresh "u" in
      destruct (audio_up_some w text Hup) as [u ->]
  end.
  cbn [fst snd store log]. split; [apply delete_insert_eq|].
  split; [rewrite <- app_assoc; reflexivity|].
  eauto 10.
Qed.

End AddressStep.

(** C4, as amended. With a complete session and a guest record that
    validates: when the appointment-creation call fails (it returns
    nothing, or an empty link), the session stays in the store, with the
    address added, and no SMS is sent; when the call returns a link and
    the text-to-speech service renders the prompts of the step, the
    session is removed and the confirmation SMS is attempted once, and the
    session is removed whether that SMS is sent or not. *)
Theorem finalizer_session_retention {L : PyLib} (C : Config) (w : World L)
        (form : gmap string string) (st : State)
        (session : gmap string string) (name phone doctor time_text : string)
        (g : Receptionist.GuestInfo) :
  PyStr.truthy (sid_of form) = true ->
  store st !! sid_of form = Some session ->
  PyStr.truthy (speech_of form) = true ->
  session !! "name" = Some name ->
  session !! "phone" = Some phone ->
  session !! "doctor" = Some doctor ->
  session !! "time_text" = Some time_text ->
  Receptionist.validate_input L
    (Booking.guest_data_of name phone doctor time_text) = Some g ->
  let created :=
    Calendly.create_calendly_appointment C w doctor "general" name
      (Receptionist.email g) time_text in
  let st' := snd (Booking.capture_user_address C w form st) in
  (match created with
   | None => True
   | Some link => PyStr.truthy link = false
   end ->
   store st' !! sid_of form = Some (<["address" := speech_of form]> session)
   /\ count_sms (log st') = count_sms (log st))
  /\ (forall link sent,
         created = Some link -> PyStr.truthy link = true -> audio_up w ->
         Messaging.send_confirmation_sms C w phone doctor time_text link = sent ->
         store st' !! sid_of form = None
         /\ In (CallSendSms phone doctor time_text link sent) (log st')
         /\ count_sms (log st') = S (count_sms (log st))).
Proof.
  intros Hsid Hsess Haddr Hname Hphone Hdoctor Htime Hg created st'.
  subst created st'. split.
  - intros Hfail.
    destruct (address_step_creation_fails C w form st session name phone
                doctor time_text Hsid Hsess Haddr Hname Hphone Hdoctor Htime
                g Hg Hfail) as [-> Hsms].
    split; [apply lookup_insert_eq|exact Hsms].
  - intros link sent Hlink Htruthy Hup Hsent.
    destruct (address_step_completes C w form st session name phone
                doctor time_text Hsid Hsess Haddr Hname Hphone Hdoctor Htime
                g link Hg Hlink Htruthy Hup) as (-> & -> & _).
    split; [apply lookup_delete_eq|]. rewrite Hsent. split.
    + apply in_or_app. right. right. left. reflexivity.
    + unfold count_sms. rewrite List.filter_app, length_app. cbn. lia.
Qed.

Lemma finalizer_session_retention_witness :
  let st := Demo.state_of "CA1" Demo.session_patel in
  let form := Demo.form_of "CA1" "1 Main St" in
  store (snd (Booking.capture_user_address Demo.cfg Demo.world_no_creation
                form st)) !! "CA1"
  = Some (<["address" := "1 Main St"]> Demo.session_patel)
  /\ store (snd (Booking.capture_user_address Demo.cfg Demo.world_no_sms
                   form st)) !! "CA1" = None
  /\ In (CallSendSms "+15551234567" "Patel" "2025-06-10T14:00:00"
           "https://calendly.com/d/abc" false)
        (log (snd (Booking.capture_user_address Demo.cfg Demo.world_no_sms
                     form st))).
Proof.
  cbv zeta. split.
  - refine (proj1 (proj1 (finalizer_session_retention Demo.cfg
              Demo.world_no_creation (Demo.form_of "CA1" "1 Main St")
              (Demo.state_of "CA1" Demo.session_patel) Demo.session_patel
              "Jane Doe" "+15551234567" "Patel" "2025-06-10T14:00:00"
              {| Receptionist.name := "Jane Doe";
                 Receptionist.email := "jane.doe@example.com";
                 Receptionist.phone := "+15551234567";
                 Receptionist.purpose :=
                   "Appointment with Dr. Patel at 2025-06-10T14:00:00" |}
              _ _ _ _ _ _ _ _) _)); vm_compute; reflexivity || exact I.
  - refine ((fun H => conj (proj1 H) (proj1 (proj2 H)))
              (proj2 (finalizer_session_retention Demo.cfg
              Demo.world_no_sms (Demo.form_of "CA1" "1 Main St")
              (Demo.state_of "CA1" Demo.session_patel) Demo.session_patel
              "Jane Doe" "+15551234567" "Patel" "2025-06-10T14:00:00"
              {| Receptionist.name := "Jane Doe";
                 Receptionist.email := "jane.doe@example.com";
                 Receptionist.phone := "+15551234567";
                 Receptionist.purpose :=
                   "Appointment with Dr. Patel at 2025-06-10T14:00:00" |}
              _ _ _ _ _ _ _ _)
              "https://calendly.com/d/abc" false _ _ _ _));
      try (vm_compute; reflexivity).
    intros text. eexists. reflexivity.
Defined.

(** C4, as stated, fails: the session is removed by the last statement of
    the step, after the closing prompt is rendered. Here the appointment
    is created and the SMS is sent, the rendering of the closing prompt
    fails, and the session is still in the store. *)
Lemma created_session_kept :
  let st := Demo.state_of "CA1" Demo.session_patel in
  let form := Demo.form_of "CA1" "1 Main St" in
  let out := Booking.capture_user_address Demo.cfg Demo.world_prompt_fails form st in
  log (snd out)
  = [CallCreateAppointment "Patel" "general" "Jane Doe" "jane.doe@example.com"
       "2025-06-10T14:00:00" (Some "https://calendly.com/d/abc");
     CallSendSms "+15551234567" "Patel" "2025-06-10T14:00:00"
       "https://calendly.com/d/abc" true]
  /\ store (snd out) !! "CA1"
     = Some (<["address" := "1 Main St"]> Demo.session_patel)
  /\ store (snd out) !! "CA1" <> None
  /\ fst out
     = Ok [Play "https://audio.example/An error occurred while booking your appointment. Please try again.";
           Redirect "/book-appointment"].
Proof.
  cbv zeta. repeat split; try (vm_compute; reflexivity).
  vm_compute. discriminate.
Qed.


(** C7. With a complete session whose derived guest record fails the
    validation, the address step calls neither the appointment creation
    nor the confirmation SMS: the log of collaborator calls is unchanged.
    The session stays in the store, and the caller gets the error prompt
    and is sent back to the entry of the booking dialogue. *)
Theorem invalid_guest_aborts {L : PyLib} (C : Config) (w : World L)
        (form : gmap string string) (st : State)
        (session : gmap string string) (name phone doctor time_text : string) :
  PyStr.truthy (sid_of form) = true ->
  store st !! sid_of form = Some session ->
  PyStr.truthy (speech_of form) = true ->
  session !! "name" = Some name ->
  session !! "phone" = Some phone ->
  session !! "doctor" = Some doctor ->
  session !! "time_text" = Some time_text ->
  Receptionist.validate_input L
    (Booking.guest_data_of name phone doctor time_text) = None ->
  let out := Booking.capture_user_address C w form st in
  log (snd out) = log st
  /\ count_creations (log (snd out)) = count_creations (log st)
  /\ count_sms (log (snd out)) = count_sms (log st)
  /\ store (snd out) !! sid_of form
     = Some (<["address" := speech_of form]> session)
  /\ forall u,
      generate_audio w
        "An error occurred while booking your appointment. Please try again."
      = Some u ->
      fst out = Ok [Play u; Redirect "/book-appointment"].
Proof.
  intros Hsid Hsess Haddr Hname Hphone Hdoctor Htime Hbad out. subst out.
  destruct (address_step_invalid_guest C w form st session name phone
              doctor time_text Hsid Hsess Haddr Hname Hphone Hdoctor Htime
              Hbad) as [-> Hresp].
  cbn [log store]. repeat split; [apply lookup_insert_eq|exact Hresp].
Qed.

Lemma invalid_guest_aborts_witness :
  let session : gmap string string :=
    {[ "doctor" := "Patel"; "time_text" := "2025-06-10T14:00:00";
       "name" := "J"; "phone" := "+15551234567" ]} in
  let out := Booking.capture_user_address Demo.cfg Demo.world_free
               (Demo.form_of "CA1" "1 Main St") (Demo.state_of "CA1" session) in
  log (snd out) = []
  /\ fst out
     = Ok [Play "https://audio.example/An error occurred while booking your appointment. Please try again.";
           Redirect "/book-appointment"].
Proof.
  cbv zeta.
  refine ((fun H => conj (proj1 H) (proj2 (proj2 (proj2 (proj2 H))) _ _))
            (invalid_guest_aborts Demo.cfg Demo.world_free
               (Demo.form_of "CA1" "1 Main St")
               (Demo.state_of "CA1"
                  {[ "doctor" := "Patel"; "time_text" := "2025-06-10T14:00:00";
                     "name" := "J"; "phone" := "+15551234567" ]})
               {[ "doctor" := "Patel"; "time_text" := "2025-06-10T14:00:00";
                  "name" := "J"; "phone" := "+15551234567" ]}
               "J" "+15551234567" "Patel" "2025-06-10T14:00:00"
               _ _ _ _ _ _ _ _)); vm_compute; reflexivity.
Defined.

(** ** The phone pattern *)

Lemma skip_plus_cases (s : string) :
  (exists r, s = String "+" r /\ skip_plus s = r)
  \/ (skip_plus s = s /\ forall r, s <> String "+" r).
Proof.
  destruct s as [|a r]; [right; split; [reflexivity|discriminate]|].
  destruct (Ascii.eqb_spec a "+") as [->|Hne].
  - left. exists r. split; reflexivity.
  - right. split; [|intros r' [= Ha _]; contradiction].
    destruct a as [[] [] [] [] [] [] [] []]; try reflexivity.
    contradiction Hne. reflexivity.
Qed.

Lemma append_cons (c : ascii) (x y : string) :
  String c x ++ y = String c (x ++ y).
Proof. reflexivity. Qed.

Lemma append_nil (y : string) : "" ++ y = y.
Proof. reflexivity. Qed.

Lemma take_drop (n : nat) (r : string) :
  r = take_digits_upto n r
      ++ PyStr.drop (String.length (take_digits_upto n r)) r.
Proof.
  revert r. induction n as [|n IH]; intros [|c r]; try reflexivity.
  cbn [take_digits_upto]. destruct (PyStr.is_digit c); [|reflexivity].
  cbn [String.length PyStr.drop]. rewrite append_cons. f_equal. apply IH.
Qed.

Lemma take_all_digits (n : nat) (r : string) :
  all_digits (take_digits_upto n r) = true.
Proof.
  revert r. induction n as [|n IH]; intros [|c r]; try reflexivity.
  cbn [take_digits_upto]. destruct (PyStr.is_digit c) eqn:Hc; [|reflexivity].
  cbn [all_digits]. rewrite Hc. apply IH.
Qed.

Lemma take_length (n : nat) (r : string) :
  String.length (take_digits_upto n r) <= n.
Proof.
  revert r. induction n as [|n IH]; intros [|c r]; cbn; try lia.
  destruct (PyStr.is_digit c); cbn; [|lia]. specialize (IH r). lia.
Qed.

(** A run of at most [n] digits, followed by nothing or by something that
    does not start with a digit, is taken whole. *)
Lemma take_run (n : nat) (ds rest : string) :
  all_digits ds = true -> String.length ds <= n ->
  match rest with
  | EmptyString => True
  | String c _ => PyStr.is_digit c = false
  end ->
  take_digits_upto n (ds ++ rest) = ds
  /\ PyStr.drop (String.length ds) (ds ++ rest) = rest.
Proof.
  revert n. induction ds as [|c ds IH]; intros n Hd Hn Hrest.
  - rewrite append_nil. cbn [String.length PyStr.drop]. split; [|reflexivity].
    destruct n, rest as [|c r]; try reflexivity.
    cbn [take_digits_upto]. rewrite Hrest. reflexivity.
  - cbn [all_digits] in Hd. apply andb_prop in Hd as [Hc Hds].
    cbn [String.length] in Hn. destruct n as [|n]; [lia|].
    rewrite append_cons. cbn [take_digits_upto String.length PyStr.drop].
    rewrite Hc. destruct (IH n Hds ltac:(lia) Hrest) as [-> ->].
    split; reflexivity.
Qed.

Lemma append_empty (s : string) : s ++ "" = s.
Proof.
  induction s as [|c s IH]; [reflexivity|]. rewrite append_cons, IH. reflexivity.
Qed.

(** [re.match] accepts exactly the strings of the E.164-like shape and
    those strings followed by one newline. *)
Lemma re_match_phone_spec (s : string) :
  re_match_phone s = true
  <-> e164_like s = true
      \/ exists t, s = t ++ String "010" "" /\ e164_like t = true.
Proof.
  unfold re_match_phone, match_phone, e164_like. split.
  - destruct (skip_plus s) as [|c r] eqn:Hskip; [discriminate|].
    intros [[Hc Hlen]%andb_prop Hrest]%andb_prop.
    pose proof (take_drop 14 r) as Hsplit.
    pose proof (take_all_digits 14 r) as Hds.
    pose proof (take_length 14 r) as H14.
    apply Nat.leb_le in Hlen.
    set (ds := take_digits_upto 14 r) in *.
    unfold dollar_python in Hrest. apply orb_prop in Hrest as [He|Hn].
    + apply String.eqb_eq in He. rewrite He, append_empty in Hsplit.
      left. rewrite Hc, Hsplit, Hds. cbn [andb].
      apply andb_true_intro. split; apply Nat.leb_le; lia.
    + apply String.eqb_eq in Hn. rewrite Hn in Hsplit. right.
      destruct (skip_plus_cases s) as [(r0 & Hs & Hr0) | [Hsame _]].
      * exists (String "+" (String c ds)). split.
        -- rewrite Hs, append_cons. f_equal.
           rewrite <- Hr0, Hskip, Hsplit at 1. reflexivity.
        -- cbn [skip_plus]. rewrite Hc, Hds. cbn [andb].
           apply andb_true_intro. split; apply Nat.leb_le; lia.
      * exists (String c ds). split.
        -- rewrite <- Hsame, Hskip, Hsplit at 1. reflexivity.
        -- assert (Hplus : skip_plus (String c ds) = String c ds).
           { destruct (Ascii.eqb_spec c "+") as [->|Hne];
               [discriminate Hc|].
             destruct (skip_plus_cases (String c ds))
               as [(r0 & [= Hc0 _] & _) | [H _]]; [contradiction|exact H]. }
           rewrite Hplus, Hc, Hds. cbn [andb].
           apply andb_true_intro. split; apply Nat.leb_le; lia.
  - intros [He | (t & -> & He)].
    + destruct (skip_plus s) as [|c r]; [discriminate|].
      apply andb_prop in He as [[[Hc Hds]%andb_prop Hlo]%andb_prop Hhi].
      apply Nat.leb_le in Hlo, Hhi.
      destruct (take_run 14 r "" Hds Hhi I) as [Htake Hdrop].
      rewrite append_empty in Htake, Hdrop. rewrite Htake, Hdrop, Hc.
      cbn [andb]. apply andb_true_intro. split; [apply Nat.leb_le; lia|].
      reflexivity.
    + destruct (skip_plus t) as [|c r] eqn:Hskip; [discriminate|].
      apply andb_prop in He as [[[Hc Hds]%andb_prop Hlo]%andb_prop Hhi].
      apply Nat.leb_le in Hlo, Hhi.
      assert (Hs : skip_plus (t ++ String "010" "")
                   = String c (r ++ String "010" "")).
      { destruct (skip_plus_cases t) as [(r0 & -> & Hr0) | [Hsame _]].
        - rewrite append_cons. cbn [skip_plus] in Hskip |- *.
          rewrite Hskip. reflexivity.
        - rewrite Hsame in Hskip. subst t. rewrite append_cons.
          destruct (Ascii.eqb_spec c "+") as [->|Hne]; [discriminate Hc|].
          destruct (skip_plus_cases (String c (r ++ String "010" "")))
            as [(r0 & [= Hc0 _] & _) | [H _]]; [contradiction|exact H]. }
      rewrite Hs.
      destruct (take_run 14 r (String "010" "") Hds Hhi eq_refl)
        as [Htake Hdrop].
      rewrite Htake, Hdrop, Hc. cbn [andb].
      apply andb_true_intro. split; [apply Nat.leb_le; lia|reflexivity].
Qed.

(** The phone step writes only a value that [re.match] accepts: a string
    of the E.164-like shape, or such a string followed by one newline. *)
Lemma phone_step_commits_matched {L : PyLib} (w : World L)
      (form : gmap string string) (st : State) :
  snd (Booking.capture_user_phone w form st) <> st ->
  let phone := Booking.clean_phone (form_get form "SpeechResult") in
  e164_like phone = true
  \/ exists t, phone = t ++ String "010" "" /\ e164_like t = true.
Proof.
  intros Hchanged phone.
  destruct (step_input_valid AwaitingPhone form) eqn:Hvalid.
  - cbn [step_input_valid] in Hvalid. apply andb_prop in Hvalid as [_ Hm].
    apply re_match_phone_spec. exact Hm.
  - contradiction Hchanged.
    apply (invalid_input_rejected (Build_Config [] "" "" "" "" "")
             (mkTurn AwaitingPhone w form) st Hvalid).
Qed.

(** C6 at the failing input. The spoken value "+15551234567", a newline,
    ";" passes the sanitizer as the number followed by the newline;
    [re.match] accepts it because [$] also matches before a final newline;
    the phone step stores it although it is not of the E.164-like shape;
    and the address step then completes the booking with that session. *)
Theorem phone_with_newline_is_committed :
  let speech := "+15551234567" ++ String "010" ";" in
  let phone := "+15551234567" ++ String "010" "" in
  let session : gmap string string :=
    {[ "doctor" := "Patel"; "time_text" := "2025-06-10T14:00:00";
       "name" := "Jane Doe" ]} in
  let st1 := snd (Booking.capture_user_phone Demo.world_free
                    (Demo.form_of "CA1" speech)
                    (Demo.state_of "CA1" session)) in
  let out := Booking.capture_user_address Demo.cfg Demo.world_free
               (Demo.form_of "CA1" "1 Main St") st1 in
  Booking.clean_phone speech = phone
  /\ re_match_phone phone = true
  /\ e164_like phone = false
  /\ store st1 !! "CA1" ≫= (fun s => s !! "phone") = Some phone
  /\ (exists u1 u2 u3 u4 u5,
         fst out = Ok [Play u1; Play u2; Play u3; Play u4; Play u5; Hangup])
  /\ store (snd out) !! "CA1" = None.
Proof.
  cbv zeta. repeat split; try (vm_compute; reflexivity).
  do 5 eexists. vm_compute. reflexivity.
Qed.

(** * Further properties of the handlers *)

(** ** Calls do not interfere *)

Lemma turn_keeps_other_call {L : PyLib} (C : Config) (t : Turn L) (st : State)
      (cid : string) :
  cid <> sid_of (turn_form t) ->
  store (snd (handle C t st)) !! cid = store st !! cid.
Proof.
  intros Hne.
  destruct (handle_store_change C t st)
    as [-> | d _ -> | s0 v _ _ -> | s0 _ _ ->].
  - reflexivity.
  - apply lookup_insert_ne. congruence.
  - apply lookup_insert_ne. congruence.
  - apply lookup_delete_ne. congruence.
Qed.

(** X1. Callbacks of other calls never change the session of a call.
    The key of a session is the sanitized call identifier of the callback
    ([CallSid] trimmed and without the characters [<], [>], [;], [{],
    [}]): after any sequence of booking callbacks whose sanitized call
    identifiers all differ from [cid], the store holds for [cid] exactly
    what it held before. *)
Theorem other_calls_leave_session {L : PyLib} (C : Config) (ts : list (Turn L))
        (st : State) (cid : string) :
  Forall (fun t => sid_of (turn_form t) <> cid) ts ->
  store (run_turns C ts st) !! cid = store st !! cid.
Proof.
  revert st. induction ts as [|t ts IH]; intros st Hall; [reflexivity|].
  apply Forall_cons in Hall as [Ht Hts]. cbn [run_turns].
  rewrite (IH _ Hts). apply turn_keeps_other_call. congruence.
Qed.

Lemma other_calls_leave_session_witness :
  store (run_turns Demo.cfg
           [mkTurn AwaitingDoctor Demo.world_free (Demo.form_of "CA2" "Jones");
            mkTurn AwaitingTime Demo.world_busy
              (Demo.form_of "CA2" "Monday at 2 PM")]
           (Demo.state_of "CA1" Demo.session_patel)) !! "CA1"
  = Some Demo.session_patel.
Proof.
  refine (other_calls_leave_session Demo.cfg _ _ "CA1" _).
  repeat constructor; vm_compute; discriminate.
Defined.

(** ** The guest record *)

(** The pattern of [GuestInfo.phone], whose [$] is the end of the string,
    accepts exactly the E.164-like shape. *)
Lemma match_phone_end_spec (s : string) :
  match_phone dollar_end s = e164_like s.
Proof.
  unfold match_phone, e164_like, dollar_end.
  destruct (skip_plus s) as [|c r]; [reflexivity|].
  destruct (is_digit_1_9 c); cbn [andb]; [|reflexivity].
  pose proof (take_drop 14 r) as Hsplit.
  pose proof (take_all_digits 14 r) as Hds.
  pose proof (take_length 14 r) as H14.
  destruct (all_digits r && (1 <=? String.length r)%nat
            && (String.length r <=? 14)%nat) eqn:Hr.
  - apply andb_prop in Hr as [[Hd Hlo]%andb_prop Hhi].
    apply Nat.leb_le in Hlo, Hhi.
    destruct (take_run 14 r "" Hd Hhi I) as [Htake Hdrop].
    rewrite append_empty in Htake, Hdrop. rewrite Htake, Hdrop.
    apply andb_true_intro. split; [apply Nat.leb_le; lia|reflexivity].
  - apply not_true_is_false. intros [Hlo He]%andb_prop.
    apply Nat.leb_le in Hlo. apply String.eqb_eq in He.
    rewrite He, append_empty in Hsplit.
    rewrite Hsplit, Hds in Hr. cbn [andb] in Hr.
    apply andb_false_iff in Hr as [Hr|Hr]; apply Nat.leb_gt in Hr; lia.
Qed.

(** What a validated guest record is made of. *)
Lemma guest_after_validation (L : PyLib) (guest_data v : Receptionist.GuestInfo) :
  Receptionist.validate_input L guest_data = Some v ->
  Receptionist.name v
  = Receptionist._sanitize_string (Receptionist.name guest_data)
  /\ Receptionist.phone v
     = Receptionist._sanitize_string (Receptionist.phone guest_data)
  /\ Receptionist.purpose v
     = Receptionist._sanitize_string (Receptionist.purpose guest_data)
  /\ EmailStr L (Receptionist._sanitize_string (Receptionist.email guest_data))
     = Some (Receptionist.email v)
  /\ 2 <= String.length (Receptionist.name v) <= 100
  /\ 5 <= String.length (Receptionist.purpose v) <= 200
  /\ e164_like (Receptionist.phone v) = true
  /\ all_chars not_markup (Receptionist.name v) = true
  /\ all_chars not_markup (Receptionist.phone v) = true
  /\ all_chars not_markup (Receptionist.purpose v) = true.
Proof.
  unfold Receptionist.validate_input, Receptionist.GuestInfo_validate.
  cbn [Receptionist.name Receptionist.email Receptionist.phone
       Receptionist.purpose].
  destruct (EmailStr L _) as [e|]; [|discriminate].
  destruct (_ && _) eqn:Hchecks; [|discriminate].
  intros [= <-].
  cbn [Receptionist.name Receptionist.email Receptionist.phone
       Receptionist.purpose].
  apply andb_prop in Hchecks as [[Hn Hp]%andb_prop Hq].
  unfold Receptionist.length_between in Hn, Hq.
  apply andb_prop in Hn as [Hn1 Hn2]. apply andb_prop in Hq as [Hq1 Hq2].
  apply Nat.leb_le in Hn1, Hn2, Hq1, Hq2.
  rewrite match_phone_end_spec in Hp.
  repeat split; try assumption; apply all_chars_keep.
Qed.

(** X2. What [validate_input] returns is the sanitized input: every field
    is the trimmed input without markup characters, the name has 2 to 100
    characters, the purpose 5 to 200, the phone is of the E.164-like shape
    (with no trailing newline), and the email is what [EmailStr] made of
    the sanitized address. *)
Theorem validated_guest_shape (L : PyLib) (guest_data v : Receptionist.GuestInfo) :
  Receptionist.validate_input L guest_data = Some v ->
  Receptionist.name v
  = Receptionist._sanitize_string (Receptionist.name guest_data)
  /\ Receptionist.phone v
     = Receptionist._sanitize_string (Receptionist.phone guest_data)
  /\ Receptionist.purpose v
     = Receptionist._sanitize_string (Receptionist.purpose guest_data)
  /\ EmailStr L (Receptionist._sanitize_string (Receptionist.email guest_data))
     = Some (Receptionist.email v)
  /\ 2 <= String.length (Receptionist.name v) <= 100
  /\ 5 <= String.length (Receptionist.purpose v) <= 200
  /\ e164_like (Receptionist.phone v) = true
  /\ all_chars not_markup (Receptionist.name v) = true
  /\ all_chars not_markup (Receptionist.phone v) = true
  /\ all_chars not_markup (Receptionist.purpose v) = true.
Proof. exact (guest_after_validation L guest_data v). Qed.

Lemma validated_guest_shape_witness :
  e164_like "+15551234567" = true
  /\ 2 <= String.length "Jane Doe" <= 100.
Proof.
  destruct (validated_guest_shape Demo.lib
              (Booking.guest_data_of " Jane Doe" "+15551234567 " "Patel"
                 "2025-06-10T14:00:00")
              {| Receptionist.name := "Jane Doe";
                 Receptionist.email := ".jane.doe@example.com";
                 Receptionist.phone := "+15551234567";
                 Receptionist.purpose :=
                   "Appointment with Dr. Patel at 2025-06-10T14:00:00" |}
              ltac:(vm_compute; reflexivity))
    as (_ & _ & _ & _ & Hn & _ & Hp & _).
  split; [exact Hp|exact Hn].
Defined.


(** ** What a completed booking implies *)

(** What stands behind a [Hangup] of the address step. *)
Lemma hangup_premises {L : PyLib} (C : Config) (w : World L)
        (form : gmap string string) (st : State) (resp : Response) :
  fst (Booking.capture_user_address C w form st) = Ok resp ->
  In Hangup resp ->
  exists session name phone doctor time_text g link,
    PyStr.truthy (sid_of form) = true
    /\ store st !! sid_of form = Some session
    /\ PyStr.truthy (speech_of form) = true
    /\ session !! "name" = Some name
    /\ session !! "phone" = Some phone
    /\ session !! "doctor" = Some doctor
    /\ session !! "time_text" = Some time_text
    /\ Receptionist.validate_input L
         (Booking.guest_data_of name phone doctor time_text) = Some g
    /\ Calendly.create_calendly_appointment C w doctor "general" name
         (Receptionist.email g) time_text = Some link
    /\ PyStr.truthy link = true
    /\ e164_like (Receptionist._sanitize_string phone) = true.
Proof.
  intros Hok Hhang. unfold Booking.capture_user_address in Hok.
  pose proof (hangup_from_body _ _ _ _ _ Hok Hhang) as Hbody.
  match type of Hbody with
  | _ = (_, ?s) => revert Hbody; generalize s
  end.
  clear Hok. intros st'.
  unfold Booking._generate_audio_url, sid_of, speech_of. unfold_monad.
  destruct (PyStr.truthy (Booking._sanitize_input (form_get form "CallSid")))
    eqn:Hsid; cbn [negb]; [|discriminate].
  cbn [store].
  destruct (store st !! _) as [session|] eqn:Hsess; [|discriminate].
  destruct (PyStr.truthy (Booking._sanitize_input (form_get form "SpeechResult")))
    eqn:Haddr; cbn [negb]; [|discriminate].
  cbn [store log]. rewrite !lookup_insert_ne by discriminate.
  destruct (session !! "name") as [name|] eqn:Hname; [|discriminate].
  destruct (session !! "phone") as [phone|] eqn:Hphone; [|discriminate].
  destruct (session !! "doctor") as [doctor|] eqn:Hdoctor; [|discriminate].
  destruct (session !! "time_text") as [time_text|] eqn:Htime; [|discriminate].
  destruct (Receptionist.validate_input L _) as [g|] eqn:Hg; [|discriminate].
  do 4 (audio_step; [|discriminate]).
  cbn [store log].
  destruct (Calendly.create_calendly_appointment _ _ _ _ _ _ _) as [link|]
    eqn:Hlink; [|discriminate].
  destruct (PyStr.truthy link) eqn:Htruthy; cbn [negb]; [|discriminate].
  intros _.
  exists session, name, phone, doctor, time_text, g, link.
  repeat split; try assumption.
  destruct (guest_after_validation L _ g Hg) as (_ & Hp & _ & _ & _ & _ & He & _).
  rewrite Hp in He. exact He.
Qed.

(** X3. A response of the address step that ends the call with [Hangup]
    is given only when the call identifier had a session holding name,
    phone, doctor and time, the address was not empty, the derived guest
    record validated, and the appointment creation returned a non-empty
    link. The phone of such a session is of the E.164-like shape once it is
    trimmed. *)
Theorem completion_requires {L : PyLib} (C : Config) (w : World L)
        (form : gmap string string) (st : State) (resp : Response) :
  fst (Booking.capture_user_address C w form st) = Ok resp ->
  In Hangup resp ->
  exists session name phone doctor time_text g link,
    PyStr.truthy (sid_of form) = true
    /\ store st !! sid_of form = Some session
    /\ PyStr.truthy (speech_of form) = true
    /\ session !! "name" = Some name
    /\ session !! "phone" = Some phone
    /\ session !! "doctor" = Some doctor
    /\ session !! "time_text" = Some time_text
    /\ Receptionist.validate_input L
         (Booking.guest_data_of name phone doctor time_text) = Some g
    /\ Calendly.create_calendly_appointment C w doctor "general" name
         (Receptionist.email g) time_text = Some link
    /\ PyStr.truthy link = true
    /\ e164_like (Receptionist._sanitize_string phone) = true.
Proof. exact (hangup_premises C w form st resp). Qed.

Lemma completion_requires_witness :
  exists session name phone doctor time_text g link,
    PyStr.truthy (sid_of (Demo.form_of "CA1" "1 Main St")) = true
    /\ store (Demo.state_of "CA1" Demo.session_patel)
         !! sid_of (Demo.form_of "CA1" "1 Main St") = Some session
    /\ PyStr.truthy (speech_of (Demo.form_of "CA1" "1 Main St")) = true
    /\ session !! "name" = Some name
    /\ session !! "phone" = Some phone
    /\ session !! "doctor" = Some doctor
    /\ session !! "time_text" = Some time_text
    /\ Receptionist.validate_input Demo.lib
         (Booking.guest_data_of name phone doctor time_text) = Some g
    /\ Calendly.create_calendly_appointment Demo.cfg Demo.world_free doctor
         "general" name (Receptionist.email g) time_text = Some link
    /\ PyStr.truthy link = true
    /\ e164_like (Receptionist._sanitize_string phone) = true.
Proof.
  refine (completion_requires Demo.cfg Demo.world_free
            (Demo.form_of "CA1" "1 Main St")
            (Demo.state_of "CA1" Demo.session_patel)
            [Play "https://audio.example/Confirming your booking details.";
             Play "https://audio.example/You want to book with Doctor Patel at 2025-06-10T14:00:00.";
             Play "https://audio.example/Your name is Jane Doe, phone +15551234567, address 1 Main St.";
             Play "https://audio.example/Booking your appointment now.";
             Play "https://audio.example/Your appointment has been successfully booked. A confirmation message has been sent to your phone.";
             Hangup] _ _).
  - vm_compute. reflexivity.
  - cbn. tauto.
Defined.

(** ** Creating the appointment *)

(** What stands behind a created scheduling link. *)
Lemma created_link_premises {L : PyLib} (C : Config) (w : World L)
        (doctor department user_name user_email appointment_time url : string) :
  Calendly.create_calendly_appointment C w doctor department user_name
    user_email appointment_time = Some url ->
  exists event_type_uuid g start response,
    Calendly.event_map_get (DOCTOR_EVENT_MAP C)
      (Calendly._sanitize_input doctor, Calendly._sanitize_input department)
    = Some event_type_uuid
    /\ PyStr.truthy event_type_uuid = true
    /\ Receptionist.validate_input L
         {| Receptionist.name := Calendly._sanitize_input user_name;
            Receptionist.email := user_email;
            Receptionist.phone := "+1234567890";
            Receptionist.purpose :=
              "Appointment with " ++ Calendly._sanitize_input doctor ++ " in "
              ++ Calendly._sanitize_input department ++ " at "
              ++ appointment_time |} = Some g
    /\ Calendly._parse_datetime w appointment_time = Some start
    /\ requests_post w (Calendly.event_type_url event_type_uuid)
         (isoformat L start) (isoformat L (plus_minutes L start 30))
         (Receptionist.email g) (Receptionist.name g) = Some response
    /\ post_status_code response = 201%Z
    /\ booking_url response = Some url.
Proof.
  unfold Calendly.create_calendly_appointment,
    Calendly.create_calendly_appointment_body.
  destruct (Calendly.event_map_get _ _) as [uuid|] eqn:Hmap; [|discriminate].
  destruct (PyStr.truthy uuid) eqn:Huuid; cbn [negb]; [|discriminate].
  destruct (Receptionist.validate_input L _) as [g|] eqn:Hg; [|discriminate].
  destruct (Calendly._parse_datetime w appointment_time) as [start|] eqn:Hstart;
    [|discriminate].
  destruct (requests_post w _ _ _ _ _) as [response|] eqn:Hpost;
    cbn [of_service rbind]; [|discriminate].
  destruct (Z.eqb_spec (post_status_code response) 201) as [Hs|Hs];
    [|discriminate].
  destruct (booking_url response) as [u|] eqn:Hu; cbn [of_service];
    [|discriminate].
  intros [= <-]. exists uuid, g, start, response. repeat split; assumption.
Qed.

(** X4. [create_calendly_appointment] returns a URL only when the event
    map has a non-empty event type for the sanitized doctor and
    department, the guest data validate, the time parses, and the
    scheduling service answers 201 with that URL as booking URL for the
    half-hour slot that starts at the parsed time. *)
Theorem creation_success_inv {L : PyLib} (C : Config) (w : World L)
        (doctor department user_name user_email appointment_time url : string) :
  Calendly.create_calendly_appointment C w doctor department user_name
    user_email appointment_time = Some url ->
  exists event_type_uuid g start response,
    Calendly.event_map_get (DOCTOR_EVENT_MAP C)
      (Calendly._sanitize_input doctor, Calendly._sanitize_input department)
    = Some event_type_uuid
    /\ PyStr.truthy event_type_uuid = true
    /\ Receptionist.validate_input L
         {| Receptionist.name := Calendly._sanitize_input user_name;
            Receptionist.email := user_email;
            Receptionist.phone := "+1234567890";
            Receptionist.purpose :=
              "Appointment with " ++ Calendly._sanitize_input doctor ++ " in "
              ++ Calendly._sanitize_input department ++ " at "
              ++ appointment_time |} = Some g
    /\ Calendly._parse_datetime w appointment_time = Some start
    /\ requests_post w (Calendly.event_type_url event_type_uuid)
         (isoformat L start) (isoformat L (plus_minutes L start 30))
         (Receptionist.email g) (Receptionist.name g) = Some response
    /\ post_status_code response = 201%Z
    /\ booking_url response = Some url.
Proof. exact (created_link_premises C w doctor department user_name
                user_email appointment_time url). Qed.

Lemma creation_success_inv_witness :
  exists event_type_uuid,
    Calendly.event_map_get (DOCTOR_EVENT_MAP Demo.cfg)
      (Calendly._sanitize_input " Patel", Calendly._sanitize_input "General")
    = Some event_type_uuid
    /\ PyStr.truthy event_type_uuid = true.
Proof.
  destruct (creation_success_inv Demo.cfg Demo.world_free " Patel" "General"
              "Jane Doe" "jane.doe@example.com" "Monday at 2 PM"
              "https://calendly.com/d/abc" ltac:(vm_compute; reflexivity))
    as (uuid & _ & _ & _ & Hmap & Htruthy & _).
  exists uuid. split; [exact Hmap|exact Htruthy].
Defined.

(** The address step removes the session only together with the
    [Hangup] that completes the booking. *)
Lemma removal_means_hangup {L : PyLib} (C : Config) (w : World L)
      (form : gmap string string) (st : State) (session : gmap string string) :
  store st !! sid_of form = Some session ->
  store (snd (Booking.capture_user_address C w form st)) !! sid_of form = None ->
  exists resp, fst (Booking.capture_user_address C w form st) = Ok resp
               /\ In Hangup resp.
Proof.
  intros Hsess.
  unfold Booking.capture_user_address, Booking.on_error,
    Booking._generate_audio_url.
  unfold sid_of in *. unfold_monad.
  set (err := generate_audio w
    "An error occurred while booking your appointment. Please try again.").
  assert (Hkept : forall (r : result Response) (l : list Effect) a,
             store (snd (r, mkState
               (<[Booking._sanitize_input (form_get form "CallSid") := a]>
                  (store st)) l))
               !! Booking._sanitize_input (form_get form "CallSid") = None ->
             exists resp, fst (r, mkState
               (<[Booking._sanitize_input (form_get form "CallSid") := a]>
                  (store st)) l) = Ok resp /\ In Hangup resp).
  { intros r l a H. cbn [snd store] in H. rewrite lookup_insert_eq in H.
    discriminate H. }
  destruct (negb (PyStr.truthy _)).
  { cbn [snd store fst]. destruct err; cbn [snd store]; rewrite Hsess;
      discriminate. }
  cbn [store]. rewrite Hsess.
  destruct (negb (PyStr.truthy _)).
  { cbn [snd store fst]. destruct err; cbn [snd store]; rewrite Hsess;
      discriminate. }
  cbn [store log].
  destruct (_ !! "name") as [name|]; [|destruct err; apply Hkept].
  destruct (_ !! "phone") as [phone|]; [|destruct err; apply Hkept].
  destruct (_ !! "doctor") as [doctor|]; [|destruct err; apply Hkept].
  destruct (_ !! "time_text") as [time_text|]; [|destruct err; apply Hkept].
  destruct (Receptionist.validate_input L _) as [g|];
    [|destruct err; apply Hkept].
  do 4 (audio_step; [|destruct err; apply Hkept]).
  cbn [store log].
  destruct (Calendly.create_calendly_appointment _ _ _ _ _ _ _) as [link|];
    [|destruct err; apply Hkept].
  destruct (negb (PyStr.truthy link)); [destruct err; apply Hkept|].
  cbn [store log]. audio_step; [|destruct err; apply Hkept].
  intros _. eexists. split; [reflexivity|]. cbn. tauto.
Qed.

(** X5. Sessions are removed only by a completed booking: when a
    callback leaves no session where there was one, it was an address
    callback of that call and it answered with the [Hangup] of a completed
    booking. Nothing else in the dialogue removes or expires a session. *)
Theorem session_removed_only_on_completion {L : PyLib} (C : Config)
        (t : Turn L) (st : State) (cid : string) (session : gmap string string) :
  store st !! cid = Some session ->
  store (snd (handle C t st)) !! cid = None ->
  turn_step t = AwaitingAddress
  /\ cid = sid_of (turn_form t)
  /\ exists resp, fst (handle C t st) = Ok resp /\ In Hangup resp.
Proof.
  intros Hsess Hgone.
  destruct (decide (cid = sid_of (turn_form t))) as [->|Hne].
  2:{ rewrite (turn_keeps_other_call C t st cid Hne), Hsess in Hgone.
      discriminate Hgone. }
  destruct (handle_store_change C t st)
    as [Heq | d _ Heq | s0 v _ _ Heq | s0 Hstep _ _].
  - rewrite Heq, Hsess in Hgone. discriminate Hgone.
  - rewrite Heq, lookup_insert_eq in Hgone. discriminate Hgone.
  - rewrite Heq, lookup_insert_eq in Hgone. discriminate Hgone.
  - split; [exact Hstep|]. split; [reflexivity|].
    destruct t as [step w form]. cbn [turn_step turn_form] in *. subst step.
    unfold handle in *. cbn [turn_step turn_world turn_form] in *.
    exact (removal_means_hangup C w form st session Hsess Hgone).
Qed.

Lemma session_removed_only_on_completion_witness :
  exists resp,
    fst (handle Demo.cfg
           (mkTurn AwaitingAddress Demo.world_free
              (Demo.form_of "CA1" "1 Main St"))
           (Demo.state_of "CA1" Demo.session_patel)) = Ok resp
    /\ In Hangup resp.
Proof.
  refine (proj2 (proj2 (session_removed_only_on_completion Demo.cfg
            (mkTurn AwaitingAddress Demo.world_free
               (Demo.form_of "CA1" "1 Main St"))
            (Demo.state_of "CA1" Demo.session_patel) "CA1" Demo.session_patel
            _ _))); vm_compute; reflexivity.
Defined.

(** X6. A booking for a doctor without an entry for the department
    "general" in the event map never completes: the address step never
    answers with [Hangup] and the session stays in the store, although the
    time step may have reported the doctor available through the fallback
    event type. *)
Theorem unknown_doctor_never_completes {L : PyLib} (C : Config) (w : World L)
        (form : gmap string string) (st : State)
        (session : gmap string string) (doctor : string) :
  store st !! sid_of form = Some session ->
  session !! "doctor" = Some doctor ->
  Calendly.event_map_get (DOCTOR_EVENT_MAP C)
    (Calendly._sanitize_input doctor, "general") = None ->
  (forall resp, fst (Booking.capture_user_address C w form st) = Ok resp ->
                ~ In Hangup resp)
  /\ is_Some (store (snd (Booking.capture_user_address C w form st))
                !! sid_of form).
Proof.
  intros Hsess Hdoc Hmap.
  assert (Hno : forall resp,
             fst (Booking.capture_user_address C w form st) = Ok resp ->
             ~ In Hangup resp).
  { intros resp Hok Hhang.
    destruct (hangup_premises C w form st resp Hok Hhang)
      as (s & n & p & d & tt & g & link & _ & Hs & _ & _ & _ & Hd & _ & _
          & Hlink & _).
    rewrite Hsess in Hs. injection Hs as <-.
    rewrite Hdoc in Hd. injection Hd as <-.
    destruct (created_link_premises C w _ _ _ _ _ _ Hlink)
      as (uuid & _ & _ & _ & Hget & _).
    change (Calendly._sanitize_input "general") with "general" in Hget.
    rewrite Hmap in Hget. discriminate Hget. }
  split; [exact Hno|].
  destruct (store (snd (Booking.capture_user_address C w form st))
              !! sid_of form) as [s'|] eqn:Hafter; [eauto|].
  destruct (removal_means_hangup C w form st session Hsess Hafter)
    as (resp & Hok & Hhang).
  contradiction (Hno resp Hok Hhang).
Qed.

Lemma unknown_doctor_never_completes_witness :
  is_Some (store (snd (Booking.capture_user_address Demo.cfg Demo.world_free
                         (Demo.form_of "CA1" "1 Main St")
                         (Demo.state_of "CA1"
                            (<["doctor" := "Dr. Who"]> Demo.session_patel))))
             !! "CA1").
Proof.
  refine (proj2 (unknown_doctor_never_completes Demo.cfg Demo.world_free
            (Demo.form_of "CA1" "1 Main St")
            (Demo.state_of "CA1" (<["doctor" := "Dr. Who"]> Demo.session_patel))
            (<["doctor" := "Dr. Who"]> Demo.session_patel) "Dr. Who" _ _ _));
    vm_compute; reflexivity.
Defined.


(** ** The availability oracle and the time parser *)

Lemma parse_datetime_same_now {L : PyLib} (w1 w2 : World L) (time_text : string) :
  now w1 = now w2 ->
  Calendly._parse_datetime w1 time_text = Calendly._parse_datetime w2 time_text.
Proof.
  intros Hnow. unfold Calendly._parse_datetime, Calendly.parse_natural.
  rewrite Hnow. reflexivity.
Qed.

(** X7. [create_calendly_appointment] never asks whether the slot is
    free: its result depends on the services only through the clock and the
    scheduling-link request, so two worlds that agree on those give the
    same result whatever the scheduled-events query answers. *)
Theorem creation_ignores_availability {L : PyLib} (C : Config) (w1 w2 : World L)
        (doctor department user_name user_email appointment_time : string) :
  now w1 = now w2 ->
  (forall owner t1 t2 email name,
      requests_post w1 owner t1 t2 email name
      = requests_post w2 owner t1 t2 email name) ->
  Calendly.create_calendly_appointment C w1 doctor department user_name
    user_email appointment_time
  = Calendly.create_calendly_appointment C w2 doctor department user_name
      user_email appointment_time.
Proof.
  intros Hnow Hpost.
  unfold Calendly.create_calendly_appointment,
    Calendly.create_calendly_appointment_body.
  rewrite (parse_datetime_same_now w1 w2 appointment_time Hnow).
  destruct (Calendly.event_map_get _ _) as [uuid|]; [|reflexivity].
  destruct (negb _); [reflexivity|].
  destruct (Receptionist.validate_input L _) as [g|]; [|reflexivity].
  destruct (Calendly._parse_datetime w2 appointment_time) as [start|];
    [|reflexivity].
  rewrite Hpost. reflexivity.
Qed.

Lemma creation_ignores_availability_witness :
  Calendly.is_time_available Demo.cfg Demo.world_busy "Patel"
    "2025-06-10T14:00:00" = false
  /\ Calendly.create_calendly_appointment Demo.cfg Demo.world_busy "Patel"
       "general" "Jane Doe" "jane.doe@example.com" "2025-06-10T14:00:00"
     = Calendly.create_calendly_appointment Demo.cfg Demo.world_free "Patel"
         "general" "Jane Doe" "jane.doe@example.com" "2025-06-10T14:00:00".
Proof.
  split; [vm_compute; reflexivity|].
  apply (creation_ignores_availability Demo.cfg Demo.world_busy Demo.world_free);
    reflexivity.
Defined.

(** X8. [is_time_available] answers [True] only when the sanitized doctor
    name is not empty, the time parses, the event map is not empty, and the
    scheduling service answered 200 with no scheduled event in the
    half-hour slot of the doctor's general event type, or of the first
    event type of the map when the doctor has none. *)
Theorem availability_true_inv {L : PyLib} (C : Config) (w : World L)
        (doctor time_text : string) :
  Calendly.is_time_available C w doctor time_text = true ->
  exists start fallback response,
    PyStr.truthy (Calendly._sanitize_input doctor) = true
    /\ Calendly._parse_datetime w time_text = Some start
    /\ Calendly.first_event_type (DOCTOR_EVENT_MAP C) = Ok fallback
    /\ requests_get w
         (Calendly.event_type_url
            (default fallback
               (Calendly.event_map_get (DOCTOR_EVENT_MAP C)
                  (Calendly._sanitize_input doctor, "general"))))
         (isoformat L start) (isoformat L (plus_minutes L start 30))
       = Some response
    /\ get_status_code response = 200%Z
    /\ collection response = Some [].
Proof.
  unfold Calendly.is_time_available, Calendly.is_time_available_body.
  destruct (PyStr.truthy (Calendly._sanitize_input doctor)) eqn:Hd;
    cbn [negb]; [|discriminate].
  destruct (Calendly._parse_datetime w time_text) as [start|] eqn:Hstart;
    [|discriminate].
  destruct (Calendly.first_event_type (DOCTOR_EVENT_MAP C)) as [fallback|] eqn:Hf;
    cbn [rbind]; [|discriminate].
  destruct (requests_get w _ _ _) as [response|] eqn:Hget;
    cbn [of_service rbind]; [|discriminate].
  destruct (Z.eqb_spec (get_status_code response) 200) as [Hs|Hs];
    [|discriminate].
  destruct (collection response) as [[|ev evs]|] eqn:Hc;
    cbn [of_service rbind]; try discriminate.
  intros _. exists start, fallback, response. repeat split; assumption.
Qed.

Lemma availability_true_inv_witness :
  exists start fallback response,
    PyStr.truthy (Calendly._sanitize_input "Dr. Who") = true
    /\ Calendly._parse_datetime Demo.world_free "Monday at 2 PM" = Some start
    /\ Calendly.first_event_type (DOCTOR_EVENT_MAP Demo.cfg) = Ok fallback
    /\ requests_get Demo.world_free
         (Calendly.event_type_url
            (default fallback
               (Calendly.event_map_get (DOCTOR_EVENT_MAP Demo.cfg)
                  (Calendly._sanitize_input "Dr. Who", "general"))))
         (isoformat Demo.lib start)
         (isoformat Demo.lib (plus_minutes Demo.lib start 30))
       = Some response
    /\ get_status_code response = 200%Z
    /\ collection response = Some [].
Proof.
  apply (availability_true_inv Demo.cfg Demo.world_free "Dr. Who" "Monday at 2 PM").
  vm_compute. reflexivity.
Defined.

(** X9. A time that is not in ISO format and that [_parse_datetime]
    accepts has the form [day at time] once in lower case: the trimmed
    [day] is a weekday name of [day_map], numbered 0 (monday) to 6
    (sunday); the hour is the first run of digits of [time], plus 12 when
    [time] holds [pm] and the number is below 12, and lies between 0 and
    23; the result is that hour of the day that lies [days] days after
    today, where [days] is the distance modulo 7 from today's weekday to
    the named one, and 7 when the two are the same, so 1 to 7 and never
    today. *)
Theorem natural_time_within_a_week {L : PyLib} (w : World L)
        (time_text : string) (d : datetime L) :
  fromisoformat L time_text = None ->
  Calendly._parse_datetime w time_text = Some d ->
  exists day time ds target,
    PyStr.split " at " (PyStr.lower time_text) = [day; time]
    /\ Calendly.day_map (PyStr.strip day) = Some target
    /\ PyStr.search_digits time = Some ds
    /\ let n := PyStr.int_of_digits ds in
       let hour := if PyStr.contains "pm" time && (n <? 12)%Z
                   then (n + 12)%Z else n in
       let gap := ((target - weekday L (now w)) mod 7)%Z in
       let days := if (gap =? 0)%Z then 7%Z else gap in
       (0 <= target <= 6)%Z
       /\ (0 <= hour <= 23)%Z
       /\ (1 <= days <= 7)%Z
       /\ d = at_hour L (plus_days L (now w) days) hour.
Proof.
  intros Hiso. unfold Calendly._parse_datetime, Calendly.parse_natural.
  rewrite Hiso.
  destruct (PyStr.contains " at " (PyStr.lower time_text)); [|discriminate].
  destruct (PyStr.split " at " (PyStr.lower time_text))
    as [|day [|time [|more rest]]] eqn:Hsplit; try discriminate.
  destruct (PyStr.search_digits time) as [ds|] eqn:Hds; [|discriminate].
  destruct (Calendly.day_map (PyStr.strip day)) as [target|] eqn:Hday;
    [|discriminate].
  set (hour := if PyStr.contains "pm" time && (PyStr.int_of_digits ds <? 12)%Z
               then (PyStr.int_of_digits ds + 12)%Z
               else PyStr.int_of_digits ds).
  destruct ((0 <=? hour)%Z && (hour <=? 23)%Z) eqn:Hh; [|discriminate].
  intros [= <-].
  apply andb_prop in Hh as [H0 H23]. apply Z.leb_le in H0, H23.
  assert (Htarget : (0 <= target <= 6)%Z).
  { unfold Calendly.day_map in Hday.
    repeat match type of Hday with
           | (if ?b then _ else _) = _ => destruct b
           end; inversion Hday; lia. }
  exists day, time, ds, target.
  split; [reflexivity|]. split; [exact Hday|]. split; [exact Hds|].
  cbv zeta. fold hour.
  replace ((target - weekday L (now w) + 7) mod 7)%Z
    with ((target - weekday L (now w)) mod 7)%Z
    by (rewrite <- (Z_mod_plus_full (target - weekday L (now w)) 1 7);
        f_equal; lia).
  set (gap := ((target - weekday L (now w)) mod 7)%Z).
  assert (Hgap : (0 <= gap < 7)%Z) by (apply Z.mod_pos_bound; lia).
  split; [exact Htarget|]. split; [lia|]. split; [|reflexivity].
  destruct (Z.eqb_spec gap 0); lia.
Qed.

Lemma natural_time_within_a_week_witness :
  exists day time ds target,
    PyStr.split " at " (PyStr.lower "Monday at 2 PM") = [day; time]
    /\ Calendly.day_map (PyStr.strip day) = Some target
    /\ PyStr.search_digits time = Some ds
    /\ let n := PyStr.int_of_digits ds in
       let hour := if PyStr.contains "pm" time && (n <? 12)%Z
                   then (n + 12)%Z else n in
       let gap := ((target - weekday Demo.lib (now Demo.world_free)) mod 7)%Z in
       let days := if (gap =? 0)%Z then 7%Z else gap in
       (0 <= target <= 6)%Z
       /\ (0 <= hour <= 23)%Z
       /\ (1 <= days <= 7)%Z
       /\ (10920%Z : datetime Demo.lib)
          = at_hour Demo.lib (plus_days Demo.lib (now Demo.world_free) days) hour.
Proof.
  apply (natural_time_within_a_week Demo.world_free "Monday at 2 PM");
    vm_compute; reflexivity.
Defined.


(** ** The calls a callback makes *)

Lemma app_nil_end (l : list Effect) : l = (l ++ [])%list.
Proof. symmetry. apply app_nil_r. Qed.

Lemma address_turn_calls {L : PyLib} (C : Config) (w : World L)
      (form : gmap string string) (st : State) :
  exists calls,
    log (snd (Booking.capture_user_address C w form st))
    = (log st ++ calls)%list
    /\ turn_calls C w AwaitingAddress calls.
Proof.
  unfold Booking.capture_user_address. rewrite snd_try_on_error.
  unfold Booking._generate_audio_url. unfold_monad.
  assert (Hnone : forall (r : result Response) m,
             exists calls,
               log (snd (r, mkState m (log st))) = (log st ++ calls)%list
               /\ turn_calls C w AwaitingAddress calls).
  { intros r m. exists []. split; [apply app_nil_end|constructor]. }
  assert (Hsame : forall r : result Response,
             exists calls,
               log (snd (r, st)) = (log st ++ calls)%list
               /\ turn_calls C w AwaitingAddress calls).
  { intros r. exists []. split; [apply app_nil_end|constructor]. }
  destruct (negb (PyStr.truthy _)); [apply Hsame|].
  cbn [store].
  destruct (store st !! _) as [session|]; [|apply Hsame].
  destruct (negb (PyStr.truthy _)); [apply Hsame|].
  cbn [store log].
  destruct (_ !! "name") as [name|]; [|apply Hnone].
  destruct (_ !! "phone") as [phone|]; [|apply Hnone].
  destruct (_ !! "doctor") as [doctor|]; [|apply Hnone].
  destruct (_ !! "time_text") as [time_text|]; [|apply Hnone].
  destruct (Receptionist.validate_input L _) as [g|]; [|apply Hnone].
  do 4 (audio_step; [|apply Hnone]).
  cbn [store log].
  destruct (Calendly.create_calendly_appointment _ _ _ _ _ _ _) as [link|]
    eqn:Hlink.
  2:{ eexists. split; [reflexivity|].
      apply calls_creation_failed; [symmetry; exact Hlink|exact I]. }
  destruct (PyStr.truthy link) eqn:Htruthy; cbn [negb].
  2:{ eexists. split; [reflexivity|].
      apply calls_creation_failed; [symmetry; exact Hlink|exact Htruthy]. }
  cbn [store log].
  audio_step; cbn [snd log]; rewrite <- app_assoc; eexists;
    (split; [reflexivity|]); cbn [app].
  - apply calls_booking; assumption.
  - apply calls_booking; assumption.
Qed.

(** How one callback extends the log. *)
Lemma turn_log_growth {L : PyLib} (C : Config) (t : Turn L) (st : State) :
  exists calls,
    log (snd (handle C t st)) = (log st ++ calls)%list
    /\ turn_calls C (turn_world t) (turn_step t) calls
    /\ count_creations calls <= 1
    /\ count_sms calls <= count_creations calls.
Proof.
  assert (Hcount : forall (w : World L) s calls,
             turn_calls C w s calls ->
             count_creations calls <= 1
             /\ count_sms calls <= count_creations calls).
  { intros w s calls H. destruct H; cbn; lia. }
  assert (Hwrap : forall (w : World L) s,
             (exists calls,
                 log (snd (handle C (mkTurn s w (turn_form t)) st))
                 = (log st ++ calls)%list
                 /\ turn_calls C w s calls) ->
             exists calls,
               log (snd (handle C (mkTurn s w (turn_form t)) st))
               = (log st ++ calls)%list
               /\ turn_calls C w s calls
               /\ count_creations calls <= 1
               /\ count_sms calls <= count_creations calls).
  { intros w s (calls & Hlog & Hcalls). exists calls.
    split; [exact Hlog|]. split; [exact Hcalls|]. exact (Hcount _ _ _ Hcalls). }
  destruct t as [step w form]. cbn [turn_step turn_world turn_form] in *.
  apply Hwrap. unfold handle. cbn [turn_step turn_world turn_form].
  destruct step.
  - exists []. split; [|constructor]. rewrite app_nil_r.
    unfold Booking.capture_doctor_name. rewrite snd_try_on_error.
    unfold Booking._generate_audio_url. unfold_monad.
    destruct (negb _); [reflexivity|]. destruct (negb _).
    + audio_step; reflexivity.
    + cbn [store log]. repeat audio_step; reflexivity.
  - unfold Booking.capture_appointment_time. rewrite snd_try_on_error.
    unfold Booking._generate_audio_url. unfold_monad.
    assert (Hnone : forall (r : result Response) m,
               exists calls,
                 log (snd (r, mkState m (log st))) = (log st ++ calls)%list
                 /\ turn_calls C w AwaitingTime calls).
    { intros r m. exists []. split; [apply app_nil_end|constructor]. }
    assert (Hsame : forall r : result Response,
               exists calls,
                 log (snd (r, st)) = (log st ++ calls)%list
                 /\ turn_calls C w AwaitingTime calls).
    { intros r. exists []. split; [apply app_nil_end|constructor]. }
    destruct (negb _); [apply Hsame|]. cbn [store].
    destruct (store st !! _) as [session|]; [|apply Hsame].
    destruct (negb _); [apply Hsame|]. cbn [store log].
    destruct (_ !! "doctor") as [doctor|]; [|apply Hnone]. cbn [store log].
    eexists. split; [|apply calls_availability].
    destruct (negb _); repeat audio_step; reflexivity.
  - exists []. split; [|constructor]. rewrite app_nil_r.
    unfold Booking.capture_user_name. rewrite snd_try_on_error.
    unfold Booking._generate_audio_url. unfold_monad.
    destruct (negb _); [reflexivity|]. cbn [store].
    destruct (store st !! _); [|reflexivity].
    destruct (negb _); [reflexivity|]. cbn [store log].
    audio_step; reflexivity.
  - exists []. split; [|constructor]. rewrite app_nil_r.
    unfold Booking.capture_user_phone. rewrite snd_try_on_error.
    unfold Booking._generate_audio_url. unfold_monad.
    destruct (negb _); [reflexivity|]. cbn [store].
    destruct (store st !! _); [|reflexivity].
    destruct (_ || _); [reflexivity|]. cbn [store log].
    audio_step; reflexivity.
  - apply address_turn_calls.
Qed.

(** X10. The collaborator calls of one callback: the doctor, name and
    phone steps make none; the time step makes at most one availability
    query; the address step makes at most one appointment-creation call,
    and one confirmation SMS call only after a creation that returned a
    non-empty link. Nothing is ever removed from the log. *)
Theorem calls_of_a_turn {L : PyLib} (C : Config) (t : Turn L) (st : State) :
  exists calls,
    log (snd (handle C t st)) = (log st ++ calls)%list
    /\ turn_calls C (turn_world t) (turn_step t) calls
    /\ count_creations calls <= 1
    /\ count_sms calls <= count_creations calls.
Proof. exact (turn_log_growth C t st). Qed.


(** ** Accepted input *)

Ltac all_audio w Hup :=
  repeat match goal with
         | |- context [generate_audio w ?text] =>
             let u := fresh "u" in
             destruct (audio_up_some w text Hup) as [u ->]
         end.

Ltac only_gather :=
  let a := fresh "a" in
  let H := fresh "H" in
  intros a; cbn [In]; split;
  [intros H; repeat (destruct H as [H|H]; [try discriminate H|]);
   try contradiction; try (injection H as <-; reflexivity)
  |intros ->; tauto].

Lemma doctor_step_ok {L : PyLib} (w : World L) (form : gmap string string)
      (st : State) :
  PyStr.truthy (sid_of form) = true ->
  PyStr.truthy (speech_of form) = true ->
  audio_up w ->
  exists resp,
    Booking.capture_doctor_name w form st
    = (Ok resp,
       mkState (<[sid_of form := {[ "doctor" := speech_of form ]}]> (store st))
               (log st))
    /\ forall a, In (Gather a) resp <-> a = "/capture-appointment-time".
Proof.
  intros Hsid Hval Hup. unfold_booking. rewrite Hsid, Hval.
  cbn [negb store log]. all_audio w Hup.
  eexists. split; [reflexivity|]. only_gather.
Qed.

Lemma time_step_ok {L : PyLib} (C : Config) (w : World L)
      (form : gmap string string) (st : State)
      (session : gmap string string) (doctor : string) :
  PyStr.truthy (sid_of form) = true ->
  store st !! sid_of form = Some session ->
  session !! "doctor" = Some doctor ->
  PyStr.truthy (speech_of form) = true ->
  Calendly.is_time_available C w doctor (speech_of form) = true ->
  audio_up w ->
  exists resp,
    Booking.capture_appointment_time C w form st
    = (Ok resp,
       mkState (<[sid_of form := <["time_text" := speech_of form]> session]>
                  (store st))
               (log st ++ [CallIsAvailable doctor (speech_of form) true]))
    /\ forall a, In (Gather a) resp <-> a = "/capture-user-name".
Proof.
  intros Hsid Hsess Hdoc Hval Hfree Hup. unfold_booking.
  rewrite Hsid. cbn [negb store]. rewrite Hsess, Hval. cbn [negb store log].
  rewrite lookup_insert_ne by discriminate. rewrite Hdoc, Hfree.
  cbn [negb store log]. all_audio w Hup.
  eexists. split; [reflexivity|]. only_gather.
Qed.

Lemma name_step_ok {L : PyLib} (w : World L) (form : gmap string string)
      (st : State) (session : gmap string string) :
  PyStr.truthy (sid_of form) = true ->
  store st !! sid_of form = Some session ->
  PyStr.truthy (speech_of form) = true ->
  audio_up w ->
  exists resp,
    Booking.capture_user_name w form st
    = (Ok resp,
       mkState (<[sid_of form := <["name" := speech_of form]> session]>
                  (store st))
               (log st))
    /\ forall a, In (Gather a) resp <-> a = "/capture-user-phone".
Proof.
  intros Hsid Hsess Hval Hup. unfold_booking.
  rewrite Hsid. cbn [negb store]. rewrite Hsess, Hval. cbn [negb store log].
  all_audio w Hup. eexists. split; [reflexivity|]. only_gather.
Qed.

Lemma phone_step_ok {L : PyLib} (w : World L) (form : gmap string string)
      (st : State) (session : gmap string string) :
  PyStr.truthy (sid_of form) = true ->
  store st !! sid_of form = Some session ->
  step_input_valid AwaitingPhone form = true ->
  audio_up w ->
  exists resp,
    Booking.capture_user_phone w form st
    = (Ok resp,
       mkState (<[sid_of form :=
                    <["phone" := Booking.clean_phone (form_get form "SpeechResult")]>
                      session]> (store st))
               (log st))
    /\ forall a, In (Gather a) resp <-> a = "/capture-user-address".
Proof.
  intros Hsid Hsess Hval Hup. cbn [step_input_valid] in Hval. unfold_booking.
  rewrite Hsid. cbn [negb store]. rewrite Hsess.
  rewrite <- negb_andb, Hval. cbn [negb store log].
  all_audio w Hup. eexists. split; [reflexivity|]. only_gather.
Qed.

(** X11. An accepted input advances the dialogue by exactly one step.
    For the doctor, time, name and phone steps: with a call identifier, a
    session (after the doctor step), a valid input, for the time step a
    positive answer of the availability oracle, and a working text to
    speech, the step writes its value into its field and answers with
    prompts whose only gather posts to the endpoint of the next step. *)
Theorem accepted_turn_advances {L : PyLib} (C : Config) (t : Turn L) (st : State)
        (session : gmap string string) :
  turn_step t <> AwaitingAddress ->
  PyStr.truthy (sid_of (turn_form t)) = true ->
  (turn_step t <> AwaitingDoctor ->
   store st !! sid_of (turn_form t) = Some session) ->
  (turn_step t = AwaitingTime ->
   exists doctor,
     session !! "doctor" = Some doctor
     /\ Calendly.is_time_available C (turn_world t) doctor
          (speech_of (turn_form t)) = true) ->
  step_input_valid (turn_step t) (turn_form t) = true ->
  audio_up (turn_world t) ->
  exists resp,
    fst (handle C t st) = Ok resp
    /\ (forall a, In (Gather a) resp <-> a = next_endpoint (turn_step t))
    /\ store (snd (handle C t st)) !! sid_of (turn_form t)
         ≫= (fun s => s !! field_of (turn_step t))
       = Some (step_value (turn_step t) (turn_form t)).
Proof.
  destruct t as [step w form]. cbn [turn_step turn_world turn_form].
  intros Hstep Hsid Hsess Hfree Hval Hup. unfold handle.
  cbn [turn_step turn_world turn_form].
  destruct step; [| | | |congruence];
    cbn [next_endpoint field_of step_value step_input_valid] in *.
  - destruct (doctor_step_ok w form st Hsid Hval Hup) as (resp & -> & Hg).
    exists resp. cbn [fst snd store]. split; [reflexivity|]. split; [exact Hg|].
    rewrite lookup_insert_eq. cbn. apply lookup_singleton_eq.
  - specialize (Hsess ltac:(discriminate)).
    destruct (Hfree eq_refl) as (doctor & Hdoc & Hav).
    destruct (time_step_ok C w form st session doctor Hsid Hsess Hdoc Hval Hav Hup)
      as (resp & -> & Hg).
    exists resp. cbn [fst snd store]. split; [reflexivity|]. split; [exact Hg|].
    rewrite lookup_insert_eq. cbn. apply lookup_insert_eq.
  - specialize (Hsess ltac:(discriminate)).
    destruct (name_step_ok w form st session Hsid Hsess Hval Hup)
      as (resp & -> & Hg).
    exists resp. cbn [fst snd store]. split; [reflexivity|]. split; [exact Hg|].
    rewrite lookup_insert_eq. cbn. apply lookup_insert_eq.
  - specialize (Hsess ltac:(discriminate)).
    destruct (phone_step_ok w form st session Hsid Hsess Hval Hup)
      as (resp & -> & Hg).
    exists resp. cbn [fst snd store]. split; [reflexivity|]. split; [exact Hg|].
    rewrite lookup_insert_eq. cbn. apply lookup_insert_eq.
Qed.

Lemma accepted_turn_advances_witness :
  exists resp,
    fst (handle Demo.cfg
           (mkTurn AwaitingTime Demo.world_free
              (Demo.form_of "CA1" "Monday at 2 PM"))
           (Demo.state_of "CA1" Demo.session_smith)) = Ok resp
    /\ (forall a, In (Gather a) resp <-> a = "/capture-user-name")
    /\ store (snd (handle Demo.cfg
                     (mkTurn AwaitingTime Demo.world_free
                        (Demo.form_of "CA1" "Monday at 2 PM"))
                     (Demo.state_of "CA1" Demo.session_smith)))
         !! "CA1" ≫= (fun s => s !! "time_text")
       = Some "Monday at 2 PM".
Proof.
  refine (accepted_turn_advances Demo.cfg
            (mkTurn AwaitingTime Demo.world_free
               (Demo.form_of "CA1" "Monday at 2 PM"))
            (Demo.state_of "CA1" Demo.session_smith) Demo.session_smith
            _ _ _ _ _ _).
  - discriminate.
  - reflexivity.
  - intros _. reflexivity.
  - intros _. exists "Smith". split; vm_compute; reflexivity.
  - reflexivity.
  - intros text. eexists. reflexivity.
Defined.


(** ** The whole dialogue *)

(** X12. Five accepted callbacks of one call, in step order, book one
    appointment: whatever the store held for the call before, afterwards
    it holds no session for it, and the log has gained exactly one
    availability query, one appointment-creation call and one confirmation
    SMS call, made with the values the caller gave. *)
Theorem five_turns_book_once {L : PyLib} (C : Config)
        (w1 w2 w3 w4 w5 : World L) (f1 f2 f3 f4 f5 : gmap string string)
        (st : State) (cid doctor time_text name phone : string)
        (g : Receptionist.GuestInfo) (link : string) :
  PyStr.truthy cid = true ->
  sid_of f1 = cid -> sid_of f2 = cid -> sid_of f3 = cid ->
  sid_of f4 = cid -> sid_of f5 = cid ->
  speech_of f1 = doctor -> PyStr.truthy doctor = true ->
  speech_of f2 = time_text -> PyStr.truthy time_text = true ->
  Calendly.is_time_available C w2 doctor time_text = true ->
  speech_of f3 = name -> PyStr.truthy name = true ->
  Booking.clean_phone (form_get f4 "SpeechResult") = phone ->
  PyStr.truthy phone = true -> re_match_phone phone = true ->
  PyStr.truthy (speech_of f5) = true ->
  Receptionist.validate_input L
    (Booking.guest_data_of name phone doctor time_text) = Some g ->
  Calendly.create_calendly_appointment C w5 doctor "general" name
    (Receptionist.email g) time_text = Some link ->
  PyStr.truthy link = true ->
  audio_up w1 -> audio_up w2 -> audio_up w3 -> audio_up w4 -> audio_up w5 ->
  let st' :=
    run_turns C
      [mkTurn AwaitingDoctor w1 f1; mkTurn AwaitingTime w2 f2;
       mkTurn AwaitingName w3 f3; mkTurn AwaitingPhone w4 f4;
       mkTurn AwaitingAddress w5 f5] st in
  store st' = delete cid (store st)
  /\ log st'
     = (log st
        ++ [CallIsAvailable doctor time_text true;
            CallCreateAppointment doctor "general" name (Receptionist.email g)
              time_text (Some link);
            CallSendSms phone doctor time_text link
              (Messaging.send_confirmation_sms C w5 phone doctor time_text
                 link)])%list.
Proof.
  intros Hcid H1 H2 H3 H4 H5 Hd Hdt Ht Htt Hfree Hn Hnt Hp Hpt Hpm Hat Hg
         Hlink Hlt U1 U2 U3 U4 U5 st'.
  subst st'. cbn [run_turns]. unfold handle.
  cbn [turn_step turn_world turn_form].
  destruct (doctor_step_ok w1 f1 st) as (r1 & -> & _);
    [rewrite H1; exact Hcid|rewrite Hd; exact Hdt|exact U1|].
  cbn [snd]. rewrite H1, Hd.
  set (s1 := ({[ "doctor" := doctor ]} : gmap string string)).
  destruct (time_step_ok C w2 f2
              (mkState (<[cid := s1]> (store st)) (log st)) s1 doctor)
    as (r2 & -> & _);
    [rewrite H2; exact Hcid
    |rewrite H2; apply lookup_insert_eq
    |apply lookup_singleton_eq
    |rewrite Ht; exact Htt
    |rewrite Ht; exact Hfree
    |exact U2|].
  cbn [snd store log]. rewrite H2, Ht.
  set (s2 := <["time_text" := time_text]> s1).
  destruct (name_step_ok w3 f3
              (mkState (<[cid := s2]> (<[cid := s1]> (store st)))
                       (log st ++ [CallIsAvailable doctor time_text true])) s2)
    as (r3 & -> & _);
    [rewrite H3; exact Hcid
    |rewrite H3; apply lookup_insert_eq
    |rewrite Hn; exact Hnt
    |exact U3|].
  cbn [snd store log]. rewrite H3, Hn.
  set (s3 := <["name" := name]> s2).
  destruct (phone_step_ok w4 f4
              (mkState (<[cid := s3]> (<[cid := s2]> (<[cid := s1]> (store st))))
                       (log st ++ [CallIsAvailable doctor time_text true])) s3)
    as (r4 & -> & _);
    [rewrite H4; exact Hcid
    |rewrite H4; apply lookup_insert_eq
    |cbn [step_input_valid]; rewrite Hp, Hpt, Hpm; reflexivity
    |exact U4|].
  cbn [snd store log]. rewrite H4, Hp.
  set (s4 := <["phone" := phone]> s3).
  set (st4 := mkState _ _).
  assert (Hs4 : store st4 !! sid_of f5 = Some s4).
  { rewrite H5. subst st4. cbn [store]. apply lookup_insert_eq. }
  destruct (address_step_completes C w5 f5 st4 s4 name phone doctor time_text)
    with (g := g) (link := link) as (Hstore & Hlog & _);
    try assumption.
  - rewrite H5. exact Hcid.
  - subst s4 s3. rewrite lookup_insert_ne by discriminate.
    apply lookup_insert_eq.
  - subst s4. apply lookup_insert_eq.
  - subst s4 s3 s2 s1. rewrite !lookup_insert_ne by discriminate.
    apply lookup_singleton_eq.
  - subst s4 s3 s2. rewrite !lookup_insert_ne by discriminate.
    apply lookup_insert_eq.
  - rewrite Hstore, Hlog, H5. subst st4. cbn [store log].
    rewrite !delete_insert_eq, <- app_assoc. split; reflexivity.
Qed.

Lemma five_turns_book_once_witness :
  let st' :=
    run_turns Demo.cfg
      [mkTurn AwaitingDoctor Demo.world_free (Demo.form_of "CA1" "Patel");
       mkTurn AwaitingTime Demo.world_free
         (Demo.form_of "CA1" "2025-06-10T14:00:00");
       mkTurn AwaitingName Demo.world_free (Demo.form_of "CA1" "Jane Doe");
       mkTurn AwaitingPhone Demo.world_free
         (Demo.form_of "CA1" "+1 555-123-4567");
       mkTurn AwaitingAddress Demo.world_no_sms
         (Demo.form_of "CA1" "1 Main St")] empty_state in
  store st' = delete "CA1" (store empty_state)
  /\ log st'
     = [CallIsAvailable "Patel" "2025-06-10T14:00:00" true;
        CallCreateAppointment "Patel" "general" "Jane Doe"
          "jane.doe@example.com" "2025-06-10T14:00:00"
          (Some "https://calendly.com/d/abc");
        CallSendSms "+15551234567" "Patel" "2025-06-10T14:00:00"
          "https://calendly.com/d/abc" false].
Proof.
  assert (Hup : forall w : World Demo.lib,
             generate_audio w = generate_audio Demo.world_free -> audio_up w).
  { intros w Hw text. rewrite Hw. eexists. reflexivity. }
  refine (five_turns_book_once Demo.cfg Demo.world_free Demo.world_free
            Demo.world_free Demo.world_free Demo.world_no_sms
            _ _ _ _ _ empty_state "CA1" "Patel" "2025-06-10T14:00:00"
            "Jane Doe" "+15551234567"
            {| Receptionist.name := "Jane Doe";
               Receptionist.email := "jane.doe@example.com";
               Receptionist.phone := "+15551234567";
               Receptionist.purpose :=
                 "Appointment with Dr. Patel at 2025-06-10T14:00:00" |}
            "https://calendly.com/d/abc"
            _ _ _ _ _ _ _ _ _ _ _ _ _ _ _ _ _ _ _ _ _ _ _ _ _);
    try (vm_compute; reflexivity); apply Hup; reflexivity.
Defined.


(** ** Where the responses lead *)

Ltac route_leaf :=
  cbn [fst]; repeat audio_step; cbn [fst]; first [exact I | reflexivity].

Lemma address_targets {L : PyLib} (C : Config) (w : World L)
      (form : gmap string string) (st : State) :
  match fst (Booking.capture_user_address C w form st) with
  | Ok resp => targets_are_routes resp = true
  | Raise _ => True
  end.
Proof.
  unfold_booking.
  destruct (negb (PyStr.truthy _)); [route_leaf|]. cbn [store].
  destruct (store st !! _) as [session|]; [|route_leaf].
  destruct (negb (PyStr.truthy _)); [route_leaf|]. cbn [store log].
  destruct (_ !! "name") as [name|]; [|route_leaf].
  destruct (_ !! "phone") as [phone|]; [|route_leaf].
  destruct (_ !! "doctor") as [doctor|]; [|route_leaf].
  destruct (_ !! "time_text") as [time_text|]; [|route_leaf].
  destruct (Receptionist.validate_input L _) as [g|]; [|route_leaf].
  do 4 (audio_step; [|route_leaf]). cbn [store log].
  destruct (Calendly.create_calendly_appointment _ _ _ _ _ _ _) as [link|];
    [|route_leaf].
  destruct (negb (PyStr.truthy link)); route_leaf.
Qed.

(** X13. The booking dialogue never sends the caller to an endpoint the
    application does not serve: in every response of the entry handler and
    of the five step handlers, each gather action and each redirect is one
    of the routes registered in [app.py]. *)
Theorem booking_targets_are_routes {L : PyLib} (C : Config) (t : Turn L)
        (st : State) :
  match fst (BookingEntry.handle_booking (turn_world t) st) with
  | Ok resp => targets_are_routes resp = true
  | Raise _ => True
  end
  /\ match fst (handle C t st) with
     | Ok resp => targets_are_routes resp = true
     | Raise _ => True
     end.
Proof.
  destruct t as [step w form]. cbn [turn_world]. split.
  - unfold BookingEntry.handle_booking, Booking._generate_audio_url.
    unfold_monad. route_leaf.
  - unfold handle. cbn [turn_step turn_world turn_form].
    destruct step; [| | | |apply address_targets]; unfold_booking.
    + destruct (negb _); [route_leaf|]. destruct (negb _); route_leaf.
    + destruct (negb _); [route_leaf|]. cbn [store].
      destruct (store st !! _); [|route_leaf].
      destruct (negb _); [route_leaf|]. cbn [store log].
      destruct (_ !! "doctor"); [|route_leaf]. cbn [store log].
      destruct (negb _); route_leaf.
    + destruct (negb _); [route_leaf|]. cbn [store].
      destruct (store st !! _); [|route_leaf].
      destruct (negb _); route_leaf.
    + destruct (negb _); [route_leaf|]. cbn [store].
      destruct (store st !! _); [|route_leaf].
      destruct (_ || _); route_leaf.
Qed.

(** X14. The route [/process-selection] never runs the keypad menu:
    its view imports [services.intent_handler], whose top reads [os]
    without importing it, so a request that passes the key check, the rate
    limiter and the JSON check ends in [InternalServerError] with the state
    unchanged, and no request at all is answered with TwiML. *)
Theorem selection_route_fails {L : PyLib} (C : Config) (G : App.Guard)
        (w : World L) (req : App.Request) (st : State) :
  (App.authorized G req = true -> App.limit_exceeded G = false ->
   App.is_json req = true ->
   App.process_selection C G w req st
   = (App.Failed (App.InternalServerError "Internal server error"), st))
  /\ (forall resp,
         fst (App.process_selection C G w req st) <> App.Done (App.Twiml resp)).
Proof.
  unfold App.process_selection, App.route, App.require_api_key, App.limits,
    App.handle_exceptions, App.view, App.authorized.
  unfold bind, lift. cbn [Intent.module_top Intent.global_name existsb
    Intent.imported String.eqb Ascii.eqb Bool.eqb orb rbind].
  split.
  - destruct (App.api_key req) as [key|]; [|discriminate].
    rewrite <- negb_andb. intros -> -> ->. reflexivity.
  - intros resp.
    destruct (App.api_key req) as [key|]; [|discriminate].
    destruct (_ || _); [discriminate|].
    destruct (App.limit_exceeded G); [discriminate|].
    destruct (negb (App.is_json req)); discriminate.
Qed.

Lemma selection_route_fails_witness :
  let G := {| App.check_password_hash := fun hash key => String.eqb hash key;
              App.API_KEY_HASH := "secret";
              App.limit_exceeded := false |} in
  let req := {| App.api_key := Some "secret"; App.is_json := true;
                App.form := Demo.digits_of "CA1f0" "5" |} in
  App.process_selection Demo.cfg G Demo.world_free req empty_state
  = (App.Failed (App.InternalServerError "Internal server error"), empty_state).
Proof.
  cbv zeta.
  refine (proj1 (selection_route_fails Demo.cfg _ Demo.world_free _ _) _ _ _);
    reflexivity.
Defined.


(** ** Starting over *)

Lemma handle_booking_spec {L : PyLib} (w : World L) (st : State) :
  snd (BookingEntry.handle_booking w st) = st
  /\ (audio_up w ->
      exists u1 u2,
        fst (BookingEntry.handle_booking w st)
        = Ok [Play u1; Gather "/capture-doctor-name"; Play u2;
              Redirect "/book-appointment"]).
Proof.
  unfold BookingEntry.handle_booking, Booking._generate_audio_url.
  unfold_monad. split.
  - repeat audio_step; reflexivity.
  - intros Hup. all_audio w Hup. eauto.
Qed.

(** X15. A rejected input costs the caller the whole session. A callback
    whose own check fails answers with a redirect to [/book-appointment];
    the entry handler there only prompts for the doctor and gathers to the
    doctor step; and the doctor step, given a valid name, replaces the
    session of the call by one that holds the new doctor alone. So after a
    rejected callback and the restart that it leads to, the fields
    collected before are gone. *)
Theorem retry_restarts_the_dialogue {L : PyLib} (C : Config) (t : Turn L)
        (w_entry w_doctor : World L) (form_doctor : gmap string string)
        (st : State) :
  step_input_valid (turn_step t) (turn_form t) = false ->
  audio_up (turn_world t) -> audio_up w_entry ->
  sid_of form_doctor = sid_of (turn_form t) ->
  PyStr.truthy (sid_of form_doctor) = true ->
  PyStr.truthy (speech_of form_doctor) = true ->
  let st1 := snd (handle C t st) in
  let st2 := snd (BookingEntry.handle_booking w_entry st1) in
  let st3 := snd (Booking.capture_doctor_name w_doctor form_doctor st2) in
  (exists u, fst (handle C t st) = Ok [Play u; Redirect "/book-appointment"])
  /\ (exists u1 u2,
         fst (BookingEntry.handle_booking w_entry st1)
         = Ok [Play u1; Gather "/capture-doctor-name"; Play u2;
               Redirect "/book-appointment"])
  /\ st2 = st
  /\ store st3 !! sid_of (turn_form t)
     = Some {[ "doctor" := speech_of form_doctor ]}.
Proof.
  intros Hbad Hup Hentry Hsame Hsid Hval st1 st2 st3.
  destruct (invalid_input_rejected C t st Hbad) as [Hst Hresp].
  destruct (handle_booking_spec w_entry st1) as [Hst2 Hprompt].
  subst st3 st2. rewrite Hst2. subst st1. rewrite Hst.
  split; [exact (Hresp Hup)|]. split; [rewrite <- Hst; exact (Hprompt Hentry)|].
  split; [reflexivity|].
  rewrite (doctor_step_replaces w_doctor form_doctor st Hsid Hval), Hsame.
  apply lookup_insert_eq.
Qed.

Lemma retry_restarts_the_dialogue_witness :
  store (snd (Booking.capture_doctor_name Demo.world_free
                (Demo.form_of "CA1" "Patel")
                (snd (BookingEntry.handle_booking Demo.world_free
                        (snd (handle Demo.cfg
                                (mkTurn AwaitingAddress Demo.world_free
                                   (Demo.form_of "CA1" " "))
                                (Demo.state_of "CA1" Demo.session_patel)))))))
    !! "CA1"
  = Some {[ "doctor" := "Patel" ]}.
Proof.
  refine (proj2 (proj2 (proj2 (retry_restarts_the_dialogue Demo.cfg
            (mkTurn AwaitingAddress Demo.world_free (Demo.form_of "CA1" " "))
            Demo.world_free Demo.world_free (Demo.form_of "CA1" "Patel")
            (Demo.state_of "CA1" Demo.session_patel) _ _ _ _ _ _))));
    try reflexivity; intros text; eexists; reflexivity.
Defined.

(** ** The confirmation message *)

Lemma length_append (a b : string) :
  String.length (a ++ b) = String.length a + String.length b.
Proof.
  induction a as [|c a IH]; [reflexivity|].
  rewrite append_cons. cbn [String.length]. rewrite IH. reflexivity.
Qed.

Lemma length_prefix (n : nat) (s : string) :
  n <= String.length s -> String.length (String.substring 0 n s) = n.
Proof.
  revert s. induction n as [|n IH]; intros s Hn.
  - destruct s; reflexivity.
  - destruct s as [|c s]; cbn [String.length] in Hn; [lia|].
    cbn [String.substring String.length]. rewrite IH; lia.
Qed.

(** The cut of a long message body. *)
Lemma truncate_body_facts (body : string) :
  String.length (Messaging.truncate_body body) <= 1600
  /\ (String.length body <= 1600 -> Messaging.truncate_body body = body)
  /\ (1600 < String.length body ->
      Messaging.truncate_body body = String.substring 0 1597 body ++ "..."
      /\ String.length (Messaging.truncate_body body) = 1600).
Proof.
  unfold Messaging.truncate_body.
  destruct (Nat.ltb_spec 1600 (String.length body)) as [Hlong|Hshort].
  - assert (Hlen : String.length (String.substring 0 1597 body ++ "...") = 1600).
    { rewrite length_append, length_prefix by lia. reflexivity. }
    split; [lia|]. split; [lia|]. intros _. split; [reflexivity|exact Hlen].
  - split; [lia|]. split; [reflexivity|lia].
Qed.

(** X16. The body of the confirmation SMS never exceeds the limit of
    1600 characters: a body within the limit is sent as it is, a longer one
    is cut to its first 1597 characters followed by three dots, which makes
    exactly 1600. *)
Theorem sms_body_within_limit (body : string) :
  String.length (Messaging.truncate_body body) <= 1600
  /\ (String.length body <= 1600 -> Messaging.truncate_body body = body)
  /\ (1600 < String.length body ->
      Messaging.truncate_body body = String.substring 0 1597 body ++ "..."
      /\ String.length (Messaging.truncate_body body) = 1600).
Proof. exact (truncate_body_facts body). Qed.

(** X17. [send_confirmation_sms] reports success only when the number,
    the doctor and the time are not empty after sanitization, the link
    parses with the scheme http or https and a host, the trimmed number is
    of the E.164-like shape, and the SMS gateway accepted a message to
    that number whose body is within the limit. *)
Theorem sms_sent_inv {L : PyLib} (C : Config) (w : World L)
        (to_number doctor time calendly_link : string) :
  Messaging.send_confirmation_sms C w to_number doctor time calendly_link = true ->
  exists scheme netloc path body message_sid,
    PyStr.truthy (Messaging._sanitize_input to_number) = true
    /\ PyStr.truthy (Messaging._sanitize_input doctor) = true
    /\ PyStr.truthy (Messaging._sanitize_input time) = true
    /\ urlparse L calendly_link = Some (scheme, netloc, path)
    /\ (scheme = "http" \/ scheme = "https")
    /\ PyStr.truthy netloc = true
    /\ e164_like (Receptionist._sanitize_string
                    (Messaging._sanitize_input to_number)) = true
    /\ String.length body <= 1600
    /\ messages_create w body (TWILIO_FROM_NUMBER C)
         (Receptionist._sanitize_string (Messaging._sanitize_input to_number))
       = Some message_sid.
Proof.
  unfold Messaging.send_confirmation_sms, Messaging._sanitize_url.
  destruct (urlparse L calendly_link) as [[[scheme netloc] path]|] eqn:Hurl;
    [|discriminate].
  destruct (String.eqb scheme "http" || String.eqb scheme "https") eqn:Hscheme;
    cbn [negb orb]; [|discriminate].
  destruct (PyStr.truthy netloc) eqn:Hnet; cbn [negb]; [|discriminate].
  destruct (PyStr.truthy (Messaging._sanitize_input to_number)) eqn:Hto;
    cbn [andb negb]; [|discriminate].
  destruct (PyStr.truthy (Messaging._sanitize_input doctor)) eqn:Hd;
    cbn [andb negb]; [|discriminate].
  destruct (PyStr.truthy (Messaging._sanitize_input time)) eqn:Ht;
    cbn [andb negb]; [|discriminate].
  destruct (PyStr.truthy (urljoin L _ path)); cbn [negb]; [|discriminate].
  destruct (Receptionist.validate_input L _) as [g|] eqn:Hg; [|discriminate].
  destruct (guest_after_validation L _ g Hg) as (_ & Hp & _ & _ & _ & _ & He & _).
  cbn [Receptionist.phone] in Hp. rewrite Hp in He.
  destruct (messages_create w _ _ _) as [sid|] eqn:Hsend; [|discriminate].
  intros _. rewrite Hp in Hsend.
  eexists scheme, netloc, path, _, sid.
  repeat split; try eassumption.
  - apply orb_prop in Hscheme as [H|H]; apply String.eqb_eq in H; tauto.
  - apply truncate_body_facts.
Qed.

Lemma sms_sent_inv_witness :
  exists scheme netloc path,
    urlparse Demo.lib "https://calendly.com/d/abc" = Some (scheme, netloc, path)
    /\ (scheme = "http" \/ scheme = "https")
    /\ e164_like (Receptionist._sanitize_string
                    (Messaging._sanitize_input " +15551234567")) = true.
Proof.
  destruct (sms_sent_inv Demo.cfg Demo.world_free " +15551234567" "Patel"
              "2025-06-10T14:00:00" "https://calendly.com/d/abc"
              ltac:(vm_compute; reflexivity))
    as (scheme & netloc & path & body & sid & _ & _ & _ & Hurl & Hs & _ & He & _).
  exists scheme, netloc, path. split; [exact Hurl|]. split; [exact Hs|exact He].
Defined.

(** ** Sanitizing twice *)

(** X18. The values of the dialogue are sanitized again and again (by
    the handler, by [validate_input], by [send_confirmation_sms]). One
    pass need not be stable, but two are: sanitizing a sanitized value
    only trims it, and sanitizing that once more changes nothing. *)
Theorem sanitizing_settles (s : string) :
  Booking._sanitize_input (Booking._sanitize_input s)
  = PyStr.strip (Booking._sanitize_input s)
  /\ Booking._sanitize_input
       (Booking._sanitize_input (Booking._sanitize_input s))
     = Booking._sanitize_input (Booking._sanitize_input s)
  /\ Receptionist._sanitize_string (Booking._sanitize_input s)
     = Booking._sanitize_input (Booking._sanitize_input s).
Proof.
  assert (Hclean : forall x, all_chars not_markup x = true ->
                             Booking._sanitize_input x = PyStr.strip x).
  { intros x Hx. rewrite booking_sanitize_unfold. unfold strip_markup.
    apply keep_all_chars, all_chars_strip, Hx. }
  assert (H1 : all_chars not_markup (Booking._sanitize_input s) = true).
  { rewrite booking_sanitize_unfold. apply all_chars_keep. }
  split; [exact (Hclean _ H1)|]. split.
  - rewrite (Hclean _ H1).
    rewrite (Hclean _ (all_chars_strip _ _ H1)). apply strip_idempotent.
  - unfold Receptionist._sanitize_string. symmetry.
    apply booking_sanitize_unfold.
Qed.


(** ** The path of an availability document *)

Lemma replace_char_keeps (p : ascii -> bool) (a : ascii) (s : string) :
  all_chars p s = true -> all_chars p (PyStr.replace_char a "" s) = true.
Proof.
  induction s as [|c r IH]; [reflexivity|].
  cbn [all_chars PyStr.replace_char]. intros [Hc Hr]%andb_prop.
  destruct (Ascii.eqb c a).
  - rewrite append_nil. exact (IH Hr).
  - cbn [all_chars]. rewrite Hc. exact (IH Hr).
Qed.

Lemma replace_char_removes (a : ascii) (s : string) :
  all_chars (fun c => negb (Ascii.eqb c a)) (PyStr.replace_char a "" s) = true.
Proof.
  induction s as [|c r IH]; [reflexivity|].
  cbn [PyStr.replace_char]. destruct (Ascii.eqb c a) eqn:Hc.
  - rewrite append_nil. exact IH.
  - cbn [all_chars]. rewrite Hc. exact IH.
Qed.

Lemma all_chars_and (p q : ascii -> bool) (s : string) :
  all_chars p s = true -> all_chars q s = true ->
  all_chars (fun c => p c && q c) s = true.
Proof.
  induction s as [|c r IH]; [reflexivity|].
  cbn [all_chars]. intros [Hp Hr]%andb_prop [Hq Hr']%andb_prop.
  rewrite Hp, Hq. exact (IH Hr Hr').
Qed.

Example sanitize_path_examples :
  KnowledgeBase._sanitize_path (fun p => p) "../../etc/passwd.pdf"
  = Ok "pdfs/etcpasswd.pdf"
  /\ KnowledgeBase._sanitize_path (fun p => p) "notes.txt"
     = Raise (ValueError "File must be a PDF")
  /\ PyText.replace ".." "" "....a..." = "a.".
Proof. repeat split; reflexivity. Qed.

Lemma no_separator_start (s : string) :
  all_chars KnowledgeBase.no_separator s = true ->
  PyStr.starts_with "/" s = false.
Proof.
  destruct s as [|c r]; [reflexivity|].
  cbn [all_chars PyStr.starts_with]. unfold KnowledgeBase.no_separator.
  intros [[Hc _]%andb_prop _]%andb_prop.
  rewrite Ascii.eqb_sym. destruct (Ascii.eqb c "/"); [discriminate Hc|].
  reflexivity.
Qed.

(** X19. A path that [_sanitize_path] returns stays inside the directory
    [pdfs]: it is "pdfs/" followed by a name without slash or backslash,
    and it ends with ".pdf". Every other input raises [ValueError]. This
    holds whatever [os.path.normpath] does to the input. *)
Theorem sanitized_path_stays_in_pdfs (normpath : string -> string)
        (file_path : string) :
  match KnowledgeBase._sanitize_path normpath file_path with
  | Ok safe_path =>
      exists name,
        safe_path = "pdfs/" ++ name
        /\ all_chars KnowledgeBase.no_separator name = true
        /\ PyText.ends_with ".pdf" safe_path = true
  | Raise e => e = ValueError "File must be a PDF"
  end.
Proof.
  unfold KnowledgeBase._sanitize_path.
  set (name := PyStr.replace_char "\" ""
                 (PyStr.replace_char "/" ""
                    (PyText.replace ".." "" (normpath file_path)))).
  assert (Hname : all_chars KnowledgeBase.no_separator name = true).
  { unfold KnowledgeBase.no_separator. apply all_chars_and.
    - apply replace_char_keeps, replace_char_removes.
    - apply replace_char_removes. }
  assert (Hjoin : PyText.path_join "pdfs" name = "pdfs/" ++ name).
  { unfold PyText.path_join. rewrite (no_separator_start name Hname).
    reflexivity. }
  rewrite Hjoin.
  destruct (PyText.ends_with ".pdf" ("pdfs/" ++ name)) eqn:Hpdf; cbn [negb].
  - exists name. repeat split; assumption.
  - reflexivity.
Qed.

(** ** Text to speech *)

Lemma all_chars_prefix (p : ascii -> bool) (n : nat) (s : string) :
  all_chars p s = true -> all_chars p (PyText.prefix n s) = true.
Proof.
  unfold PyText.prefix. revert s. induction n as [|n IH]; intros s Hs.
  - destruct s; reflexivity.
  - destruct s as [|c r]; [reflexivity|].
    cbn [all_chars] in Hs. apply andb_prop in Hs as [Hc Hr].
    cbn [String.substring all_chars]. rewrite Hc. exact (IH r Hr).
Qed.

(** X20. The text that [_sanitize_text] passes on has at most 1000
    characters and none of the markup characters; it is the first 1000
    characters of what the sanitizer of the handlers makes of the input,
    and all of it when that is no longer than 1000. *)
Theorem sanitized_text_is_bounded (text : string) :
  String.length (Tts._sanitize_text text) <= 1000
  /\ all_chars not_markup (Tts._sanitize_text text) = true
  /\ (Tts._sanitize_text text
      = PyText.prefix 1000 (Booking._sanitize_input text)
      \/ (String.length (Booking._sanitize_input text) <= 1000
          /\ Tts._sanitize_text text = Booking._sanitize_input text)).
Proof.
  unfold Tts._sanitize_text, Booking._sanitize_input.
  destruct (PyStr.truthy text).
  2:{ split; [cbn; lia|]. split; [reflexivity|]. right. split; [cbn; lia|].
      reflexivity. }
  destruct (Nat.ltb_spec 1000 (String.length (strip_markup (PyStr.strip text))))
    as [Hlong|Hshort].
  - split; [unfold PyText.prefix; rewrite length_prefix; lia|].
    split; [apply all_chars_prefix, all_chars_keep|]. left. reflexivity.
  - split; [exact Hshort|]. split; [apply all_chars_keep|]. right.
    split; [exact Hshort|reflexivity].
Qed.

Lemma validate_text_rejects (L : PyLib) (text : string) :
  Tts._validate_text L text = false.
Proof.
  unfold Tts._validate_text, Receptionist.validate_input,
    Receptionist.GuestInfo_validate.
  cbn [Receptionist.name Receptionist.email Receptionist.phone
       Receptionist.purpose].
  destruct (EmailStr L _); [|reflexivity].
  replace (match_phone dollar_end (Receptionist._sanitize_string "****"))
    with false by reflexivity.
  rewrite andb_false_r. reflexivity.
Qed.

(** X21. As it is written, [generate_audio] of [utils/tts.py] never
    produces audio: [_validate_text] checks the text inside a guest record
    whose placeholder phone "****" fails the phone pattern, so it rejects
    every text, and [generate_audio] returns [None] for every input
    without calling the speech service or the object store. *)
Theorem tts_never_generates (L : PyLib) (S : Tts.Services)
        (text voice_id model language : string) :
  Tts._validate_text L text = false
  /\ Tts.generate_audio L S text voice_id model language = (None, []).
Proof.
  split; [apply validate_text_rejects|].
  unfold Tts.generate_audio. destruct (negb (PyStr.truthy _)); [reflexivity|].
  rewrite validate_text_rejects. reflexivity.
Qed.


(** ** The guards of a route *)

(** X22. The decorators of a route act in this order. A request without
    a valid API key is refused with [Unauthorized] before anything else. A
    request over the rate limit raises [RateLimitException] out of the
    route: the limiter wraps [handle_exceptions], so the answer 429 that
    [handle_exceptions] has for this exception is never given. A request
    that is not JSON gets the JSON error with status 400. In all three
    cases the handler does not run and the state is unchanged. An
    exception of the handler becomes [InternalServerError]. *)
Theorem route_guards (G : App.Guard)
        (handler : gmap string string -> M Response) (req : App.Request)
        (st : State) :
  (App.authorized G req = false ->
   App.route G handler req st
   = (App.Failed (App.Unauthorized "Invalid or missing API key"), st))
  /\ (App.authorized G req = true -> App.limit_exceeded G = true ->
      App.route G handler req st = (App.Failed App.RateLimitException, st))
  /\ (App.authorized G req = true -> App.limit_exceeded G = false ->
      App.is_json req = false ->
      App.route G handler req st
      = (App.Done (App.JsonError "400 Bad Request: Request must be JSON" 400),
         st))
  /\ (forall error, fst (App.route G handler req st)
                    <> App.Done (App.JsonError error 429))
  /\ (forall e, App.authorized G req = true -> App.limit_exceeded G = false ->
                App.is_json req = true ->
                fst (handler (App.form req) st) = Raise e ->
                fst (App.route G handler req st)
                = App.Failed (App.InternalServerError "Internal server error")).
Proof.
  unfold App.route, App.require_api_key, App.limits, App.handle_exceptions,
    App.view, App.authorized.
  repeat split.
  - destruct (App.api_key req) as [key|]; [|reflexivity].
    rewrite <- negb_andb. intros ->. reflexivity.
  - destruct (App.api_key req) as [key|]; [|discriminate].
    rewrite <- negb_andb. intros -> ->. reflexivity.
  - destruct (App.api_key req) as [key|]; [|discriminate].
    rewrite <- negb_andb. intros -> -> ->. reflexivity.
  - intros error.
    destruct (App.api_key req) as [key|]; [|discriminate].
    destruct (_ || _); [discriminate|].
    destruct (App.limit_exceeded G); [discriminate|].
    destruct (negb (App.is_json req)); [discriminate|].
    destruct (handler (App.form req) st) as [[resp|e] st']; discriminate.
  - intros e. destruct (App.api_key req) as [key|]; [|discriminate].
    rewrite <- negb_andb. intros -> -> -> He.
    destruct (handler (App.form req) st) as [[resp|e'] st']; [discriminate He|].
    reflexivity.
Qed.

Lemma route_guards_witness :
  let G := {| App.check_password_hash := fun hash key => String.eqb hash key;
              App.API_KEY_HASH := "secret";
              App.limit_exceeded := true |} in
  let req := {| App.api_key := Some "secret"; App.is_json := true;
                App.form := Demo.form_of "CA1" "Smith" |} in
  App.route G (fun form => handle Demo.cfg (mkTurn AwaitingDoctor Demo.world_free form))
    req empty_state
  = (App.Failed App.RateLimitException, empty_state).
Proof.
  cbv zeta.
  refine (proj1 (proj2 (route_guards _ _ _ _)) _ _); reflexivity.
Defined.

(** ** JSON requests and the form *)

Lemma empty_form_rejected (step : Step) :
  step_input_valid step ∅ = false.
Proof. destruct step; reflexivity. Qed.

(** X23. The views of [app.py] require a JSON request, while the
    handlers read the call identifier and the caller's input from the form
    fields. Under Flask's rule that a JSON request has no form fields, no
    request changes the session store through the routes of the booking
    steps or of the keypad menu: a request that reaches a step handler is
    answered as a rejected input, with the error prompt and the redirect to
    [/book-appointment]. *)
Theorem json_routes_never_touch_sessions {L : PyLib} (C : Config)
        (G : App.Guard) (step : Step) (w : World L) (req : App.Request)
        (st : State) :
  App.json_without_form req ->
  snd (App.step_route C G step w req st) = st
  /\ snd (App.process_selection C G w req st) = st
  /\ (App.authorized G req = true -> App.limit_exceeded G = false ->
      App.is_json req = true -> audio_up w ->
      exists u,
        fst (App.step_route C G step w req st)
        = App.Done (App.Twiml [Play u; Redirect "/book-appointment"])).
Proof.
  intros Hflask.
  unfold App.step_route, App.process_selection, App.route,
    App.require_api_key, App.limits, App.handle_exceptions, App.view,
    App.authorized.
  assert (Hstep : App.is_json req = true ->
                  snd (handle C (mkTurn step w (App.form req)) st) = st
                  /\ (audio_up w ->
                      exists u,
                        fst (handle C (mkTurn step w (App.form req)) st)
                        = Ok [Play u; Redirect "/book-appointment"])).
  { intros Hjson. rewrite (Hflask Hjson).
    apply (invalid_input_rejected C (mkTurn step w ∅) st).
    apply empty_form_rejected. }
  repeat split.
  - destruct (App.api_key req) as [key|]; [|reflexivity].
    destruct (_ || _); [reflexivity|].
    destruct (App.limit_exceeded G); [reflexivity|].
    destruct (App.is_json req) eqn:Hjson; [|reflexivity]. cbn [negb].
    destruct (Hstep eq_refl) as [Hst _].
    destruct (handle C (mkTurn step w (App.form req)) st) as [[resp|e] st'];
      exact Hst.
  - destruct (App.api_key req) as [key|]; [|reflexivity].
    destruct (_ || _); [reflexivity|].
    destruct (App.limit_exceeded G); [reflexivity|].
    destruct (negb (App.is_json req)); [reflexivity|].
    unfold bind, lift.
    pose proof (menu_keeps_state C w (App.form req) st) as Hst.
    destruct (Intent.module_top C); [|reflexivity].
    destruct (Intent.process_numeric_selection C w (App.form req) st)
      as [[resp|e] st']; exact Hst.
  - destruct (App.api_key req) as [key|]; [|discriminate].
    rewrite <- negb_andb. intros -> -> Hjson Hup. rewrite Hjson. cbn [negb].
    destruct (Hstep Hjson) as [_ Hresp]. destruct (Hresp Hup) as [u Hu].
    exists u.
    destruct (handle C (mkTurn step w (App.form req)) st) as [[resp|e] st'];
      cbn [fst] in Hu; [|discriminate Hu].
    injection Hu as ->. reflexivity.
Qed.

Lemma json_routes_never_touch_sessions_witness :
  let G := {| App.check_password_hash := fun hash key => String.eqb hash key;
              App.API_KEY_HASH := "secret";
              App.limit_exceeded := false |} in
  let req := {| App.api_key := Some "secret"; App.is_json := true;
                App.form := ∅ |} in
  snd (App.step_route Demo.cfg G AwaitingDoctor Demo.world_free req
         (Demo.state_of "CA1" Demo.session_smith))
  = Demo.state_of "CA1" Demo.session_smith.
Proof.
  cbv zeta.
  refine (proj1 (json_routes_never_touch_sessions Demo.cfg _ AwaitingDoctor
                   Demo.world_free _ _ _)).
  intros _. reflexivity.
Defined.


(** ** The doctor as a key *)

Lemma lower_char_idempotent (c : ascii) :
  PyStr.lower_char (PyStr.lower_char c) = PyStr.lower_char c.
Proof. destruct c as [[] [] [] [] [] [] [] []]; reflexivity. Qed.

Lemma is_space_lower (c : ascii) :
  PyStr.is_space (PyStr.lower_char c) = PyStr.is_space c.
Proof. destruct c as [[] [] [] [] [] [] [] []]; reflexivity. Qed.

Lemma lower_idempotent (s : string) : PyStr.lower (PyStr.lower s) = PyStr.lower s.
Proof.
  induction s as [|c r IH]; [reflexivity|].
  cbn [PyStr.lower]. rewrite lower_char_idempotent, IH. reflexivity.
Qed.

Lemma lstrip_lower (s : string) :
  PyStr.lstrip (PyStr.lower s) = PyStr.lower (PyStr.lstrip s).
Proof.
  induction s as [|c r IH]; [reflexivity|].
  cbn [PyStr.lower PyStr.lstrip]. rewrite is_space_lower.
  destruct (PyStr.is_space c); [exact IH|reflexivity].
Qed.

Lemma rstrip_lower (s : string) :
  PyStr.rstrip (PyStr.lower s) = PyStr.lower (PyStr.rstrip s).
Proof.
  induction s as [|c r IH]; [reflexivity|].
  cbn [PyStr.lower PyStr.rstrip]. rewrite IH, is_space_lower.
  destruct (PyStr.rstrip r) as [|a r']; cbn [PyStr.lower].
  - destruct (PyStr.is_space c); reflexivity.
  - reflexivity.
Qed.

Lemma strip_lower (s : string) :
  PyStr.strip (PyStr.lower s) = PyStr.lower (PyStr.strip s).
Proof. unfold PyStr.strip. rewrite lstrip_lower. apply rstrip_lower. Qed.

Lemma calendly_sanitize_unfold (s : string) :
  Calendly._sanitize_input s
  = strip_markup (PyStr.replace_char " " "_" (PyStr.lower (PyStr.strip s))).
Proof. destruct s; reflexivity. Qed.

Lemma calendly_sanitize_lower (s : string) :
  Calendly._sanitize_input (PyStr.lower s) = Calendly._sanitize_input s.
Proof.
  rewrite !calendly_sanitize_unfold, strip_lower, lower_idempotent.
  reflexivity.
Qed.

Lemma calendly_sanitize_strip (s : string) :
  Calendly._sanitize_input (PyStr.strip s) = Calendly._sanitize_input s.
Proof. rewrite !calendly_sanitize_unfold, strip_idempotent. reflexivity. Qed.

(** X24. The scheduling functions treat the doctor as a normalised key:
    [is_time_available] and [create_calendly_appointment] give the same
    answer for a doctor name, for the same name in lower case and for the
    same name with surrounding whitespace removed. *)
Theorem doctor_lookup_ignores_case {L : PyLib} (C : Config) (w : World L)
        (doctor time_text department user_name user_email : string) :
  Calendly.is_time_available C w (PyStr.lower doctor) time_text
  = Calendly.is_time_available C w doctor time_text
  /\ Calendly.is_time_available C w (PyStr.strip doctor) time_text
     = Calendly.is_time_available C w doctor time_text
  /\ Calendly.create_calendly_appointment C w (PyStr.lower doctor) department
       user_name user_email time_text
     = Calendly.create_calendly_appointment C w doctor department
         user_name user_email time_text
  /\ Calendly.create_calendly_appointment C w (PyStr.strip doctor) department
       user_name user_email time_text
     = Calendly.create_calendly_appointment C w doctor department
         user_name user_email time_text.
Proof.
  unfold Calendly.is_time_available, Calendly.is_time_available_body,
    Calendly.create_calendly_appointment,
    Calendly.create_calendly_appointment_body.
  rewrite calendly_sanitize_lower, calendly_sanitize_strip.
  repeat split; reflexivity.
Qed.

(** ** Calls over a whole run *)

Lemma count_creations_app (a b : list Effect) :
  count_creations (a ++ b) = count_creations a + count_creations b.
Proof. unfold count_creations. rewrite List.filter_app. apply length_app. Qed.

Lemma count_sms_app (a b : list Effect) :
  count_sms (a ++ b) = count_sms a + count_sms b.
Proof. unfold count_sms. rewrite List.filter_app. apply length_app. Qed.

Lemma creations_only_by_address {L : PyLib} (C : Config) (w : World L)
      (s : Step) (calls : list Effect) :
  turn_calls C w s calls -> s <> AwaitingAddress -> count_creations calls = 0.
Proof. intros H Hs. destruct H; try reflexivity; congruence. Qed.

(** X25. Over any sequence of booking callbacks the log only grows,
    there are at most as many appointment-creation calls as address
    callbacks, and at most as many confirmation SMS calls as
    appointment-creation calls. *)
Theorem calls_over_a_run {L : PyLib} (C : Config) (ts : list (Turn L))
        (st : State) :
  exists calls,
    log (run_turns C ts st) = (log st ++ calls)%list
    /\ count_creations calls <= count_address_turns ts
    /\ count_sms calls <= count_creations calls.
Proof.
  revert st. induction ts as [|t ts IH]; intros st.
  - exists []. cbn [run_turns]. rewrite app_nil_r. split; [reflexivity|].
    cbn. lia.
  - cbn [run_turns].
    destruct (turn_log_growth C t st) as (c1 & Hlog1 & Hcalls & Hone & Hsms1).
    destruct (IH (snd (handle C t st))) as (c2 & Hlog2 & Hcr2 & Hsms2).
    exists (c1 ++ c2)%list. rewrite Hlog2, Hlog1, <- app_assoc.
    split; [reflexivity|].
    rewrite count_creations_app, count_sms_app.
    unfold count_address_turns in *. cbn [List.filter].
    destruct (turn_step t); cbn [length];
      try (rewrite (creations_only_by_address C _ _ c1 Hcalls) in *
             by discriminate);
      lia.
Qed.

(** ** An address callback out of order *)

(** X26. An address callback for a session that lacks the name, the
    phone, the doctor or the time books nothing: the address is written to
    the session, no collaborator is called, the session stays, and the
    caller gets the error prompt with the redirect to [/book-appointment]. *)
Theorem incomplete_session_books_nothing {L : PyLib} (C : Config) (w : World L)
        (form : gmap string string) (st : State)
        (session : gmap string string) (missing : string) :
  PyStr.truthy (sid_of form) = true ->
  store st !! sid_of form = Some session ->
  PyStr.truthy (speech_of form) = true ->
  In missing ["name"; "phone"; "doctor"; "time_text"] ->
  session !! missing = None ->
  snd (Booking.capture_user_address C w form st)
  = mkState (<[sid_of form := <["address" := speech_of form]> session]>
               (store st)) (log st)
  /\ (audio_up w ->
      exists u, fst (Booking.capture_user_address C w form st)
                = Ok [Play u; Redirect "/book-appointment"]).
Proof.
  intros Hsid Hsess Haddr Hin Hmiss. unfold_booking.
  rewrite Hsid. cbn [negb store]. rewrite Hsess, Haddr. cbn [negb store log].
  rewrite !lookup_insert_ne by discriminate.
  assert (Hleaf : forall (e : exn) (st1 : State),
             snd (match
                    match generate_audio w
                            "An error occurred while booking your appointment. Please try again."
                    with
                    | Some a => Ok a
                    | None => Raise (ServiceError "generate_audio")
                    end
                  with
                  | Ok a => (Ok [Play a; Redirect "/book-appointment"], st1)
                  | Raise e' => (Raise e', st1)
                  end) = st1
             /\ (audio_up w ->
                 exists u,
                   fst (match
                          match generate_audio w
                                  "An error occurred while booking your appointment. Please try again."
                          with
                          | Some a => Ok a
                          | None => Raise (ServiceError "generate_audio")
                          end
                        with
                        | Ok a =>
                            (Ok [Play a; Redirect "/book-appointment"], st1)
                        | Raise e' => (Raise e', st1)
                        end)
                   = Ok [Play u; Redirect "/book-appointment"])).
  { intros e st1. split.
    - destruct (generate_audio w _); reflexivity.
    - intros Hup.
      destruct (audio_up_some w
        "An error occurred while booking your appointment. Please try again."
        Hup) as [u ->].
      exists u. reflexivity. }
  destruct (session !! "name") as [name|] eqn:Hname;
    [|exact (Hleaf (KeyError "name") _)].
  destruct (session !! "phone") as [phone|] eqn:Hphone;
    [|exact (Hleaf (KeyError "phone") _)].
  destruct (session !! "doctor") as [doctor|] eqn:Hdoctor;
    [|exact (Hleaf (KeyError "doctor") _)].
  destruct (session !! "time_text") as [time_text|] eqn:Htime;
    [|exact (Hleaf (KeyError "time_text") _)].
  exfalso. cbn [In] in Hin.
  destruct Hin as [<-|[<-|[<-|[<-|[]]]]]; congruence.
Qed.

Lemma incomplete_session_books_nothing_witness :
  snd (Booking.capture_user_address Demo.cfg Demo.world_free
         (Demo.form_of "CA1" "1 Main St")
         (Demo.state_of "CA1" Demo.session_smith))
  = mkState {[ "CA1" := <["address" := "1 Main St"]> Demo.session_smith ]} [].
Proof.
  refine (eq_trans
            (proj1 (incomplete_session_books_nothing Demo.cfg Demo.world_free
                      (Demo.form_of "CA1" "1 Main St")
                      (Demo.state_of "CA1" Demo.session_smith)
                      Demo.session_smith "name" _ _ _ _ _)) _);
    try reflexivity.
  cbn. tauto.
Defined.


(** ** The stored phone number *)

Lemma e164_length (t : string) :
  e164_like t = true -> 2 <= String.length t <= 16.
Proof.
  unfold e164_like.
  destruct (skip_plus_cases t) as [(r & -> & Hr) | [Hsame _]].
  - cbn [skip_plus]. destruct r as [|c r]; [discriminate|].
    intros [[_ Hlo]%andb_prop Hhi]%andb_prop.
    apply Nat.leb_le in Hlo, Hhi. cbn [String.length]. lia.
  - rewrite Hsame. destruct t as [|c r]; [discriminate|].
    intros [[_ Hlo]%andb_prop Hhi]%andb_prop.
    apply Nat.leb_le in Hlo, Hhi. cbn [String.length]. lia.
Qed.

Lemma clean_phone_chars (speech : string) :
  all_chars phone_char (Booking.clean_phone speech) = true.
Proof.
  unfold Booking.clean_phone, phone_char.
  apply all_chars_and; [apply all_chars_and|].
  - apply replace_char_keeps, replace_char_removes.
  - apply replace_char_removes.
  - apply replace_char_keeps, replace_char_keeps.
    rewrite booking_sanitize_unfold. apply all_chars_keep.
Qed.

(** X27. Whenever the phone step changes the state, the value it has
    written to [phone] is the spoken number without spaces, hyphens and
    markup characters, of 2 to 17 characters, and the store then holds
    exactly that value for the call. *)
Theorem committed_phone_shape {L : PyLib} (w : World L)
        (form : gmap string string) (st : State) :
  snd (Booking.capture_user_phone w form st) <> st ->
  let phone := Booking.clean_phone (form_get form "SpeechResult") in
  all_chars phone_char phone = true
  /\ 2 <= String.length phone <= 17
  /\ store (snd (Booking.capture_user_phone w form st)) !! sid_of form
       ≫= (fun s => s !! "phone") = Some phone.
Proof.
  intros Hchanged phone. split; [apply clean_phone_chars|]. split.
  - destruct (phone_step_commits_matched w form st Hchanged)
      as [He | (t & Ht & He)]; fold phone in He |- *.
    + apply e164_length in He. lia.
    + fold phone in Ht. rewrite Ht, length_append.
      apply e164_length in He. cbn [String.length]. lia.
  - pose proof (handle_store_change (Build_Config [] "" "" "" "" "")
                  (mkTurn AwaitingPhone w form) st) as Hchange.
    unfold handle in Hchange. cbn [turn_step turn_world turn_form] in Hchange.
    destruct (step_input_valid AwaitingPhone form) eqn:Hvalid.
    2:{ contradiction Hchanged.
        apply (invalid_input_rejected (Build_Config [] "" "" "" "" "")
                 (mkTurn AwaitingPhone w form) st Hvalid). }
    destruct (PyStr.truthy (sid_of form)) eqn:Hsid.
    2:{ contradiction Hchanged. unfold Booking.capture_user_phone.
        rewrite snd_try_on_error. unfold sid_of in Hsid. unfold_monad.
        rewrite Hsid. reflexivity. }
    destruct (store st !! sid_of form) as [session|] eqn:Hsess.
    2:{ contradiction Hchanged. unfold Booking.capture_user_phone.
        rewrite snd_try_on_error. unfold sid_of in Hsid, Hsess. unfold_monad.
        rewrite Hsid. cbn [negb store]. rewrite Hsess. reflexivity. }
    pose proof (middle_step_merges (Build_Config [] "" "" "" "" "")
                  (mkTurn AwaitingPhone w form) st session
                  (or_intror (or_intror eq_refl)) Hsid Hsess Hvalid) as Hstore.
    unfold handle in Hstore.
    cbn [turn_step turn_world turn_form field_of step_value] in Hstore.
    rewrite Hstore, lookup_insert_eq. cbn. apply lookup_insert_eq.
Qed.

Lemma committed_phone_shape_witness :
  2 <= String.length (Booking.clean_phone "+1 555-123-4567") <= 17.
Proof.
  refine (proj1 (proj2 (committed_phone_shape Demo.world_free
            (Demo.form_of "CA1" "+1 555-123-4567")
            (Demo.state_of "CA1" Demo.session_smith) _))).
  intros H.
  apply (f_equal (fun s => store s !! "CA1" ≫= (fun m => m !! "phone"))) in H.
  vm_compute in H. discriminate H.
Defined.

Lemma sms_body_within_limit_witness :
  Messaging.truncate_body "Your appointment is confirmed."
  = "Your appointment is confirmed.".
Proof.
  apply (sms_body_within_limit "Your appointment is confirmed.").
  cbn. lia.
Defined.
